(** * Optuna drivers and result analyzer of the doctor-ranking optimisation
    harness: a shallow embedding and its properties.

    Embedded sources
      - optimization/optimize_excellent_fit_top3.py
      - optimization/optimize_ranking.py
      - optimization/optimize_bm25_params.py
      - optimization/optimize_field_weights.py
      - optimization/optimize_stage_a_recall.py
      - optimization/analyze_optuna_results.py

    Conventions
      - Python [float] values are read as exact rationals ([Q]), without
        rounding.  [float()] of the evaluator's output may also give an
        infinity or NaN ([Py.float]); a trial that returns NaN fails as in
        Optuna, and where an infinity or NaN would be stored or written the
        run ends with the marker [Py.Unrepresentable].
      - Python [str] values are Rocq strings over ASCII.
      - A Python [dict] is an association list in insertion order with
        pairwise different keys.
      - Exceptions are threaded by an error monad over an explicit world
        holding the files, the Optuna storage and the lines printed to the
        standard error; what is printed to the standard output is left out.
      - The Optuna sampler, the Node evaluator and the clock are functions
        carried by the world, about which nothing is assumed. *)

From Stdlib Require Import ZArith QArith List String Ascii Bool Arith Lia.
From Stdlib Require Import Qabs Lqa Permutation Sorted DecimalString.
Import ListNotations.

Local Open Scope string_scope.
Local Open Scope list_scope.

(* ================================================================== *)
(** * Python runtime fragment *)
(* ================================================================== *)

Module Py.

(** Exceptions the embedded code can raise or meet.  [Unrepresentable] is no
    exception of Python: it marks the point where the program goes on with a
    float that is an infinity or NaN, which the study storage and the JSON
    values of this development do not hold; the run is followed no
    further. *)
Inductive exn : Type :=
| TrialPruned (msg : string)
| RuntimeError (msg : string)
| ValueError (msg : string)
| KeyError (key : string)
| TypeError (msg : string)
| StatisticsError (msg : string)
| FileNotFoundError (path : string)
| TimeoutExpired
| StopIteration
| SystemExit (code : Z)
| Unrepresentable (what : string).

Inductive result (A : Type) : Type :=
| Ok (a : A)
| Raise (e : exn).

Arguments Ok {A} a.
Arguments Raise {A} e.

Definition rbind {A B} (r : result A) (k : A -> result B) : result B :=
  match r with
  | Ok a => k a
  | Raise e => Raise e
  end.

(** ** Strings *)

(** [str.isspace] on ASCII: tab, newline, vertical tab, form feed, carriage
    return, the separators 0x1c..0x1f and the blank. *)
Definition is_space (c : ascii) : bool :=
  let n := nat_of_ascii c in
  (((9 <=? n) && (n <=? 13)) || ((28 <=? n) && (n <=? 32)))%nat.

Definition is_digit (c : ascii) : bool :=
  let n := nat_of_ascii c in ((48 <=? n) && (n <=? 57))%nat.

Fixpoint lstrip (s : string) : string :=
  match s with
  | String c s' => if is_space c then lstrip s' else s
  | EmptyString => EmptyString
  end.

Fixpoint rstrip (s : string) : string :=
  match s with
  | String c s' =>
      match rstrip s' with
      | EmptyString => if is_space c then EmptyString else String c EmptyString
      | t => String c t
      end
  | EmptyString => EmptyString
  end.

(** [s.strip()] *)
Definition strip (s : string) : string := rstrip (lstrip s).

(** [s.split(sep)] for a one-character separator: never the empty list. *)
Fixpoint split (sep : ascii) (s : string) : list string :=
  match s with
  | EmptyString => [EmptyString]
  | String c s' =>
      if Ascii.eqb c sep then EmptyString :: split sep s'
      else match split sep s' with
           | h :: t => String c h :: t
           | [] => [String c EmptyString]
           end
  end.

Fixpoint startswith (p s : string) : bool :=
  match p, s with
  | EmptyString, _ => true
  | String a p', String b s' => Ascii.eqb a b && startswith p' s'
  | String _ _, EmptyString => false
  end.

(** [p in s] *)
Fixpoint contains (p s : string) : bool :=
  startswith p s ||
  match s with
  | String _ s' => contains p s'
  | EmptyString => false
  end.

(** Truth value of a string: non-empty. *)
Definition str_truthy (s : string) : bool :=
  match s with EmptyString => false | _ => true end.

(** [a or b] on strings. *)
Definition str_or (a b : string) : string := if str_truthy a then a else b.

Definition newline : ascii := ascii_of_nat 10.

(** [l[-1]] *)
Definition last_item {A} (l : list A) : option A :=
  match rev l with
  | x :: _ => Some x
  | [] => None
  end.

(** ** Numbers *)

Definition digit_val (c : ascii) : Z := Z.of_nat (nat_of_ascii c - 48).

(** Leading decimal digits of [s] folded onto [acc]; returns the value, the
    number of digits read and the rest. *)
Fixpoint read_digits (s : string) (acc : Z) (cnt : nat) : Z * nat * string :=
  match s with
  | String c s' =>
      if is_digit c then read_digits s' (10 * acc + digit_val c)%Z (S cnt)
      else (acc, cnt, s)
  | EmptyString => (acc, cnt, s)
  end.

Definition read_sign (s : string) : bool * string :=
  match s with
  | String "-"%char s' => (true, s')
  | String "+"%char s' => (false, s')
  | _ => (false, s)
  end.

Definition pow10 (e : Z) : Q :=
  if (0 <=? e)%Z then inject_Z (10 ^ e) else / inject_Z (10 ^ (- e)).

(** Python's [float]: a finite number, read as an exact rational, an
    infinity or NaN. *)
Inductive float : Type :=
| Fin (q : Q)
| Inf (negative : bool)
| NaN.

(** [digit (["_"] digit)*] folded onto [acc]: an underscore is read only
    between two digits.  Returns the value, the number of digits read and
    the rest. *)
Fixpoint read_digitpart (s : string) (acc : Z) (cnt : nat) : Z * nat * string :=
  match s with
  | String c s' =>
      if is_digit c then read_digitpart s' (10 * acc + digit_val c)%Z (S cnt)
      else if Ascii.eqb c "_"%char then
        match cnt, s' with
        | S _, String d _ =>
            if is_digit d then read_digitpart s' acc cnt else (acc, cnt, s)
        | _, _ => (acc, cnt, s)
        end
      else (acc, cnt, s)
  | EmptyString => (acc, cnt, s)
  end.

(** Optional exponent part [(e|E) [+-] digitpart] of a float literal;
    [None] when malformed. *)
Definition read_exponent (s : string) : option (Z * string) :=
  match s with
  | String c s' =>
      if Ascii.eqb c "e"%char || Ascii.eqb c "E"%char then
        let '(neg, s1) := read_sign s' in
        let '(v, n, s2) := read_digitpart s1 0%Z 0 in
        match n with
        | O => None
        | _ => Some ((if neg then - v else v)%Z, s2)
        end
      else Some (0%Z, s)
  | EmptyString => Some (0%Z, s)
  end.

Definition lower_char (c : ascii) : ascii :=
  let n := nat_of_ascii c in
  if ((65 <=? n) && (n <=? 90))%nat then ascii_of_nat (n + 32) else c.

(** [s.lower()] on ASCII. *)
Fixpoint lower (s : string) : string :=
  match s with
  | String c s' => String (lower_char c) (lower s')
  | EmptyString => EmptyString
  end.

Definition hex_digit (n : nat) : ascii :=
  if (n <? 10)%nat then ascii_of_nat (48 + n) else ascii_of_nat (87 + n).

Definition quote1 : ascii := "'"%char.
Definition quote2 : ascii := ascii_of_nat 34.
Definition backslash : ascii := ascii_of_nat 92.

Fixpoint has_char (c : ascii) (s : string) : bool :=
  match s with
  | String a s' => Ascii.eqb a c || has_char c s'
  | EmptyString => false
  end.

(** The body of [repr(s)] between the quotes [q]. *)
Fixpoint repr_body (q : ascii) (s : string) : string :=
  match s with
  | EmptyString => EmptyString
  | String c s' =>
      let n := nat_of_ascii c in
      let rest := repr_body q s' in
      if Ascii.eqb c q || Ascii.eqb c backslash then
        String backslash (String c rest)
      else if (n =? 9)%nat then String backslash (String "t"%char rest)
      else if (n =? 10)%nat then String backslash (String "n"%char rest)
      else if (n =? 13)%nat then String backslash (String "r"%char rest)
      else if ((n <? 32) || (126 <? n))%nat then
        String backslash
          (String "x"%char
             (String (hex_digit (n / 16)) (String (hex_digit (n mod 16)) rest)))
      else String c rest
  end.

(** [repr(s)] of an ASCII string: single quotes, unless the string holds a
    single quote and no double one. *)
Definition repr (s : string) : string :=
  let q := if has_char quote1 s && negb (has_char quote2 s)
           then quote2 else quote1 in
  String q (repr_body q s ++ String q EmptyString).

(** [float(s)]: white space around the literal is dropped; after an optional
    sign come [inf], [infinity] or [nan] in any case, or
    [(digitpart [. [digitpart]] | . digitpart) [(e|E) [+-] digitpart]]
    with [digitpart = digit ([_] digit)*].  A decimal literal is read
    exactly. *)
Definition float_of_str (s : string) : result float :=
  let bad := Raise (ValueError ("could not convert string to float: " ++ repr s)%string) in
  let '(neg, s0) := read_sign (strip s) in
  let word := lower s0 in
  if String.eqb word "inf" || String.eqb word "infinity" then Ok (Inf neg)
  else if String.eqb word "nan" then Ok NaN
  else
    let '(ip, ni, s1) := read_digitpart s0 0%Z 0 in
    let '(fp, nf, s2) :=
      match s1 with
      | String "."%char s1' => read_digitpart s1' ip 0
      | _ => (ip, O, s1)
      end in
    match (ni + nf)%nat with
    | O => bad
    | _ =>
        match read_exponent s2 with
        | Some (e, EmptyString) =>
            let m := (inject_Z fp * pow10 (e - Z.of_nat nf))%Q in
            Ok (Fin (if neg then (- m)%Q else m))
        | _ => bad
        end
    end.

(** The finite value of a float that is stored or written as a number of
    the model; an infinity or NaN is beyond it. *)
Definition finite (x : float) : result Q :=
  match x with
  | Fin q => Ok q
  | Inf _ => Raise (Unrepresentable "inf")
  | NaN => Raise (Unrepresentable "nan")
  end.

(** Truth value of a float: different from zero. *)
Definition float_truthy (q : Q) : bool := negb (Qeq_bool q 0).

(** [format(q, ".kf")] and [format(q, "+.kf")]: fixed notation with [k]
    decimals, ties to even on the exact value. *)
Definition round_half_even (n : Z) (d : positive) : Z :=
  let q := (n / Zpos d)%Z in
  let r := (n mod Zpos d)%Z in
  match (2 * r ?= Zpos d)%Z with
  | Lt => q
  | Gt => (q + 1)%Z
  | Eq => if Z.even q then q else (q + 1)%Z
  end.

Fixpoint zeros (n : nat) : string :=
  match n with
  | O => EmptyString
  | S n' => String "0"%char (zeros n')
  end.

Definition zero_pad (width : nat) (s : string) : string :=
  (zeros (width - String.length s) ++ s)%string.

Definition format_f (plus : bool) (k : nat) (q : Q) : string :=
  let scaled := round_half_even (Z.abs (Qnum q) * 10 ^ Z.of_nat k) (Qden q) in
  let digits := zero_pad (S k) (NilZero.string_of_uint (N.to_uint (Z.to_N scaled))) in
  let ilen := (String.length digits - k)%nat in
  let body :=
    match k with
    | O => digits
    | _ => (substring 0 ilen digits ++ "." ++ substring ilen k digits)%string
    end in
  let sign :=
    if (Qnum q <? 0)%Z then "-" else if plus then "+" else EmptyString in
  (sign ++ body)%string.

(** ** Dictionaries *)

Definition dict (V : Type) : Type := list (string * V).

(** [d.get(k)] *)
Fixpoint dict_get {V} (d : dict V) (k : string) : option V :=
  match d with
  | (k', v) :: d' => if String.eqb k' k then Some v else dict_get d' k
  | [] => None
  end.

(** [d[k]] *)
Definition dict_item {V} (d : dict V) (k : string) : result V :=
  match dict_get d k with
  | Some v => Ok v
  | None => Raise (KeyError k)
  end.

(** [d[k] = v]: in place when the key exists, appended otherwise. *)
Fixpoint dict_set {V} (d : dict V) (k : string) (v : V) : dict V :=
  match d with
  | (k', v') :: d' =>
      if String.eqb k' k then (k', v) :: d' else (k', v') :: dict_set d' k v
  | [] => [(k, v)]
  end.

(** [d.update(e)] *)
Definition dict_update {V} (d e : dict V) : dict V :=
  fold_left (fun acc kv => dict_set acc (fst kv) (snd kv)) e d.

Definition dict_keys {V} (d : dict V) : list string := map fst d.

(** ** Sorting and statistics *)

(** Stable insertion of [x] before the first element it may precede. *)
Fixpoint insert_by {A} (before : A -> A -> bool) (x : A) (l : list A) : list A :=
  match l with
  | [] => [x]
  | y :: l' => if before x y then x :: l else y :: insert_by before x l'
  end.

(** A stable sort: elements that compare equal keep their input order, as
    with [sorted] and [list.sort]. *)
Definition sort_by {A} (before : A -> A -> bool) (l : list A) : list A :=
  fold_right (insert_by before) [] l.

(** [sorted(l)] on floats. *)
Definition sorted (l : list Q) : list Q := sort_by Qle_bool l.

(** [sorted(l, key=key, reverse=True)] *)
Definition sorted_desc {A} (key : A -> Q) (l : list A) : list A :=
  sort_by (fun x y => Qle_bool (key y) (key x)) l.

Definition Qsum (l : list Q) : Q := fold_left Qplus l 0%Q.

(** [statistics.mean] *)
Definition mean (l : list Q) : result Q :=
  match l with
  | [] => Raise (StatisticsError "mean requires at least one data point")
  | _ => Ok (Qsum l / inject_Z (Z.of_nat (List.length l)))%Q
  end.

(** [statistics.median] *)
Definition median (l : list Q) : result Q :=
  let s := sorted l in
  let n := List.length l in
  match n with
  | O => Raise (StatisticsError "no median for empty data")
  | _ =>
      if Nat.odd n then Ok (nth (n / 2) s 0%Q)
      else Ok ((nth (n / 2 - 1) s 0 + nth (n / 2) s 0) / 2)%Q
  end.

Definition Qmin_list (x : Q) (l : list Q) : Q :=
  fold_left (fun m y => if Qle_bool m y then m else y) l x.

Definition Qmax_list (x : Q) (l : list Q) : Q :=
  fold_left (fun m y => if Qle_bool y m then m else y) l x.

(** [min(l)] *)
Definition py_min (l : list Q) : result Q :=
  match l with
  | [] => Raise (ValueError "min() iterable argument is empty")
  | x :: l' => Ok (Qmin_list x l')
  end.

(** [max(l)] *)
Definition py_max (l : list Q) : result Q :=
  match l with
  | [] => Raise (ValueError "max() iterable argument is empty")
  | x :: l' => Ok (Qmax_list x l')
  end.

(** ** JSON documents, as [json.load] returns them *)

#[local] Unset Elimination Schemes.
Inductive json : Type :=
| JNull
| JBool (b : bool)
| JNum (q : Q)
| JStr (s : string)
| JArr (l : list json)
| JObj (d : list (string * json)).
#[local] Set Elimination Schemes.

(** Truth value of a loaded JSON value. *)
Definition json_truthy (j : json) : bool :=
  match j with
  | JNull => false
  | JBool b => b
  | JNum q => float_truthy q
  | JStr s => str_truthy s
  | JArr l => match l with [] => false | _ => true end
  | JObj d => match d with [] => false | _ => true end
  end.

(** The number a JSON value stands for in arithmetic ([bool] is a number in
    Python); [None] for the values arithmetic rejects. *)
Definition json_number (j : json) : option Q :=
  match j with
  | JNum q => Some q
  | JBool b => Some (if b then 1 else 0)%Q
  | _ => None
  end.

Definition str_of_nat (n : nat) : string := NilZero.string_of_uint (Nat.to_uint n).

(** A comprehension whose element expression may raise. *)
Fixpoint rmap {A B} (f : A -> result B) (l : list A) : result (list B) :=
  match l with
  | [] => Ok []
  | x :: l' => rbind (f x) (fun y => rbind (rmap f l') (fun ys => Ok (y :: ys)))
  end.

(** [l[:n]] and [l[-n:]] for [n > 0]. *)
Definition first_n {A} (n : nat) (l : list A) : list A := firstn n l.
Definition last_n {A} (n : nat) (l : list A) : list A :=
  skipn (List.length l - n) l.

Definition nl : string := String newline EmptyString.

(** [s.replace(old, new)] for a non-empty [old]: every occurrence that does
    not overlap an earlier one, from the left. [skip] counts the characters
    of an occurrence still to be dropped. *)
Fixpoint replace_from (old new s : string) (skip : nat) : string :=
  match s with
  | EmptyString => EmptyString
  | String c s' =>
      match skip with
      | S k => replace_from old new s' k
      | O =>
          if startswith old s
          then (new ++ replace_from old new s' (String.length old - 1))%string
          else String c (replace_from old new s' 0)
      end
  end.

Definition replace (old new s : string) : string := replace_from old new s 0.

End Py.


(* ================================================================== *)
(** * The world of a driver run: files, study storage, processes *)
(* ================================================================== *)

Module Sys.

(** [subprocess.CompletedProcess] with captured text streams. *)
Record CompletedProcess : Type := mkProc {
  returncode : Z;
  stdout : string;
  stderr : string
}.

(** A file holds a JSON object or something else (a script, a cache). *)
Inductive file : Type :=
| JsonFile (d : Py.dict Py.json)
| OtherFile.

(** Optuna's [TrialState]. *)
Inductive TrialState : Type := RUNNING | COMPLETE | PRUNED | FAIL.

(** Optuna's [FrozenTrial]: [params] are the suggested values by name. *)
Record FrozenTrial : Type := mkTrial {
  number : nat;
  state : TrialState;
  value : option Q;
  params : Py.dict Q
}.

(** The world. [trials] is the storage of the study the process is attached
    to.  The last three fields are the behaviours of the surroundings: the
    Optuna sampler (history, name, low, high), the Node evaluator (index of
    the call, command line, files; [None] when it outlives the timeout given
    to [subprocess.run]) and the study-level clock (has the study timeout
    passed before the i-th trial of this run). *)
Record World : Type := mkWorld {
  files : Py.dict file;
  trials : list FrozenTrial;
  spawned : nat;
  err_lines : list string;
  sampler : list FrozenTrial -> string -> Q -> Q -> Q;
  node : nat -> list string -> Py.dict file -> option CompletedProcess;
  deadline_passed : nat -> bool
}.

Definition with_files (w : World) (f : Py.dict file) : World :=
  mkWorld f (trials w) (spawned w) (err_lines w)
          (sampler w) (node w) (deadline_passed w).

Definition with_trials (w : World) (t : list FrozenTrial) : World :=
  mkWorld (files w) t (spawned w) (err_lines w)
          (sampler w) (node w) (deadline_passed w).

Definition with_spawned (w : World) (n : nat) : World :=
  mkWorld (files w) (trials w) n (err_lines w)
          (sampler w) (node w) (deadline_passed w).

Definition with_err_lines (w : World) (l : list string) : World :=
  mkWorld (files w) (trials w) (spawned w) l
          (sampler w) (node w) (deadline_passed w).

(** Computations that read and change the world and may raise. *)
Definition M (A : Type) : Type := World -> Py.result A * World.

Definition ret {A} (a : A) : M A := fun w => (Py.Ok a, w).

Definition raise {A} (e : Py.exn) : M A := fun w => (Py.Raise e, w).

Definition bind {A B} (c : M A) (k : A -> M B) : M B :=
  fun w =>
    match c w with
    | (Py.Ok a, w') => k a w'
    | (Py.Raise e, w') => (Py.Raise e, w')
    end.

(** The body of a [try]: the outcome as a value. *)
Definition attempt {A} (c : M A) : M (Py.result A) :=
  fun w => let (r, w') := c w in (Py.Ok r, w').

Definition lift {A} (r : Py.result A) : M A := fun w => (r, w).

(** [print(msg, file=sys.stderr)] *)
Definition eprint (msg : string) : M unit :=
  fun w => (Py.Ok tt, with_err_lines w (err_lines w ++ [msg])).

(** [sys.exit(code)] *)
Definition sys_exit {A} (code : Z) : M A := raise (Py.SystemExit code).

(** [path.exists()] *)
Definition exists_ (path : string) : M bool :=
  fun w => (Py.Ok (match Py.dict_get (files w) path with
                   | Some _ => true
                   | None => false
                   end), w).

(** [with open(path) as f: json.load(f)] *)
Definition read_json (path : string) : M (Py.dict Py.json) :=
  fun w =>
    match Py.dict_get (files w) path with
    | Some (JsonFile d) => (Py.Ok d, w)
    | Some OtherFile => (Py.Raise (Py.ValueError "JSONDecodeError"), w)
    | None => (Py.Raise (Py.FileNotFoundError path), w)
    end.

(** [with open(path, "w") as f: json.dump(d, f, indent=2)] *)
Definition write_json (path : string) (d : Py.dict Py.json) : M unit :=
  fun w => (Py.Ok tt, with_files w (Py.dict_set (files w) path (JsonFile d))).

(** [subprocess.run(cmd, capture_output=True, text=True, timeout=...)]: the
    process reads the files and leaves them as they are. *)
Definition subprocess_run (cmd : list string) : M CompletedProcess :=
  fun w =>
    let w' := with_spawned w (S (spawned w)) in
    match node w (spawned w) cmd (files w) with
    | Some r => (Py.Ok r, w')
    | None => (Py.Raise Py.TimeoutExpired, w')
    end.

End Sys.

Notation "x <- c ;; k" := (Sys.bind c (fun x => k))
  (at level 61, c at next level, right associativity).
Notation "c ;;; k" := (Sys.bind c (fun _ => k))
  (at level 61, right associativity).

(* ================================================================== *)
(** * Optuna, as the drivers use it *)
(* ================================================================== *)

Module Optuna.

Import Sys.

(** Behaviour of the Optuna library (not part of this repository), after its
    documentation: trials are numbered in the order they are created; an
    objective that raises [TrialPruned] ends its trial PRUNED and the loop
    goes on; any other exception ends it FAIL and, [catch] being empty,
    leaves [optimize]; an objective that returns NaN ends its trial FAIL
    and the loop goes on; [best_trial] raises [ValueError] on a study without
    COMPLETE trial.  All studies here maximise. *)

Definition blank_trial (n : nat) : FrozenTrial := mkTrial n RUNNING None [].

(** [study.ask()] *)
Definition ask : M nat :=
  fun w =>
    let n := List.length (trials w) in
    (Py.Ok n, with_trials w (trials w ++ [blank_trial n])).

Fixpoint update_trial (f : FrozenTrial -> FrozenTrial) (n : nat)
  (l : list FrozenTrial) : list FrozenTrial :=
  match l with
  | [] => []
  | t :: l' =>
      if Nat.eqb (number t) n then f t :: l' else t :: update_trial f n l'
  end.

Definition set_param (name : string) (v : Q) (t : FrozenTrial) : FrozenTrial :=
  mkTrial (number t) (state t) (value t) (Py.dict_set (params t) name v).

Definition set_outcome (s : TrialState) (v : option Q) (t : FrozenTrial)
  : FrozenTrial :=
  mkTrial (number t) s v (params t).

Fixpoint find_trial (n : nat) (l : list FrozenTrial) : option FrozenTrial :=
  match l with
  | [] => None
  | t :: l' => if Nat.eqb (number t) n then Some t else find_trial n l'
  end.

(** [trial.suggest_float(name, low, high)]: a name suggested before in the
    same trial keeps its value. *)
Definition suggest_float (n : nat) (name : string) (low high : Q) : M Q :=
  fun w =>
    let known :=
      match find_trial n (trials w) with
      | Some t => Py.dict_get (params t) name
      | None => None
      end in
    match known with
    | Some v => (Py.Ok v, w)
    | None =>
        let v := sampler w (trials w) name low high in
        (Py.Ok v, with_trials w (update_trial (set_param name v) n (trials w)))
    end.

(** [study.tell(trial, value, state)] *)
Definition tell (n : nat) (s : TrialState) (v : option Q) : M unit :=
  fun w => (Py.Ok tt, with_trials w (update_trial (set_outcome s v) n (trials w))).

(** One pass of the optimisation loop: ask, run the objective, tell.  A
    returned NaN is no feasible value: the trial is told FAIL and nothing is
    raised.  A returned infinity is a value Optuna stores; the storage here
    holds finite values. *)
Definition run_trial (objective : nat -> M Py.float) : M unit :=
  n <- ask ;;
  r <- attempt (objective n) ;;
  match r with
  | Py.Ok (Py.Fin v) => tell n COMPLETE (Some v)
  | Py.Ok Py.NaN => tell n FAIL None
  | Py.Ok (Py.Inf _) => raise (Py.Unrepresentable "inf")
  | Py.Raise (Py.TrialPruned _) => tell n PRUNED None
  | Py.Raise (Py.SystemExit c) => raise (Py.SystemExit c)
  | Py.Raise e => tell n FAIL None ;;; raise e
  end.

(** [study.optimize(objective, n_trials=budget, n_jobs=1[, timeout=...])];
    [i] counts the passes of this call. *)
Fixpoint optimize_from (objective : nat -> M Py.float) (timed : bool)
  (budget i : nat) : M unit :=
  match budget with
  | O => ret tt
  | S budget' =>
      fun w =>
        if timed && deadline_passed w i then (Py.Ok tt, w)
        else (run_trial objective ;;; optimize_from objective timed budget' (S i)) w
  end.

Definition optimize (objective : nat -> M Py.float) (n_trials : nat) (timed : bool)
  : M unit :=
  optimize_from objective timed n_trials 0.

Definition is_complete (t : FrozenTrial) : bool :=
  match state t with COMPLETE => true | _ => false end.

Definition completed (l : list FrozenTrial) : list FrozenTrial :=
  filter is_complete l.

Definition value_of (t : FrozenTrial) : Q :=
  match value t with Some v => v | None => 0%Q end.

(** The first trial of maximal value. *)
Fixpoint best_of (b : FrozenTrial) (l : list FrozenTrial) : FrozenTrial :=
  match l with
  | [] => b
  | t :: l' =>
      if Qle_bool (value_of t) (value_of b) then best_of b l' else best_of t l'
  end.

(** [study.best_trial] on a list of trials. *)
Definition best_trial_of (l : list FrozenTrial) : Py.result FrozenTrial :=
  match completed l with
  | [] => Py.Raise (Py.ValueError "No trials are completed yet.")
  | t :: l' => Py.Ok (best_of t l')
  end.

(** [study.best_trial] *)
Definition best_trial : M FrozenTrial :=
  fun w => (best_trial_of (trials w), w).

(** [study.best_value] *)
Definition best_value : M Q :=
  t <- best_trial ;; ret (value_of t).

(** [study.best_params] *)
Definition best_params : M (Py.dict Q) :=
  t <- best_trial ;; ret (params t).

(** [optuna.create_study(direction="maximize"[, storage=..., load_if_exists=True])]:
    a new in-memory study, or the stored one when a storage is given. *)
Definition create_study (stored : bool) : M unit :=
  fun w => (Py.Ok tt, if stored then w else with_trials w []).

End Optuna.

(* ================================================================== *)
(** * optimize_excellent_fit_top3.py *)
(* ================================================================== *)

Module ExcellentFit.

Import Sys.

Definition BASE_WEIGHTS : string := "best-stage-a-recall-weights-desc-tuned.json".
Definition WEIGHTS_PATH : string := "ranking-weights-optuna-excellent-top3.json".
Definition BEST_OUT_PATH : string := "best-excellent-fit-top3-weights.json".
Definition EVAL_OUTPUT : string := "optimization/temp-excellent-fit.json".
Definition BENCHMARK_CACHE : string := "benchmarks/benchmark-session-context-cache-v2.json".
Definition EVALUATOR_JS : string := "evaluation/evaluate-excellent-fit-llm.js".

(** The settings read from the environment when the module is loaded. *)
Record Config : Type := mkConfig {
  N_TRIALS : nat;
  LIMIT : nat;
  METRIC : string;
  TRIAL_TIMEOUT : nat;
  STUDY_TIMEOUT : option nat;
  OPTUNA_RESUME : bool
}.

Definition RESCORE_RANGES : Py.dict (Q * Q) :=
  [ ("high_signal_1", (1.5, 3.5));
    ("high_signal_2", (3.0, 6.0));
    ("pathway_1", (0.5, 2.0));
    ("pathway_2", (1.0, 3.5));
    ("pathway_3", (2.0, 5.0));
    ("procedure_per_match", (0.2, 0.8));
    ("anchor_per_match", (0.15, 0.4));
    ("anchor_cap", (0.5, 1.0));
    ("subspecialty_factor", (0.2, 0.6));
    ("subspecialty_cap", (0.3, 0.8));
    ("negative_1", (-2.0, -0.3));
    ("negative_2", (-3.5, -1.0));
    ("negative_4", (-5.0, -1.5));
    ("safe_lane_1", (0.5, 1.5));
    ("safe_lane_2", (1.0, 3.0));
    ("safe_lane_3_or_more", (2.0, 4.5)) ]%Q.

(** The test of line 97: does the error text tell of a quota or rate limit. *)
Definition quota_or_rate_limit (error_output : string) : bool :=
  Py.contains "insufficient_quota" error_output
  || Py.contains "429" error_output
  || Py.contains "RateLimitError" error_output.

(** [[l.strip() for l in text.strip().split("\n") if l.strip()]] *)
Definition nonblank_lines (text : string) : list string :=
  map Py.strip
      (filter (fun l => Py.str_truthy (Py.strip l))
              (Py.split Py.newline (Py.strip text))).

(** What [run_evaluator] does with a finished process (lines 94-106). *)
Definition read_result (result : CompletedProcess) : M Py.float :=
  if negb (Z.eqb (returncode result) 0) then
    let error_output := Py.str_or (stderr result) (stdout result) in
    if quota_or_rate_limit error_output then
      eprint (Py.nl ++ "[API quota/rate limit exceeded; pruning trial. Check OpenAI billing/quota.]")%string ;;;
      raise (Py.TrialPruned "API quota exceeded")
    else
      raise (Py.RuntimeError
               ("evaluate-excellent-fit-llm.js failed: " ++ error_output)%string)
  else
    let lines := nonblank_lines (stdout result) in
    match Py.last_item lines with
    | None => raise (Py.RuntimeError "evaluate-excellent-fit-llm.js produced no stdout")
    | Some l => lift (Py.float_of_str l)
    end.

(** The command line of lines 69-77. *)
Definition command (cfg : Config) (weights_path : string) : list string :=
  [ "node"; EVALUATOR_JS; "--use-cache";
    ("--weights=" ++ weights_path)%string;
    ("--limit=" ++ Py.str_of_nat (LIMIT cfg))%string;
    ("--output=" ++ EVAL_OUTPUT)%string;
    ("--metric=" ++ METRIC cfg)%string ].

Definition run_evaluator (cfg : Config) (weights_path : string) : M Py.float :=
  let cmd := command cfg weights_path in
  r <- attempt (subprocess_run cmd) ;;
  match r with
  | Py.Raise Py.TimeoutExpired =>
      eprint (Py.nl ++ "[Trial timeout after " ++ Py.str_of_nat (TRIAL_TIMEOUT cfg)
              ++ "s; try TRIAL_TIMEOUT=1800 or lower LIMIT]")%string ;;;
      raise (Py.TrialPruned EmptyString)
  | Py.Raise e => raise e
  | Py.Ok result => read_result result
  end.

(** The loop of lines 112-113 over the ranges still to be sampled. *)
Fixpoint sample_into (trial : nat) (ranges : Py.dict (Q * Q))
  (params : Py.dict Py.json) : M (Py.dict Py.json) :=
  match ranges with
  | [] => ret params
  | (key, (low, high)) :: ranges' =>
      v <- Optuna.suggest_float trial key low high ;;
      sample_into trial ranges' (Py.dict_set params key (Py.JNum v))
  end.

Definition objective (cfg : Config) (trial : nat) : M Py.float :=
  params <- read_json BASE_WEIGHTS ;;
  params <- sample_into trial RESCORE_RANGES params ;;
  write_json WEIGHTS_PATH params ;;;
  run_evaluator cfg WEIGHTS_PATH.

(** [x is None] for [x] a trial object. *)
Definition is_None (t : FrozenTrial) : bool := false.

(** The loop of lines 155-156. *)
Fixpoint copy_best (keys : list string) (best : Py.dict Q)
  (out : Py.dict Py.json) : Py.result (Py.dict Py.json) :=
  match keys with
  | [] => Py.Ok out
  | key :: keys' =>
      Py.rbind (Py.dict_item best key)
               (fun v => copy_best keys' best (Py.dict_set out key (Py.JNum v)))
  end.

Definition main (cfg : Config) : M unit :=
  b <- exists_ BASE_WEIGHTS ;;
  (if negb b then
     eprint ("Base weights not found: " ++ BASE_WEIGHTS)%string ;;; sys_exit 1
   else ret tt) ;;;
  b <- exists_ BENCHMARK_CACHE ;;
  (if negb b then
     eprint "benchmark-session-context-cache-v2.json not found" ;;; sys_exit 1
   else ret tt) ;;;
  b <- exists_ EVALUATOR_JS ;;
  (if negb b then
     eprint "evaluate-excellent-fit-llm.js not found" ;;; sys_exit 1
   else ret tt) ;;;
  Optuna.create_study (OPTUNA_RESUME cfg) ;;;
  Optuna.optimize (objective cfg) (N_TRIALS cfg)
                  (match STUDY_TIMEOUT cfg with Some _ => true | None => false end) ;;;
  best <- Optuna.best_trial ;;
  (if is_None best then
     eprint "No completed trials (all timed out or failed). Increase TRIAL_TIMEOUT or lower LIMIT." ;;;
     sys_exit 1
   else ret tt) ;;;
  out <- read_json BASE_WEIGHTS ;;
  best_params <- Optuna.best_params ;;
  out <- lift (copy_best (Py.dict_keys RESCORE_RANGES) best_params out) ;;
  write_json BEST_OUT_PATH out.

End ExcellentFit.

(* ================================================================== *)
(** * optimize_ranking.py *)
(* ================================================================== *)

Module Ranking.

Import Sys.

Definition WEIGHTS_PATH : string := "ranking-weights.json".
Definition BEST_WEIGHTS_PATH : string := "best-ranking-weights.json".
Definition HOLDOUT_METRICS_PATH : string := "holdout-metrics.json".
Definition SPLIT_PATH : string := "benchmark-split.json".
Definition CACHE_PATH : string := "benchmark-session-context-cache.json".

(** Lines 49-51, on a finished process. *)
Definition read_result (result : CompletedProcess) : M Py.float :=
  if negb (Z.eqb (returncode result) 0) then
    raise (Py.RuntimeError
             ("Evaluator failed: " ++ Py.str_or (stderr result) (stdout result))%string)
  else lift (Py.float_of_str (Py.strip (stdout result))).

Definition command (subset : string) (weights_path : string) : list string :=
  [ "node"; "evaluate-ranking-subset.js"; ("--" ++ subset)%string;
    "--metric=ndcg12"; "--use-cache";
    ("--weights=" ++ weights_path)%string ].

Definition run_evaluator (subset : string) (weights_path : string) : M Py.float :=
  result <- subprocess_run (command subset weights_path) ;;
  read_result result.

Definition num_params (d : Py.dict Q) : Py.dict Py.json :=
  map (fun kv => (fst kv, Py.JNum (snd kv))) d.

Definition objective (trial : nat) : M Py.float :=
  v1 <- Optuna.suggest_float trial "anchor_per_match" 0.1 0.4 ;;
  v2 <- Optuna.suggest_float trial "anchor_cap" 0.4 0.8 ;;
  v3 <- Optuna.suggest_float trial "subspecialty_cap" 0.3 0.7 ;;
  v4 <- Optuna.suggest_float trial "high_signal_2" 2.0 6.0 ;;
  v5 <- Optuna.suggest_float trial "pathway_3" 2.0 4.0 ;;
  let params :=
    [ ("anchor_per_match", Py.JNum v1); ("anchor_cap", Py.JNum v2);
      ("subspecialty_cap", Py.JNum v3); ("high_signal_2", Py.JNum v4);
      ("pathway_3", Py.JNum v5) ] in
  weights <- read_json WEIGHTS_PATH ;;
  write_json WEIGHTS_PATH (Py.dict_update weights params) ;;;
  run_evaluator "train" WEIGHTS_PATH.

Definition main (n_trials : nat) : M unit :=
  b <- exists_ WEIGHTS_PATH ;;
  (if negb b then
     eprint ("Default weights not found: " ++ WEIGHTS_PATH)%string ;;; sys_exit 1
   else ret tt) ;;;
  b <- exists_ SPLIT_PATH ;;
  (if negb b then
     eprint ("Split not found: " ++ SPLIT_PATH
             ++ ". Run node create-benchmark-split.js")%string ;;; sys_exit 1
   else ret tt) ;;;
  b <- exists_ CACHE_PATH ;;
  (if negb b then
     eprint ("Cache not found: " ++ CACHE_PATH
             ++ ". Run node build-session-context-cache.js")%string ;;; sys_exit 1
   else ret tt) ;;;
  Optuna.create_study false ;;;
  Optuna.optimize objective n_trials false ;;;
  best <- Optuna.best_params ;;
  weights <- read_json WEIGHTS_PATH ;;
  let weights := Py.dict_update weights (num_params best) in
  write_json BEST_WEIGHTS_PATH weights ;;;
  write_json WEIGHTS_PATH weights ;;;
  holdout_ndcg <- run_evaluator "holdout" WEIGHTS_PATH ;;
  holdout_ndcg <- lift (Py.finite holdout_ndcg) ;;
  write_json HOLDOUT_METRICS_PATH [("ndcg12", Py.JNum holdout_ndcg)].

End Ranking.

(* ================================================================== *)
(** * optimize_bm25_params.py *)
(* ================================================================== *)

Module Bm25.

Import Sys.

Definition WEIGHTS_PATH : string := "ranking-weights.json".
Definition BEST_BM25_PARAMS_PATH : string := "best-bm25-params.json".
Definition HOLDOUT_METRICS_BM25_PATH : string := "holdout-metrics-bm25.json".
Definition SPLIT_PATH : string := "benchmark-split.json".
Definition CACHE_PATH : string := "benchmark-session-context-cache.json".

(** Lines 47-49, on a finished process. *)
Definition read_result (result : CompletedProcess) : M Py.float :=
  if negb (Z.eqb (returncode result) 0) then
    raise (Py.RuntimeError
             ("Evaluator failed: " ++ Py.str_or (stderr result) (stdout result))%string)
  else lift (Py.float_of_str (Py.strip (stdout result))).

Definition command (subset : string) (weights_path : string) : list string :=
  [ "node"; "evaluate-ranking-subset.js"; ("--" ++ subset)%string;
    "--metric=ndcg12"; "--use-cache";
    ("--weights=" ++ weights_path)%string ].

Definition run_evaluator (subset : string) (weights_path : string) : M Py.float :=
  result <- subprocess_run (command subset weights_path) ;;
  read_result result.

Definition objective (trial : nat) : M Py.float :=
  k1 <- Optuna.suggest_float trial "k1" 1.0 2.0 ;;
  b <- Optuna.suggest_float trial "b" 0.5 0.9 ;;
  let params := [ ("k1", Py.JNum k1); ("b", Py.JNum b) ] in
  weights <- read_json WEIGHTS_PATH ;;
  write_json WEIGHTS_PATH (Py.dict_update weights params) ;;;
  run_evaluator "train" WEIGHTS_PATH.

Definition main (n_trials : nat) : M unit :=
  b <- exists_ WEIGHTS_PATH ;;
  (if negb b then
     eprint ("Default weights not found: " ++ WEIGHTS_PATH)%string ;;; sys_exit 1
   else ret tt) ;;;
  b <- exists_ SPLIT_PATH ;;
  (if negb b then
     eprint ("Split not found: " ++ SPLIT_PATH
             ++ ". Run node create-benchmark-split.js")%string ;;; sys_exit 1
   else ret tt) ;;;
  b <- exists_ CACHE_PATH ;;
  (if negb b then
     eprint ("Cache not found: " ++ CACHE_PATH
             ++ ". Run node build-session-context-cache.js")%string ;;; sys_exit 1
   else ret tt) ;;;
  Optuna.create_study false ;;;
  Optuna.optimize objective n_trials false ;;;
  best <- Optuna.best_params ;;
  weights <- read_json WEIGHTS_PATH ;;
  let weights := Py.dict_update weights (Ranking.num_params best) in
  write_json BEST_BM25_PARAMS_PATH weights ;;;
  write_json WEIGHTS_PATH weights ;;;
  holdout_ndcg <- run_evaluator "holdout" WEIGHTS_PATH ;;
  holdout_ndcg <- lift (Py.finite holdout_ndcg) ;;
  write_json HOLDOUT_METRICS_BM25_PATH [("ndcg12", Py.JNum holdout_ndcg)].

End Bm25.

(* ================================================================== *)
(** * optimize_field_weights.py *)
(* ================================================================== *)

Module FieldWeights.

Import Sys.

Definition WEIGHTS_PATH : string := "ranking-weights.json".
Definition BEST_FIELD_WEIGHTS_PATH : string := "best-field-weights.json".
Definition HOLDOUT_METRICS_FIELD_PATH : string := "holdout-metrics-field-weights.json".
Definition SPLIT_PATH : string := "benchmarks/benchmark-split.json".
Definition CACHE_PATH : string := "benchmarks/benchmark-session-context-cache.json".

Definition FIELD_RANGES : Py.dict (Q * Q) :=
  [ ("expertise_procedures", (1.5, 3.0));
    ("expertise_conditions", (1.5, 3.0));
    ("expertise_interests", (1.0, 2.5));
    ("procedure_groups", (1.5, 4.0));
    ("specialty", (1.5, 3.5));
    ("subspecialties", (1.5, 3.5));
    ("description", (1.0, 2.0));
    ("about", (0.3, 1.5));
    ("name", (0.3, 1.5));
    ("memberships", (0.3, 1.5));
    ("address_locality", (0.3, 1.5));
    ("title", (0.3, 1.5)) ]%Q.

(** Lines 63-65, on a finished process. *)
Definition read_result (result : CompletedProcess) : M Py.float :=
  if negb (Z.eqb (returncode result) 0) then
    raise (Py.RuntimeError
             ("Evaluator failed: " ++ Py.str_or (stderr result) (stdout result))%string)
  else lift (Py.float_of_str (Py.strip (stdout result))).

Definition command (subset : string) (weights_path : string) : list string :=
  [ "node"; "evaluation/evaluate-ranking-subset.js"; ("--" ++ subset)%string;
    "--metric=ndcg12"; "--use-cache";
    ("--weights=" ++ weights_path)%string ].

Definition run_evaluator (subset : string) (weights_path : string) : M Py.float :=
  result <- subprocess_run (command subset weights_path) ;;
  read_result result.

(** The comprehension of lines 70-73. *)
Fixpoint sample_fields (trial : nat) (ranges : Py.dict (Q * Q))
  (acc : Py.dict Py.json) : M (Py.dict Py.json) :=
  match ranges with
  | [] => ret acc
  | (key, (low, high)) :: ranges' =>
      v <- Optuna.suggest_float trial key low high ;;
      sample_fields trial ranges' (Py.dict_set acc key (Py.JNum v))
  end.

Definition objective (trial : nat) : M Py.float :=
  field_weights <- sample_fields trial FIELD_RANGES [] ;;
  weights <- read_json WEIGHTS_PATH ;;
  write_json WEIGHTS_PATH
             (Py.dict_set weights "field_weights" (Py.JObj field_weights)) ;;;
  run_evaluator "train" WEIGHTS_PATH.

Definition main (n_trials : nat) : M unit :=
  b <- exists_ WEIGHTS_PATH ;;
  (if negb b then
     eprint ("Default weights not found: " ++ WEIGHTS_PATH)%string ;;; sys_exit 1
   else ret tt) ;;;
  b <- exists_ SPLIT_PATH ;;
  (if negb b then
     eprint ("Split not found: " ++ SPLIT_PATH
             ++ ". Run node scripts/create-benchmark-split.js")%string ;;; sys_exit 1
   else ret tt) ;;;
  b <- exists_ CACHE_PATH ;;
  (if negb b then
     eprint ("Cache not found: " ++ CACHE_PATH
             ++ ". Run node scripts/build-session-context-cache.js")%string ;;; sys_exit 1
   else ret tt) ;;;
  Optuna.create_study false ;;;
  Optuna.optimize objective n_trials false ;;;
  best <- Optuna.best_params ;;
  let best_field_weights := Py.JObj (Ranking.num_params best) in
  weights <- read_json WEIGHTS_PATH ;;
  let weights := Py.dict_set weights "field_weights" best_field_weights in
  write_json BEST_FIELD_WEIGHTS_PATH [("field_weights", best_field_weights)] ;;;
  write_json WEIGHTS_PATH weights ;;;
  holdout_ndcg <- run_evaluator "holdout" WEIGHTS_PATH ;;
  holdout_ndcg <- lift (Py.finite holdout_ndcg) ;;
  write_json HOLDOUT_METRICS_FIELD_PATH [("ndcg12", Py.JNum holdout_ndcg)].

End FieldWeights.

(* ================================================================== *)
(** * optimize_stage_a_recall.py *)
(* ================================================================== *)

Module StageA.

Import Sys.

Definition WEIGHTS_PATH : string := "ranking-weights-optuna-stage-a.json".
Definition CACHE_V2 : string := "benchmark-session-context-cache-v2.json".
Definition SPLIT_FILE : string := "benchmark-split.json".
Definition STAGE_A_N : nat := 150.
Definition TRAIN_ONLY : bool := true.

Definition FIELD_RANGES : Py.dict (Q * Q) := FieldWeights.FIELD_RANGES.

(** Lines 70-75, on a finished process. *)
Definition read_result (result : CompletedProcess) : M Py.float :=
  if negb (Z.eqb (returncode result) 0) then
    raise (Py.RuntimeError
             ("evaluate-stage-a-recall.js failed: "
              ++ Py.str_or (stderr result) (stdout result))%string)
  else
    match Py.last_item (ExcellentFit.nonblank_lines (stdout result)) with
    | None => raise (Py.RuntimeError "evaluate-stage-a-recall.js produced no stdout")
    | Some l => lift (Py.float_of_str l)
    end.

Definition run_stage_a_recall (weights_path : string) : M Py.float :=
  split_there <- exists_ SPLIT_FILE ;;
  let cmd :=
    [ "node"; "evaluate-stage-a-recall.js";
      ("--weights=" ++ weights_path)%string;
      ("--cache=" ++ CACHE_V2)%string;
      ("--n=" ++ Py.str_of_nat STAGE_A_N)%string ]
    ++ (if TRAIN_ONLY && split_there
        then [ "--train"; ("--split=" ++ SPLIT_FILE)%string ] else []) in
  result <- subprocess_run cmd ;;
  read_result result.

(** The comprehension of lines 86-89: file keys are the field names, the
    suggested names carry the prefix [fw_]. *)
Fixpoint sample_fields (trial : nat) (ranges : Py.dict (Q * Q))
  (acc : Py.dict Py.json) : M (Py.dict Py.json) :=
  match ranges with
  | [] => ret acc
  | (key, (low, high)) :: ranges' =>
      v <- Optuna.suggest_float trial ("fw_" ++ key)%string low high ;;
      sample_fields trial ranges' (Py.dict_set acc key (Py.JNum v))
  end.

Definition objective (tune_fields : bool) (trial : nat) : M Py.float :=
  k1 <- Optuna.suggest_float trial "k1" 1.0 2.2 ;;
  b <- Optuna.suggest_float trial "b" 0.5 0.95 ;;
  let params :=
    [ ("stage_a_top_n", Py.JNum (inject_Z (Z.of_nat STAGE_A_N)));
      ("k1", Py.JNum k1); ("b", Py.JNum b) ] in
  params <-
    (if tune_fields then
       fw <- sample_fields trial FIELD_RANGES [] ;;
       ret (Py.dict_set params "field_weights" (Py.JObj fw))
     else ret params) ;;
  write_json WEIGHTS_PATH params ;;;
  run_stage_a_recall WEIGHTS_PATH.

Definition BEST_WEIGHTS_PATH : string := "best-stage-a-recall-weights.json".
Definition EVALUATOR_JS : string := "evaluate-stage-a-recall.js".

(** The comprehension of lines 109-111. *)
Definition strip_prefixes (best_params : Py.dict Q) : Py.dict Py.json :=
  fold_left
    (fun acc kv =>
       if Py.startswith "fw_" (fst kv)
       then Py.dict_set acc (Py.replace "fw_" EmptyString (fst kv)) (Py.JNum (snd kv))
       else acc)
    best_params [].

Definition main (tune_fields : bool) (n_trials : nat) : M unit :=
  b <- exists_ CACHE_V2 ;;
  (if negb b then
     eprint ("V2 cache not found: " ++ CACHE_V2
             ++ ". Run node build-session-context-cache.js --v2")%string ;;;
     sys_exit 1
   else ret tt) ;;;
  b <- exists_ EVALUATOR_JS ;;
  (if negb b then
     eprint "evaluate-stage-a-recall.js not found in ROOT_DIR" ;;; sys_exit 1
   else ret tt) ;;;
  Optuna.create_study false ;;;
  Optuna.optimize (objective tune_fields) n_trials false ;;;
  best_params <- Optuna.best_params ;;
  k1 <- lift (Py.dict_item best_params "k1") ;;
  b <- lift (Py.dict_item best_params "b") ;;
  let out :=
    [ ("stage_a_top_n", Py.JNum (inject_Z (Z.of_nat STAGE_A_N)));
      ("k1", Py.JNum k1); ("b", Py.JNum b) ] in
  let out :=
    if tune_fields
    then Py.dict_set out "field_weights" (Py.JObj (strip_prefixes best_params))
    else out in
  write_json BEST_WEIGHTS_PATH out.

End StageA.

(* ================================================================== *)
(** * optimize_stage2_rescoring.py *)
(* ================================================================== *)

Module Stage2.

Import Sys.

Definition BASE_WEIGHTS : string := "best-stage-a-recall-weights-desc-tuned.json".
Definition WEIGHTS_PATH : string := "ranking-weights-optuna-stage2.json".
Definition BEST_OUT_PATH : string := "best-stage2-rescoring-weights.json".
Definition CACHE_V2 : string := "benchmarks/benchmark-session-context-cache-v2.json".
Definition SPLIT_FILE : string := "benchmarks/benchmark-split.json".
(** The script [run_evaluator] starts, and the one [main] looks for. *)
Definition EVALUATOR_RUN : string := "evaluation/evaluate-ranking-subset.js".
Definition EVALUATOR_CHECKED : string := "evaluate-ranking-subset.js".

Definition RESCORE_RANGES : Py.dict (Q * Q) :=
  [ ("anchor_per_match", (0.1, 0.5));
    ("anchor_cap", (0.4, 1.2));
    ("pathway_1", (0.5, 2.0));
    ("pathway_2", (1.0, 3.0));
    ("pathway_3", (2.0, 4.0));
    ("high_signal_1", (1.0, 3.0));
    ("high_signal_2", (2.0, 5.0));
    ("procedure_per_match", (0.2, 1.0));
    ("subspecialty_factor", (0.2, 0.6));
    ("subspecialty_cap", (0.3, 0.8));
    ("negative_1", (-2.0, 0));
    ("negative_2", (-3.0, -0.5));
    ("negative_4", (-4.0, -1.0));
    ("safe_lane_1", (0.5, 1.5));
    ("safe_lane_2", (1.0, 2.5));
    ("safe_lane_3_or_more", (2.0, 4.0)) ]%Q.

(** Lines 79-84, on a finished process. *)
Definition read_result (result : CompletedProcess) : M Py.float :=
  if negb (Z.eqb (returncode result) 0) then
    raise (Py.RuntimeError
             ("evaluate-ranking-subset.js failed: "
              ++ Py.str_or (stderr result) (stdout result))%string)
  else
    match Py.last_item (ExcellentFit.nonblank_lines (stdout result)) with
    | None => raise (Py.RuntimeError "evaluate-ranking-subset.js produced no stdout")
    | Some l => lift (Py.float_of_str l)
    end.

Definition command (metric : string) (weights_path : string) : list string :=
  [ "node"; EVALUATOR_RUN; "--train"; ("--metric=" ++ metric)%string;
    "--use-cache"; ("--cache=" ++ CACHE_V2)%string;
    ("--weights=" ++ weights_path)%string; "--variant=parallel-v2" ].

Definition run_evaluator (metric : string) (weights_path : string) : M Py.float :=
  result <- subprocess_run (command metric weights_path) ;;
  read_result result.

(** The loop of lines 90-91. *)
Fixpoint sample_into (trial : nat) (ranges : Py.dict (Q * Q))
  (params : Py.dict Py.json) : M (Py.dict Py.json) :=
  match ranges with
  | [] => ret params
  | (key, (low, high)) :: ranges' =>
      v <- Optuna.suggest_float trial key low high ;;
      sample_into trial ranges' (Py.dict_set params key (Py.JNum v))
  end.

Definition objective (metric : string) (trial : nat) : M Py.float :=
  params <- read_json BASE_WEIGHTS ;;
  params <- sample_into trial RESCORE_RANGES params ;;
  write_json WEIGHTS_PATH params ;;;
  run_evaluator metric WEIGHTS_PATH.

Definition main (metric : string) (n_trials : nat) : M unit :=
  b <- exists_ BASE_WEIGHTS ;;
  (if negb b then
     eprint ("Base weights not found: " ++ BASE_WEIGHTS)%string ;;; sys_exit 1
   else ret tt) ;;;
  b <- exists_ CACHE_V2 ;;
  (if negb b then
     eprint ("V2 cache not found: " ++ CACHE_V2)%string ;;; sys_exit 1
   else ret tt) ;;;
  b <- exists_ SPLIT_FILE ;;
  (if negb b then
     eprint ("Split not found: " ++ SPLIT_FILE)%string ;;; sys_exit 1
   else ret tt) ;;;
  b <- exists_ EVALUATOR_CHECKED ;;
  (if negb b then
     eprint "evaluate-ranking-subset.js not found" ;;; sys_exit 1
   else ret tt) ;;;
  Optuna.create_study false ;;;
  Optuna.optimize (objective metric) n_trials false ;;;
  out <- read_json BASE_WEIGHTS ;;
  best_params <- Optuna.best_params ;;
  out <- lift (ExcellentFit.copy_best (Py.dict_keys RESCORE_RANGES) best_params out) ;;
  write_json BEST_OUT_PATH out.

End Stage2.

(* ================================================================== *)
(** * optimize_description_weight.py *)
(* ================================================================== *)

Module Description.

Import Sys.

Definition BASE_WEIGHTS : string := "best-stage-a-recall-weights.json".
Definition WEIGHTS_PATH : string := "ranking-weights-optuna-desc.json".
Definition BEST_OUT_PATH : string := "best-stage-a-recall-weights-desc-tuned.json".
Definition CACHE_V2 : string := "benchmark-session-context-cache-v2.json".
Definition SPLIT_FILE : string := "benchmark-split.json".
Definition EVALUATOR_JS : string := "evaluate-stage-a-recall.js".
Definition STAGE_A_N : nat := 150.

(** Lines 52-57, on a finished process. *)
Definition read_result (result : CompletedProcess) : M Py.float :=
  if negb (Z.eqb (returncode result) 0) then
    raise (Py.RuntimeError
             ("evaluate-stage-a-recall.js failed: "
              ++ Py.str_or (stderr result) (stdout result))%string)
  else
    match Py.last_item (ExcellentFit.nonblank_lines (stdout result)) with
    | None => raise (Py.RuntimeError "evaluate-stage-a-recall.js produced no stdout")
    | Some l => lift (Py.float_of_str l)
    end.

Definition run_stage_a_recall (weights_path : string) : M Py.float :=
  split_there <- exists_ SPLIT_FILE ;;
  let cmd :=
    [ "node"; EVALUATOR_JS;
      ("--weights=" ++ weights_path)%string;
      ("--cache=" ++ CACHE_V2)%string;
      ("--n=" ++ Py.str_of_nat STAGE_A_N)%string ]
    ++ (if split_there
        then [ "--train"; ("--split=" ++ SPLIT_FILE)%string ] else []) in
  result <- subprocess_run cmd ;;
  read_result result.

(** Lines 64-67 (and 91-94): the entries [description] and [about] of the
    group [field_weights], made when it is not there, both set to [v]. *)
Definition set_desc_about (params : Py.dict Py.json) (v : Q)
  : Py.result (Py.dict Py.json) :=
  let params :=
    match Py.dict_get params "field_weights" with
    | Some _ => params
    | None => Py.dict_set params "field_weights" (Py.JObj [])
    end in
  match Py.dict_get params "field_weights" with
  | Some (Py.JObj fw) =>
      Py.Ok (Py.dict_set params "field_weights"
               (Py.JObj (Py.dict_set (Py.dict_set fw "description" (Py.JNum v))
                                     "about" (Py.JNum v))))
  | _ => Py.Raise (Py.TypeError "object does not support item assignment")
  end.

Definition objective (trial : nat) : M Py.float :=
  desc_about <- Optuna.suggest_float trial "desc_about" 1.0 3.5 ;;
  params <- read_json BASE_WEIGHTS ;;
  params <- lift (set_desc_about params desc_about) ;;
  write_json WEIGHTS_PATH params ;;;
  run_stage_a_recall WEIGHTS_PATH.

Definition main (n_trials : nat) : M unit :=
  b <- exists_ BASE_WEIGHTS ;;
  (if negb b then
     eprint ("Base weights not found: " ++ BASE_WEIGHTS)%string ;;; sys_exit 1
   else ret tt) ;;;
  b <- exists_ CACHE_V2 ;;
  (if negb b then
     eprint ("V2 cache not found: " ++ CACHE_V2)%string ;;; sys_exit 1
   else ret tt) ;;;
  b <- exists_ EVALUATOR_JS ;;
  (if negb b then
     eprint "evaluate-stage-a-recall.js not found" ;;; sys_exit 1
   else ret tt) ;;;
  Optuna.create_study false ;;;
  Optuna.optimize objective n_trials false ;;;
  best_params <- Optuna.best_params ;;
  best_val <- lift (Py.dict_item best_params "desc_about") ;;
  out <- read_json BASE_WEIGHTS ;;
  out <- lift (set_desc_about out best_val) ;;
  write_json BEST_OUT_PATH out.

End Description.

(* ================================================================== *)
(** * check_study_status.py *)
(* ================================================================== *)

Module CheckStatus.

Import Sys.

(** The numbers of lines 16-19, printed first. *)
Record Counts : Type := mkCounts {
  total_trials : nat;
  completed : nat;
  pruned : nat;
  failed : nat
}.

(** The numbers of lines 20-28, printed after them. *)
Record Outlook : Type := mkOutlook {
  best_value : Q;
  best_trial_number : nat;
  remaining : nat
}.

Definition in_state (s : TrialState) (t : FrozenTrial) : bool :=
  match s, state t with
  | RUNNING, RUNNING | COMPLETE, COMPLETE | PRUNED, PRUNED | FAIL, FAIL => true
  | _, _ => false
  end.

Definition N_TRIALS : nat := 20.

(** Lines 11-19. *)
Definition counts (study : list FrozenTrial) : Counts :=
  mkCounts (List.length study)
           (List.length (filter (in_state COMPLETE) study))
           (List.length (filter (in_state PRUNED) study))
           (List.length (filter (in_state FAIL) study)).

(** Lines 20-28. Line 20 reads [study.best_trial] to choose between the best
    value and the text N/A. *)
Definition outlook (study : list FrozenTrial) : Py.result Outlook :=
  Py.rbind (Optuna.best_trial_of study) (fun best =>
  Py.Ok (mkOutlook (Optuna.value_of best) (number best)
                   (Nat.max 0 (N_TRIALS - List.length study)))).

(** The script: what it prints of the counts, then the rest or the
    exception that ends it. *)
Definition run (study : list FrozenTrial) : Counts * Py.result Outlook :=
  (counts study, outlook study).

End CheckStatus.

(* ================================================================== *)
(** * analyze_optuna_results.py *)
(* ================================================================== *)

Module Analyze.

Import Sys.

(** The baseline file as the script meets it: absent, a JSON object, or text
    that [json.load] rejects. *)
Inductive BaselineFile : Type :=
| NoBaselineFile
| BaselineJson (d : Py.dict Py.json)
| BaselineText (content : string).

Definition BASELINE_KEY : string := "pct_cases_top3_all_excellent".

(** A match of ["pct_cases_top3_all_excellent"\s*:\s*(\d+)] at the head of [s]. *)
Definition match_here (s : string) : option Z :=
  let quoted := (String (ascii_of_nat 34) BASELINE_KEY
                 ++ String (ascii_of_nat 34) EmptyString)%string in
  if Py.startswith quoted s then
    match Py.lstrip (substring (String.length quoted) (String.length s) s) with
    | String ":"%char rest =>
        let '(v, n, _) := Py.read_digits (Py.lstrip rest) 0%Z 0 in
        match n with O => None | _ => Some v end
    | _ => None
    end
  else None.

(** [re.search]: the leftmost match. *)
Fixpoint search (s : string) : option Z :=
  match match_here s with
  | Some v => Some v
  | None =>
      match s with
      | String _ s' => search s'
      | EmptyString => None
      end
  end.

(** Lines 18-34. *)
Definition baseline_value (f : BaselineFile) : Py.json :=
  let loaded :=
    match f with
    | NoBaselineFile => Py.JNull
    | BaselineJson d =>
        match Py.dict_get d BASELINE_KEY with
        | Some j => j
        | None => Py.JNull
        end
    | BaselineText content =>
        match search content with
        | Some v => Py.JNum (inject_Z v)
        | None => Py.JNull
        end
    end in
  match loaded with
  | Py.JNull => Py.JNum 65.0
  | j => j
  end.

Record trial_dict : Type := mkTrialDict {
  t_number : nat;
  t_value : Q;
  t_params : Py.dict Q
}.

(** Lines 37-48: the COMPLETE trials, best value first. *)
Definition trials_data (study : list FrozenTrial) : list trial_dict :=
  Py.sorted_desc t_value
    (map (fun t => mkTrialDict (number t) (Optuna.value_of t) (params t))
         (Optuna.completed study)).

Record Summary : Type := mkSummary {
  total_trials : nat;
  completed_trials : nat;
  best_value : option Q;
  best_trial_number : option nat;
  summary_baseline : Py.json;
  improvement_over_baseline : option Q
}.

Record ParamStats : Type := mkParamStats {
  ps_mean : Q;
  ps_median : Q;
  ps_std : Q;
  ps_min : Q;
  ps_max : Q
}.

Record TopAverage : Type := mkTopAverage {
  ta_mean : Q;
  ta_median : Q
}.

Record Correlation : Type := mkCorrelation {
  top_10_mean : Q;
  bottom_10_mean : Q;
  difference : Q
}.

Record Distribution : Type := mkDistribution {
  d_min : Q;
  d_max : Q;
  d_mean : Q;
  d_median : Q;
  d_std : Q;
  q25 : option Q;
  q75 : option Q
}.

Record Analysis : Type := mkAnalysis {
  summary : Summary;
  top_10_trials : list trial_dict;
  parameter_statistics : Py.dict ParamStats;
  top_10_average_params : Py.dict TopAverage;
  correlation_analysis : Py.dict Correlation;
  value_distribution : Distribution
}.

(** One [f.write]: text, or the text [json.dumps] makes of a parameter set. *)
Inductive chunk : Type :=
| Text (s : string)
| JsonDump (d : Py.dict Q).

Section WithStdev.

(** [statistics.stdev], called on two values or more. *)
Variable stdev : list Q -> Q.

Definition std_or_zero (values : list Q) : Q :=
  if (1 <? List.length values)%nat then stdev values else 0%Q.

(** Lines 58-60; [best] is what [study.best_value] returns. *)
Definition improvement (best : Q) (baseline : Py.json) : Py.result (option Q) :=
  if Py.float_truthy best && Py.json_truthy baseline then
    match Py.json_number baseline with
    | Some b => Py.Ok (Some (best - b)%Q)
    | None => Py.Raise (Py.TypeError "unsupported operand type(s) for -")
    end
  else Py.Ok None.

(** Lines 51-61. Every read of [study.best_trial] or [study.best_value]
    raises on a study without COMPLETE trial. *)
Definition build_summary (study : list FrozenTrial) (baseline : Py.json)
  : Py.result Summary :=
  Py.rbind (Optuna.best_trial_of study) (fun best =>
  Py.rbind (improvement (Optuna.value_of best) baseline) (fun imp =>
  Py.Ok (mkSummary (List.length study)
                   (List.length (trials_data study))
                   (Some (Optuna.value_of best))
                   (Some (number best))
                   baseline
                   imp))).

(** Line 68. *)
Definition param_names (td : list trial_dict) : list string :=
  match td with
  | t :: _ => Py.dict_keys (t_params t)
  | [] => []
  end.

Definition column (param : string) (ps : list (Py.dict Q)) : Py.result (list Q) :=
  Py.rmap (fun d => Py.dict_item d param) ps.

(** Lines 69-77. *)
Definition build_parameter_statistics (td : list trial_dict)
  : Py.result (Py.dict ParamStats) :=
  Py.rmap (fun param =>
    Py.rbind (column param (map t_params td)) (fun values =>
    Py.rbind (Py.mean values) (fun m =>
    Py.rbind (Py.median values) (fun med =>
    Py.rbind (Py.py_min values) (fun lo =>
    Py.rbind (Py.py_max values) (fun hi =>
    Py.Ok (param, mkParamStats m med (std_or_zero values) lo hi)))))))
    (param_names td).

(** [top_10_params[param].append(value)] *)
Fixpoint append_to (d : Py.dict (list Q)) (k : string) (v : Q) : Py.dict (list Q) :=
  match d with
  | (k', l) :: d' =>
      if String.eqb k' k then (k', l ++ [v]) :: d' else (k', l) :: append_to d' k v
  | [] => [(k, [v])]
  end.

(** Lines 80-83. *)
Definition top_10_params (td : list trial_dict) : Py.dict (list Q) :=
  fold_left
    (fun acc t => fold_left (fun acc' kv => append_to acc' (fst kv) (snd kv))
                            (t_params t) acc)
    (Py.first_n 10 td) [].

(** Lines 85-91. *)
Definition build_top_10_average (td : list trial_dict)
  : Py.result (Py.dict TopAverage) :=
  Py.rmap (fun kv =>
    Py.rbind (Py.mean (snd kv)) (fun m =>
    Py.rbind (Py.median (snd kv)) (fun med =>
    Py.Ok (fst kv, mkTopAverage m med))))
    (top_10_params td).

(** Lines 98-105 for one parameter. *)
Definition correlate (top_10_values bottom_10_values : list (Py.dict Q))
  (param : string) : Py.result (string * Correlation) :=
  Py.rbind (column param top_10_values) (fun top_vals =>
  Py.rbind (column param bottom_10_values) (fun bottom_vals =>
  Py.rbind (Py.mean top_vals) (fun mt =>
  Py.rbind (Py.mean bottom_vals) (fun mb =>
  Py.Ok (param, mkCorrelation mt mb (mt - mb)%Q))))).

(** Lines 94-105. *)
Definition build_correlation (td : list trial_dict)
  : Py.result (Py.dict Correlation) :=
  if (20 <=? List.length td)%nat then
    let top_10_values := map t_params (Py.first_n 10 td) in
    let bottom_10_values := map t_params (Py.last_n 10 td) in
    Py.rmap (correlate top_10_values bottom_10_values) (param_names td)
  else Py.Ok [].

(** Lines 108-119. *)
Definition build_distribution (values : list Q) : Py.result Distribution :=
  let sorted_values := Py.sorted values in
  let n := List.length values in
  Py.rbind (Py.py_min values) (fun lo =>
  Py.rbind (Py.py_max values) (fun hi =>
  Py.rbind (Py.mean values) (fun m =>
  Py.rbind (Py.median values) (fun med =>
  Py.Ok (mkDistribution lo hi m med (std_or_zero values)
           (if (0 <? n)%nat then Some (nth (n / 4) sorted_values 0%Q) else None)
           (if (0 <? n)%nat then Some (nth (3 * n / 4) sorted_values 0%Q) else None)))))).

(** Lines 36-119: the [analysis] dictionary. *)
Definition analyse (study : list FrozenTrial) (f : BaselineFile)
  : Py.result Analysis :=
  let td := trials_data study in
  Py.rbind (build_summary study (baseline_value f)) (fun sm =>
  Py.rbind (build_parameter_statistics td) (fun ps =>
  Py.rbind (build_top_10_average td) (fun ta =>
  Py.rbind (build_correlation td) (fun ca =>
  Py.rbind (build_distribution (map t_value td)) (fun vd =>
  Py.Ok (mkAnalysis sm (Py.first_n 10 td) ps ta ca vd)))))).

End WithStdev.

(** [format(x, ".2f")] for a value that must be a float. *)
Definition fmt_opt (plus : bool) (k : nat) (x : option Q) : Py.result string :=
  match x with
  | Some q => Py.Ok (Py.format_f plus k q)
  | None => Py.Raise (Py.TypeError "unsupported format string passed to NoneType.__format__")
  end.

Definition truthy_opt (x : option Q) : bool :=
  match x with
  | Some q => Py.float_truthy q
  | None => false
  end.

(** Lines 132-140. *)
Definition summary_section (sm : Summary) : Py.result (list chunk) :=
  Py.rbind (fmt_opt false 2 (best_value sm)) (fun bv =>
  let head :=
    [ Text ("## Summary" ++ Py.nl ++ Py.nl);
      Text ("- **Best Value:** " ++ bv ++ "%" ++ Py.nl);
      Text ("- **Best Trial:** #"
            ++ match best_trial_number sm with
               | Some n => Py.str_of_nat n
               | None => "None"
               end ++ Py.nl) ]%string in
  Py.rbind
    (if Py.json_truthy (summary_baseline sm) then
       Py.rbind (fmt_opt false 2 (Py.json_number (summary_baseline sm))) (fun b =>
       Py.Ok ([ Text ("- **Baseline Value:** " ++ b ++ "%" ++ Py.nl)%string ]
              ++ if truthy_opt (improvement_over_baseline sm) then
                   [ Text ("- **Improvement:** "
                           ++ Py.format_f true 2
                                (match improvement_over_baseline sm with
                                 | Some q => q
                                 | None => 0%Q
                                 end)
                           ++ " percentage points" ++ Py.nl)%string ]
                 else []))
     else Py.Ok [])
    (fun base => Py.Ok (head ++ base ++ [ Text Py.nl ]))).

(** Lines 142-152. *)
Definition distribution_section (d : Distribution) : list chunk :=
  [ Text ("## Value Distribution" ++ Py.nl ++ Py.nl);
    Text ("- **Min:** " ++ Py.format_f false 2 (d_min d) ++ "%" ++ Py.nl);
    Text ("- **Max:** " ++ Py.format_f false 2 (d_max d) ++ "%" ++ Py.nl);
    Text ("- **Mean:** " ++ Py.format_f false 2 (d_mean d) ++ "%" ++ Py.nl);
    Text ("- **Median:** " ++ Py.format_f false 2 (d_median d) ++ "%" ++ Py.nl);
    Text ("- **Std Dev:** " ++ Py.format_f false 2 (d_std d) ++ "%" ++ Py.nl) ]%string
  ++ match q25 d with
     | Some a =>
         [ Text ("- **Q25:** " ++ Py.format_f false 2 a ++ "%" ++ Py.nl)%string;
           Text ("- **Q75:** "
                 ++ Py.format_f false 2 (match q75 d with Some b => b | None => 0%Q end)
                 ++ "%" ++ Py.nl)%string ]
     | None => []
     end
  ++ [ Text Py.nl ].

(** Lines 157-160 for the trial of rank [i]. *)
Definition top_row (i : nat) (trial : trial_dict) : Py.result chunk :=
  let params := t_params trial in
  Py.rbind (Py.dict_item params "procedure_per_match") (fun proc =>
  Py.rbind (Py.dict_item params "subspecialty_factor") (fun sub =>
  Py.rbind (Py.dict_item params "anchor_per_match") (fun anchor =>
  let key_params :=
    ("proc=" ++ Py.format_f false 2 proc ++ ", sub=" ++ Py.format_f false 2 sub
     ++ ", anchor=" ++ Py.format_f false 2 anchor)%string in
  Py.Ok (Text ("| " ++ Py.str_of_nat i ++ " | " ++ Py.str_of_nat (t_number trial)
               ++ " | " ++ Py.format_f false 2 (t_value trial) ++ "% | "
               ++ key_params ++ " |" ++ Py.nl)%string)))).

Fixpoint top_rows (i : nat) (l : list trial_dict) : Py.result (list chunk) :=
  match l with
  | [] => Py.Ok []
  | t :: l' =>
      Py.rbind (top_row i t) (fun r =>
      Py.rbind (top_rows (S i) l') (fun rs => Py.Ok (r :: rs)))
  end.

(** Lines 154-161. *)
Definition top_section (top : list trial_dict) : Py.result (list chunk) :=
  Py.rbind (top_rows 1 (Py.first_n 10 top)) (fun rows =>
  Py.Ok ([ Text ("## Top 10 Trials" ++ Py.nl ++ Py.nl);
           Text ("| Rank | Trial # | Value | Key Parameters |" ++ Py.nl);
           Text ("|------|---------|-------|----------------|" ++ Py.nl) ]%string
         ++ rows ++ [ Text Py.nl ])).

(** The rows of lines 167-168, in the order they are written. *)
Definition correlation_rows (ca : Py.dict Correlation) : Py.dict Correlation :=
  Py.sorted_desc (fun kv => Qabs (difference (snd kv))) ca.

Definition correlation_row (kv : string * Correlation) : chunk :=
  Text ("| " ++ fst kv ++ " | " ++ Py.format_f false 3 (top_10_mean (snd kv))
        ++ " | " ++ Py.format_f false 3 (bottom_10_mean (snd kv))
        ++ " | " ++ Py.format_f true 3 (difference (snd kv)) ++ " |" ++ Py.nl)%string.

Definition CORRELATION_HEADING : chunk :=
  Text ("## Parameter Analysis: Top 10 vs Bottom 10" ++ Py.nl ++ Py.nl)%string.

(** Lines 163-170. *)
Definition correlation_section (ca : Py.dict Correlation) : list chunk :=
  match ca with
  | [] => []
  | _ =>
      [ CORRELATION_HEADING;
        Text ("| Parameter | Top 10 Avg | Bottom 10 Avg | Difference |" ++ Py.nl);
        Text ("|-----------|------------|---------------|------------|" ++ Py.nl) ]%string
      ++ map correlation_row (correlation_rows ca)
      ++ [ Text Py.nl ]
  end.

(** Lines 172-175. *)
Definition average_section (ta : Py.dict TopAverage) : list chunk :=
  [ Text ("## Top 10 Average Parameters" ++ Py.nl ++ Py.nl)%string ]
  ++ map (fun kv =>
            Text ("- **" ++ fst kv ++ ":** " ++ Py.format_f false 3 (ta_mean (snd kv))
                  ++ " (median: " ++ Py.format_f false 3 (ta_median (snd kv))
                  ++ ")" ++ Py.nl)%string) ta
  ++ [ Text Py.nl ].

(** Lines 177-181. *)
Definition best_section (td : list trial_dict) (best_number : option nat)
  : Py.result (list chunk) :=
  match find (fun t => match best_number with
                       | Some n => Nat.eqb (t_number t) n
                       | None => false
                       end) td with
  | Some best_trial =>
      Py.Ok [ Text ("## Best Trial Parameters" ++ Py.nl ++ Py.nl)%string;
              Text ("```json" ++ Py.nl)%string;
              JsonDump (t_params best_trial);
              Text (Py.nl ++ "```" ++ Py.nl)%string ]
  | None => Py.Raise Py.StopIteration
  end.

(** Lines 126-181: the writes to the report, in order. *)
Definition report (td : list trial_dict) (a : Analysis) : Py.result (list chunk) :=
  let title :=
    [ Text ("# Optuna Optimization Results Analysis" ++ Py.nl ++ Py.nl);
      Text ("**Study:** excellent_fit_top3" ++ Py.nl);
      Text ("**Total Trials:** " ++ Py.str_of_nat (total_trials (summary a)) ++ Py.nl);
      Text ("**Completed Trials:** " ++ Py.str_of_nat (completed_trials (summary a))
            ++ Py.nl ++ Py.nl) ]%string in
  Py.rbind (summary_section (summary a)) (fun s1 =>
  Py.rbind (top_section (top_10_trials a)) (fun s3 =>
  Py.rbind (best_section td (best_trial_number (summary a))) (fun s6 =>
  Py.Ok (title ++ s1 ++ distribution_section (value_distribution a) ++ s3
         ++ correlation_section (correlation_analysis a)
         ++ average_section (top_10_average_params a) ++ s6)))).

(** The whole script: the analysis written to the JSON file and the report. *)
Definition run (stdev : list Q -> Q) (study : list FrozenTrial) (f : BaselineFile)
  : Py.result (Analysis * list chunk) :=
  Py.rbind (analyse stdev study f) (fun a =>
  Py.rbind (report (trials_data study) a) (fun r =>
  Py.Ok (a, r))).

End Analyze.

(* ================================================================== *)
(** * Vocabulary of the properties *)
(* ================================================================== *)

Module Props.

Import Sys.

(** The trials of a study carry the numbers 0, 1, 2, ... in order. *)
Definition well_numbered (l : list FrozenTrial) : Prop :=
  map number l = seq 0 (List.length l).

(** An objective works on the trial it was given: it leaves the earlier
    trials alone and keeps the number of its own. *)
Definition trial_local (objective : nat -> M Py.float) : Prop :=
  forall n w l,
    trials w = l ++ [Optuna.blank_trial n] ->
    (forall t', In t' l -> number t' <> n) ->
    exists t', trials (snd (objective n w)) = l ++ [t'] /\ number t' = n.

(** The keys of a dictionary after [d[k] = v]. *)
Definition add_key (ks : list string) (k : string) : list string :=
  if existsb (String.eqb k) ks then ks else ks ++ [k].

(** Membership of a key in a list of names. *)
Definition mem (k : string) (ks : list string) : bool := existsb (String.eqb k) ks.



(** The value a suggestion returns in a trial whose parameters are [ps]. *)
Definition suggested (w : World) (ps : Py.dict Q) (name : string) (low high : Q) : Q :=
  match Py.dict_get ps name with
  | Some v => v
  | None => sampler w (trials w) name low high
  end.

(** What the loop records for an outcome of the objective. *)
Definition recorded (r : Py.result Py.float) : option (TrialState * option Q) :=
  match r with
  | Py.Ok (Py.Fin v) => Some (COMPLETE, Some v)
  | Py.Ok Py.NaN => Some (FAIL, None)
  | Py.Ok (Py.Inf _) => None
  | Py.Raise (Py.TrialPruned _) => Some (PRUNED, None)
  | Py.Raise (Py.SystemExit _) => None
  | Py.Raise _ => Some (FAIL, None)
  end.

(** What the loop hands on for an outcome of the objective. *)
Definition handed_on (r : Py.result Py.float) : Py.result unit :=
  match r with
  | Py.Ok (Py.Inf _) => Py.Raise (Py.Unrepresentable "inf")
  | Py.Ok _ => Py.Ok tt
  | Py.Raise (Py.TrialPruned _) => Py.Ok tt
  | Py.Raise e => Py.Raise e
  end.


(** The world in which the evaluator of trial [t] starts: the trial is in the
    storage and [written] is in the file at [path]. *)
Definition at_evaluator (w : World) (t : FrozenTrial) (path : string)
  (written : Py.dict Py.json) : World :=
  with_files (with_trials w (trials w ++ [t]))
             (Py.dict_set (files w) path (JsonFile written)).

(** The world after the trial was told its outcome. *)
Definition told (w : World) (before : list FrozenTrial) (t : FrozenTrial) : World :=
  with_trials w (before ++ [t]).




(** The JSON object in the file at [path], if there is one. *)
Definition file_at (w : World) (path : string) : option (Py.dict Py.json) :=
  match Py.dict_get (files w) path with
  | Some (JsonFile d) => Some d
  | _ => None
  end.

(** The content of a weights file after the trials [added] have each laid
    the overlay of their sampled values over what the trial before left. *)
Definition layered (overlay : Py.dict Q -> Py.dict Py.json)
  (added : list FrozenTrial) (old : Py.dict Py.json) : Py.dict Py.json :=
  fold_left (fun d t => Py.dict_update d (overlay (params t))) added old.

(** The overlay of optimize_field_weights: one nested group. *)
Definition field_overlay (ps : Py.dict Q) : Py.dict Py.json :=
  [ ("field_weights"%string, Py.JObj (Ranking.num_params ps)) ].

(** What it is for a driver to tune keys of the default weights file in
    place.  (1) However far the loop gets, the file holds the content it had
    at the start with the overlays of all trials run since laid over it one
    after the other, so each trial reads what the trial before wrote.
    (2) When the loop has ended normally and the study has a best trial,
    [main] leaves in the file the content the last trial left with the
    overlay of the best trial laid over it.
    (3) A key of an overlay takes its value from the overlay, whatever the
    file held before. *)
Definition tunes_in_place (objective : nat -> M Py.float) (main : nat -> M unit)
  (path split cache : string) (overlay : Py.dict Q -> Py.dict Py.json)
  (keys : list string) : Prop :=
  (forall w old timed budget i,
      well_numbered (trials w) ->
      file_at w path = Some old ->
      exists added,
        trials (snd (Optuna.optimize_from objective timed budget i w))
          = trials w ++ added
        /\ Forall (fun t => Py.dict_keys (params t) = keys) added
        /\ file_at (snd (Optuna.optimize_from objective timed budget i w)) path
           = Some (layered overlay added old))
  /\ (forall n w old w1 best,
      file_at w path = Some old ->
      Py.dict_get (files w) split <> None ->
      Py.dict_get (files w) cache <> None ->
      Optuna.optimize objective n false (with_trials w []) = (Py.Ok tt, w1) ->
      Optuna.best_trial_of (trials w1) = Py.Ok best ->
      trials (snd (main n w)) = trials w1
      /\ file_at (snd (main n w)) path
         = Some (Py.dict_update (layered overlay (trials w1) old)
                                (overlay (params best))))
  /\ (forall d ps key,
      In key (Py.dict_keys (overlay ps)) ->
      exists j, Py.dict_get (Py.dict_update d (overlay ps)) key = Some j
                /\ In (key, j) (overlay ps)).

(** ** Concrete settings and worlds for the examples *)

Definition demo_config : ExcellentFit.Config :=
  ExcellentFit.mkConfig 3 20 "top3_pct" 1200 None false.

Definition demo_base : Py.dict Py.json :=
  [ ("k1", Py.JNum 1.2); ("b", Py.JNum 0.75);
    ("anchor_per_match", Py.JNum 0.2); ("pathway_3", Py.JNum 3.0) ]%string.

Definition demo_files : Py.dict file :=
  [ (ExcellentFit.BASE_WEIGHTS, JsonFile demo_base);
    (ExcellentFit.BENCHMARK_CACHE, OtherFile);
    (ExcellentFit.EVALUATOR_JS, OtherFile);
    (Ranking.WEIGHTS_PATH, JsonFile demo_base);
    (Ranking.SPLIT_PATH, OtherFile);
    (Ranking.CACHE_PATH, OtherFile) ].

(** A world with the demo files, an empty study, a sampler that proposes
    the lower bound and an evaluator that always ends as [outcome]. *)
Definition demo_world (outcome : option CompletedProcess) : World :=
  mkWorld demo_files [] 0 [] (fun _ _ low _ => low) (fun _ _ _ => outcome)
          (fun _ => false).



Definition chatty_success : CompletedProcess :=
  mkProc 0 ("Loaded 20 cases" ++ Py.nl ++ "72.3" ++ Py.nl)%string EmptyString.



(** A study whose only trial is COMPLETE with the value 0.0. *)
Definition zero_study : list FrozenTrial :=
  [ mkTrial 0 COMPLETE (Some 0.0%Q)
      [ ("procedure_per_match", 0.5); ("subspecialty_factor", 0.4);
        ("anchor_per_match", 0.2) ]%string%Q ].

(** A study whose only trial is COMPLETE with the value 72.3. *)
Definition good_study : list FrozenTrial :=
  [ mkTrial 0 COMPLETE (Some 72.3%Q)
      [ ("procedure_per_match", 0.5); ("subspecialty_factor", 0.4);
        ("anchor_per_match", 0.2) ]%string%Q ].

Definition no_stdev (values : list Q) : Q := 0%Q.

(** Twenty COMPLETE trials with the values 0, 1, ..., 19. *)
Definition twenty_study : list FrozenTrial :=
  map (fun i =>
         mkTrial i COMPLETE (Some (inject_Z (Z.of_nat i)))
           [ ("procedure_per_match"%string, (inject_Z (Z.of_nat i) / 10)%Q);
             ("subspecialty_factor"%string, 0.4%Q);
             ("anchor_per_match"%string, (1 - inject_Z (Z.of_nat i) / 20)%Q) ])
      (seq 0 20).

Definition plain_success : CompletedProcess :=
  mkProc 0 ("0.5" ++ Py.nl)%string EmptyString.

(** ** Vocabulary of the further properties *)

(** The computation leaves the file at [path] as it is, whatever it returns. *)
Definition keeps (path : string) {A : Type} (c : M A) : Prop :=
  forall w, Py.dict_get (files (snd (c w))) path = Py.dict_get (files w) path.

(** A trial the loop went on after: COMPLETE with a value, PRUNED without
    one, or FAIL without one (its objective returned NaN). *)
Definition settled (t : FrozenTrial) : Prop :=
  (state t = COMPLETE /\ value t <> None)
  \/ (state t = PRUNED /\ value t = None)
  \/ (state t = FAIL /\ value t = None).

(** An exception of Python, not the marker of a float beyond the model. *)
Definition raised_by_python (e : Py.exn) : Prop :=
  forall what, e <> Py.Unrepresentable what.

(** The trial of the analyzer made of a trial of the study (lines 40-44). *)
Definition as_trial_dict (t : FrozenTrial) : Analyze.trial_dict :=
  Analyze.mkTrialDict (number t) (Optuna.value_of t) (params t).

(** The file is absent, so that its check in [main] fails. *)
Definition missing (w : World) (path : string) : Prop :=
  Py.dict_get (files w) path = None.

(** The world after [main] has printed [msg] and done nothing else. *)
Definition complained (w : World) (msg : string) : World :=
  with_err_lines w (err_lines w ++ [msg]).


(** The list gathered so far under the name [k] (lines 80-83). *)
Definition gathered (d : Py.dict (list Q)) (k : string) : list Q :=
  match Py.dict_get d k with Some l => l | None => [] end.

(** What a parameter set adds to the list gathered under the name [k]. *)
Definition entry (ps : Py.dict Q) (k : string) : list Q :=
  match Py.dict_get ps k with Some v => [v] | None => [] end.

(** A world as [demo_world] without the file at [path]. *)
Definition demo_world_without (path : string) : World :=
  mkWorld (filter (fun kv => negb (String.eqb (fst kv) path)) demo_files)
          [] 0 [] (fun _ _ low _ => low) (fun _ _ _ => Some plain_success)
          (fun _ => false).

End Props.

Local Open Scope nat_scope.

(* ================================================================== *)
(** * Facts about the runtime fragment *)
(* ================================================================== *)

Section MonadFacts.

Import Sys.

Lemma bind_ok {A B} (c : M A) (k : A -> M B) w a w' :
  c w = (Py.Ok a, w') -> Sys.bind c k w = k a w'.
Proof. intros H. unfold Sys.bind. now rewrite H. Qed.

Lemma bind_raise {A B} (c : M A) (k : A -> M B) w e w' :
  c w = (Py.Raise e, w') -> Sys.bind c k w = (Py.Raise e, w').
Proof. intros H. unfold Sys.bind. now rewrite H. Qed.

Lemma bind_assoc {A B C} (c : M A) (f : A -> M B) (g : B -> M C) w :
  Sys.bind (Sys.bind c f) g w = Sys.bind c (fun x => Sys.bind (f x) g) w.
Proof. unfold Sys.bind. destruct (c w) as [[a|e] w']; reflexivity. Qed.

Lemma attempt_eq {A} (c : M A) w r w' :
  c w = (r, w') -> attempt c w = (Py.Ok r, w').
Proof. intros H. unfold attempt. now rewrite H. Qed.

Lemma with_trials_same w : with_trials w (trials w) = w.
Proof. now destruct w. Qed.

End MonadFacts.

Section DictFacts.

Context {V : Type}.

Lemma dict_get_set (d : Py.dict V) k v k' :
  Py.dict_get (Py.dict_set d k v) k' =
  if String.eqb k k' then Some v else Py.dict_get d k'.
Proof.
  induction d as [|[k0 v0] d IH]; simpl.
  - now destruct (String.eqb k k').
  - destruct (String.eqb k0 k) eqn:E0; simpl.
    + apply String.eqb_eq in E0. subst k0.
      now destruct (String.eqb k k').
    + destruct (String.eqb k0 k') eqn:E1.
      * apply String.eqb_eq in E1. subst k0.
        rewrite String.eqb_sym in E0. now rewrite E0.
      * exact IH.
Qed.

Lemma dict_set_same (d : Py.dict V) k v :
  Py.dict_get d k = Some v -> Py.dict_set d k v = d.
Proof.
  induction d as [|[k0 v0] d IH]; simpl; [discriminate|].
  destruct (String.eqb k0 k) eqn:E.
  - now intros [= ->].
  - intros H. now rewrite IH.
Qed.

Lemma dict_keys_set (d : Py.dict V) k v :
  Py.dict_keys (Py.dict_set d k v) = Props.add_key (Py.dict_keys d) k.
Proof.
  unfold Props.add_key, Py.dict_keys.
  induction d as [|[k0 v0] d IH]; simpl; [reflexivity|].
  rewrite (String.eqb_sym k k0).
  destruct (String.eqb k0 k); simpl; [reflexivity|].
  rewrite IH. now destruct (existsb (String.eqb k) (map fst d)).
Qed.

Lemma dict_get_update (d e : Py.dict V) k :
  Py.dict_get (Py.dict_update d e) k =
  match Py.dict_get (rev e) k with
  | Some v => Some v
  | None => Py.dict_get d k
  end.
Proof.
  unfold Py.dict_update. revert d.
  induction e as [|[k0 v0] e IH]; intros d; simpl; [reflexivity|].
  rewrite IH.
  assert (G : forall (a : Py.dict V) b,
             Py.dict_get (a ++ b) k =
             match Py.dict_get a k with Some v => Some v | None => Py.dict_get b k end).
  { induction a as [|[ka va] a IHa]; intros b; simpl; [reflexivity|].
    destruct (String.eqb ka k); [reflexivity|apply IHa]. }
  rewrite G. destruct (Py.dict_get (rev e) k); [reflexivity|].
  simpl. rewrite dict_get_set. now destruct (String.eqb k0 k).
Qed.

Lemma dict_get_in (e : Py.dict V) k :
  In k (Py.dict_keys e) -> exists j, Py.dict_get e k = Some j /\ In (k, j) e.
Proof.
  induction e as [|[k0 v0] e IH]; simpl; [contradiction|].
  intros H. destruct (String.eqb k0 k) eqn:E.
  - apply String.eqb_eq in E. subst k0. exists v0. split; [reflexivity|now left].
  - destruct H as [H|H]; [subst k0; now rewrite String.eqb_refl in E|].
    destruct (IH H) as [j [Hj Hin]]. exists j. split; [exact Hj|now right].
Qed.

Lemma dict_update_overrides (d e : Py.dict V) k :
  In k (Py.dict_keys e) ->
  exists j, Py.dict_get (Py.dict_update d e) k = Some j /\ In (k, j) e.
Proof.
  intros H. rewrite dict_get_update.
  assert (Hr : In k (Py.dict_keys (rev e))).
  { unfold Py.dict_keys in *. rewrite map_rev. now apply in_rev in H. }
  destruct (dict_get_in (rev e) k Hr) as [j [Hj Hin]].
  exists j. rewrite Hj. split; [reflexivity|]. now apply in_rev.
Qed.

End DictFacts.

Lemma mem_in k ks : Props.mem k ks = true <-> In k ks.
Proof.
  unfold Props.mem. rewrite existsb_exists. split.
  - intros [x [Hin Hx]]. apply String.eqb_eq in Hx. now subst x.
  - intros H. exists k. split; [exact H|apply String.eqb_refl].
Qed.

(* ================================================================== *)
(** * Facts about the Optuna loop *)
(* ================================================================== *)

Section OptunaFacts.

Import Sys.

Lemma well_numbered_lt l t :
  Props.well_numbered l -> In t l -> number t < List.length l.
Proof.
  unfold Props.well_numbered. intros H Hin.
  apply (in_map number) in Hin. rewrite H in Hin.
  apply in_seq in Hin. lia.
Qed.

Lemma well_numbered_fresh l :
  Props.well_numbered l -> forall t, In t l -> number t <> List.length l.
Proof. intros H t Hin. pose proof (well_numbered_lt l t H Hin). lia. Qed.

Lemma well_numbered_snoc l t :
  Props.well_numbered l -> number t = List.length l ->
  Props.well_numbered (l ++ [t]).
Proof.
  unfold Props.well_numbered. intros H Hn.
  rewrite map_app, length_app, H. simpl.
  rewrite Nat.add_1_r, seq_S, Hn. reflexivity.
Qed.

Lemma find_trial_last l t n :
  (forall t', In t' l -> number t' <> n) -> number t = n ->
  Optuna.find_trial n (l ++ [t]) = Some t.
Proof.
  intros Hl Ht. induction l as [|a l IH]; simpl.
  - rewrite Ht, Nat.eqb_refl. reflexivity.
  - destruct (Nat.eqb (number a) n) eqn:E.
    + apply Nat.eqb_eq in E. exfalso. apply (Hl a); [now left|exact E].
    + apply IH. intros t' Hin. apply Hl. now right.
Qed.

Lemma update_trial_last f l t n :
  (forall t', In t' l -> number t' <> n) -> number t = n ->
  Optuna.update_trial f n (l ++ [t]) = l ++ [f t].
Proof.
  intros Hl Ht. induction l as [|a l IH]; simpl.
  - rewrite Ht, Nat.eqb_refl. reflexivity.
  - destruct (Nat.eqb (number a) n) eqn:E.
    + apply Nat.eqb_eq in E. exfalso. apply (Hl a); [now left|exact E].
    + rewrite IH; [reflexivity|]. intros t' Hin. apply Hl. now right.
Qed.

Lemma suggest_float_spec w l t n name low high :
  trials w = l ++ [t] -> number t = n ->
  (forall t', In t' l -> number t' <> n) ->
  let v := Props.suggested w (params t) name low high in
  Optuna.suggest_float n name low high w =
  (Py.Ok v, with_trials w (l ++ [Optuna.set_param name v t])).
Proof.
  intros Hw Hn Hl v. unfold Optuna.suggest_float.
  rewrite Hw, (find_trial_last l t n Hl Hn).
  subst v. unfold Props.suggested.
  destruct (Py.dict_get (params t) name) as [v0|] eqn:E.
  - unfold Optuna.set_param. rewrite (dict_set_same _ _ _ E).
    replace (mkTrial (number t) (state t) (value t) (params t)) with t
      by now destruct t.
    rewrite <- Hw, with_trials_same. reflexivity.
  - rewrite (update_trial_last _ l t n Hl Hn), Hw. reflexivity.
Qed.

Lemma ask_spec w :
  Optuna.ask w =
  (Py.Ok (List.length (trials w)),
   with_trials w (trials w ++ [Optuna.blank_trial (List.length (trials w))])).
Proof. reflexivity. Qed.

Lemma tell_spec w l t n s v :
  trials w = l ++ [t] -> number t = n ->
  (forall t', In t' l -> number t' <> n) ->
  Optuna.tell n s v w = (Py.Ok tt, with_trials w (l ++ [Optuna.set_outcome s v t])).
Proof.
  intros Hw Hn Hl. unfold Optuna.tell.
  rewrite Hw, (update_trial_last _ l t n Hl Hn). reflexivity.
Qed.

Lemma run_trial_spec objective w r w2 t :
  Props.well_numbered (trials w) ->
  objective (List.length (trials w))
            (with_trials w (trials w ++ [Optuna.blank_trial (List.length (trials w))]))
  = (r, w2) ->
  trials w2 = trials w ++ [t] -> number t = List.length (trials w) ->
  Optuna.run_trial objective w =
  (Props.handed_on r,
   match Props.recorded r with
   | Some (s, v) => with_trials w2 (trials w ++ [Optuna.set_outcome s v t])
   | None => w2
   end).
Proof.
  intros Hwn Hobj Ht Hnum.
  pose proof (well_numbered_fresh _ Hwn) as Hfresh.
  unfold Optuna.run_trial.
  rewrite (bind_ok _ _ _ _ _ (ask_spec w)).
  rewrite (bind_ok _ _ _ _ _ (attempt_eq _ _ _ _ Hobj)).
  destruct r as [[v|b|]|e].
  - simpl. apply (tell_spec w2 _ t _ _ _ Ht Hnum Hfresh).
  - reflexivity.
  - simpl. apply (tell_spec w2 _ t _ _ _ Ht Hnum Hfresh).
  - destruct e; simpl;
      try (rewrite (bind_ok _ _ _ _ _ (tell_spec w2 _ t _ _ _ Ht Hnum Hfresh));
           reflexivity).
    + apply (tell_spec w2 _ t _ _ _ Ht Hnum Hfresh).
    + reflexivity.
Qed.


Lemma optimize_from_step objective timed budget i w :
  (timed && deadline_passed w i) = false ->
  Optuna.optimize_from objective timed (S budget) i w =
  match Optuna.run_trial objective w with
  | (Py.Ok _, w') => Optuna.optimize_from objective timed budget (S i) w'
  | (Py.Raise e, w') => (Py.Raise e, w')
  end.
Proof.
  intros H. simpl. rewrite H. unfold Sys.bind.
  destruct (Optuna.run_trial objective w) as [[u|e] w']; reflexivity.
Qed.





Lemma best_of_in l : forall b, In (Optuna.best_of b l) (b :: l).
Proof.
  induction l as [|t l IH]; intros b; simpl; [now left|].
  destruct (Qle_bool (Optuna.value_of t) (Optuna.value_of b)).
  - destruct (IH b) as [H|H]; [now left|now right; right].
  - right. exact (IH t).
Qed.

(** [best_trial] only ever selects a COMPLETE trial of the study. *)
Lemma best_trial_complete l b :
  Optuna.best_trial_of l = Py.Ok b -> In b l /\ state b = COMPLETE.
Proof.
  unfold Optuna.best_trial_of.
  destruct (Optuna.completed l) as [|t l'] eqn:E; [discriminate|].
  intros [= <-].
  assert (Hin : In (Optuna.best_of t l') (Optuna.completed l)).
  { rewrite E. apply best_of_in. }
  unfold Optuna.completed in Hin. apply filter_In in Hin.
  destruct Hin as [Hin Hc]. split; [exact Hin|].
  unfold Optuna.is_complete in Hc.
  destruct (state (Optuna.best_of t l')); try discriminate. reflexivity.
Qed.



End OptunaFacts.

(* ================================================================== *)
(** * Facts about optimize_excellent_fit_top3.py *)
(* ================================================================== *)

Section ExcellentFitFacts.

Import Sys.

Lemma sample_into_spec ranges :
  forall n l t cur w,
    trials w = l ++ [t] -> number t = n ->
    (forall t', In t' l -> number t' <> n) ->
    exists ps' params',
      ExcellentFit.sample_into n ranges cur w =
        (Py.Ok params', with_trials w (l ++ [mkTrial n (state t) (value t) ps']))
      /\ (forall key,
            Py.dict_get params' key =
            if Props.mem key (Py.dict_keys ranges)
            then option_map Py.JNum (Py.dict_get ps' key)
            else Py.dict_get cur key)
      /\ (forall key, Props.mem key (Py.dict_keys ranges) = true ->
                      Py.dict_get ps' key <> None)
      /\ (forall key, Props.mem key (Py.dict_keys ranges) = false ->
                      Py.dict_get ps' key = Py.dict_get (params t) key)
      /\ Py.dict_keys ps' =
         fold_left Props.add_key (Py.dict_keys ranges) (Py.dict_keys (params t)).
Proof.
  induction ranges as [|[key [low high]] ranges IH]; intros n l t cur w Hw Hn Hl.
  - exists (params t), cur. subst n.
    replace (mkTrial (number t) (state t) (value t) (params t)) with t
      by now destruct t.
    rewrite <- Hw, with_trials_same. simpl. repeat split; easy.
  - simpl ExcellentFit.sample_into.
    pose proof (suggest_float_spec w l t n key low high Hw Hn Hl) as Hs.
    simpl in Hs. rewrite (bind_ok _ _ _ _ _ Hs).
    set (v := Props.suggested w (params t) key low high) in *.
    destruct (IH n l (Optuna.set_param key v t)
                 (Py.dict_set cur key (Py.JNum v))
                 (with_trials w (l ++ [Optuna.set_param key v t]))
                 eq_refl Hn Hl)
      as [ps' [params' [Hrun [Hget [Hin [Hout Hkeys]]]]]].
    exists ps', params'. split; [exact Hrun|].
    simpl Py.dict_keys. unfold Props.mem in *. simpl existsb.
    split; [|split; [|split]].
    + intros k. rewrite Hget.
      destruct (existsb (String.eqb k) (Py.dict_keys ranges)) eqn:E.
      * now rewrite orb_true_r.
      * rewrite orb_false_r, dict_get_set, (String.eqb_sym k key).
        destruct (String.eqb key k) eqn:Ek; [|reflexivity].
        rewrite (Hout k E). simpl. rewrite dict_get_set, Ek. reflexivity.
    + intros k Hk.
      destruct (existsb (String.eqb k) (Py.dict_keys ranges)) eqn:E.
      * now apply Hin.
      * rewrite orb_false_r in Hk. rewrite (Hout k E). simpl.
        rewrite dict_get_set, (String.eqb_sym key k), Hk. discriminate.
    + intros k Hk. apply orb_false_elim in Hk. destruct Hk as [Hk1 Hk2].
      rewrite (Hout k Hk2). simpl.
      rewrite dict_get_set, (String.eqb_sym key k), Hk1. reflexivity.
    + rewrite Hkeys. simpl. rewrite dict_keys_set. reflexivity.
Qed.

Lemma run_evaluator_spec cfg path w :
  ExcellentFit.run_evaluator cfg path w =
  match node w (spawned w) (ExcellentFit.command cfg path) (files w) with
  | None =>
      (Py.Raise (Py.TrialPruned EmptyString),
       with_err_lines (with_spawned w (S (spawned w)))
         (err_lines w ++
          [(Py.nl ++ "[Trial timeout after "
            ++ Py.str_of_nat (ExcellentFit.TRIAL_TIMEOUT cfg)
            ++ "s; try TRIAL_TIMEOUT=1800 or lower LIMIT]")%string]))
  | Some result =>
      ExcellentFit.read_result result (with_spawned w (S (spawned w)))
  end.
Proof.
  unfold ExcellentFit.run_evaluator, Sys.bind, attempt, subprocess_run.
  destruct (node w (spawned w) (ExcellentFit.command cfg path) (files w));
    reflexivity.
Qed.

Lemma read_result_trials result w :
  trials (snd (ExcellentFit.read_result result w)) = trials w.
Proof.
  unfold ExcellentFit.read_result.
  destruct (negb (Z.eqb (returncode result) 0)).
  - destruct (ExcellentFit.quota_or_rate_limit _); reflexivity.
  - destruct (Py.last_item _); reflexivity.
Qed.

Lemma run_evaluator_trials cfg path w :
  trials (snd (ExcellentFit.run_evaluator cfg path w)) = trials w.
Proof.
  rewrite run_evaluator_spec.
  destruct (node w (spawned w) _ (files w)); [|reflexivity].
  now rewrite read_result_trials.
Qed.

(** The world in which the evaluator of a trial starts. *)
Lemma objective_spec cfg w l t base :
  trials w = l ++ [t] ->
  (forall t', In t' l -> number t' <> number t) ->
  Py.dict_get (files w) ExcellentFit.BASE_WEIGHTS = Some (JsonFile base) ->
  exists ps' written,
    ExcellentFit.objective cfg (number t) w =
      ExcellentFit.run_evaluator cfg ExcellentFit.WEIGHTS_PATH
        (with_files
           (with_trials w (l ++ [mkTrial (number t) (state t) (value t) ps']))
           (Py.dict_set (files w) ExcellentFit.WEIGHTS_PATH (JsonFile written)))
    /\ (forall key,
          Py.dict_get written key =
          if Props.mem key (Py.dict_keys ExcellentFit.RESCORE_RANGES)
          then option_map Py.JNum (Py.dict_get ps' key)
          else Py.dict_get base key)
    /\ (forall key, Props.mem key (Py.dict_keys ExcellentFit.RESCORE_RANGES) = true ->
                    Py.dict_get ps' key <> None)
    /\ (forall key, Props.mem key (Py.dict_keys ExcellentFit.RESCORE_RANGES) = false ->
                    Py.dict_get ps' key = Py.dict_get (params t) key)
    /\ Py.dict_keys ps' =
       fold_left Props.add_key (Py.dict_keys ExcellentFit.RESCORE_RANGES)
                 (Py.dict_keys (params t)).
Proof.
  intros Hw Hl Hbase.
  destruct (sample_into_spec ExcellentFit.RESCORE_RANGES (number t) l t base w
              Hw eq_refl Hl)
    as [ps' [written [Hrun Hrest]]].
  exists ps', written. split; [|exact Hrest].
  unfold ExcellentFit.objective.
  assert (Hread : read_json ExcellentFit.BASE_WEIGHTS w = (Py.Ok base, w)).
  { unfold read_json. now rewrite Hbase. }
  rewrite (bind_ok _ _ _ _ _ Hread), (bind_ok _ _ _ _ _ Hrun).
  reflexivity.
Qed.


(** A trial of the excellent-fit driver, from the outcome of its evaluator:
    the file the evaluator reads holds [written], the base with the sampled
    values [ps] laid over it, and the loop records what the evaluator call
    came to. *)
Lemma excellent_trial cfg w base :
  Props.well_numbered (trials w) ->
  Py.dict_get (files w) ExcellentFit.BASE_WEIGHTS = Some (JsonFile base) ->
  let n := List.length (trials w) in
  exists ps written,
    (forall key,
       Py.dict_get written key =
       if Props.mem key (Py.dict_keys ExcellentFit.RESCORE_RANGES)
       then option_map Py.JNum (Py.dict_get ps key)
       else Py.dict_get base key)
    /\ Py.dict_keys ps = Py.dict_keys ExcellentFit.RESCORE_RANGES
    /\ forall r w3,
         ExcellentFit.run_evaluator cfg ExcellentFit.WEIGHTS_PATH
           (Props.at_evaluator w (mkTrial n RUNNING None ps)
                               ExcellentFit.WEIGHTS_PATH written) = (r, w3) ->
         Optuna.run_trial (ExcellentFit.objective cfg) w =
         (Props.handed_on r,
          match Props.recorded r with
          | Some (s, v) => Props.told w3 (trials w) (mkTrial n s v ps)
          | None => w3
          end).
Proof.
  intros Hwn Hbase n.
  pose proof (well_numbered_fresh _ Hwn) as Hfresh. fold n in Hfresh.
  destruct (objective_spec cfg
              (with_trials w (trials w ++ [Optuna.blank_trial n]))
              (trials w) (Optuna.blank_trial n) base eq_refl Hfresh Hbase)
    as [ps [written [Ho [Hget [_ [_ Hkeys]]]]]].
  exists ps, written. split; [exact Hget|]. split; [exact Hkeys|].
  intros r w3 Hev. simpl in Ho.
  assert (Ht : trials w3 = trials w ++ [mkTrial n RUNNING None ps]).
  { replace w3 with (snd (r, w3)) by reflexivity.
    rewrite <- Hev, run_evaluator_trials. reflexivity. }
  rewrite (run_trial_spec (ExcellentFit.objective cfg) w r w3
             (mkTrial n RUNNING None ps) Hwn).
  - destruct (Props.recorded r) as [[s v]|]; reflexivity.
  - fold n. rewrite Ho. exact Hev.
  - exact Ht.
  - reflexivity.
Qed.

End ExcellentFitFacts.

(* ================================================================== *)
(** * Facts about the drivers that tune the default weights file *)
(* ================================================================== *)

Ltac suggest_step Hl :=
  match goal with
  | |- context [Sys.bind (Optuna.suggest_float ?n ?name ?lo ?hi) ?k ?w] =>
      let H := fresh "Hs" in
      pose proof (suggest_float_spec w _ _ n name lo hi eq_refl eq_refl Hl) as H;
      cbv zeta in H; rewrite (bind_ok _ _ _ _ _ H); clear H
  end.

Section SharedFile.

Import Sys.

(** A driver whose objective samples, then lays [overlay] of the sampled
    values over the file at [path] and calls the evaluator [run]. *)
Variable objective : nat -> M Py.float.
Variable path : string.
Variable run : M Py.float.
Variable overlay : Py.dict Q -> Py.dict Py.json.
Variable keys : list string.

Hypothesis objective_prefix :
  forall n w l,
    (forall t', In t' l -> number t' <> n) ->
    exists ps,
      Py.dict_keys ps = keys
      /\ objective n (with_trials w (l ++ [Optuna.blank_trial n])) =
         (weights <- read_json path ;;
          write_json path (Py.dict_update weights (overlay ps)) ;;;
          run)
           (with_trials w (l ++ [mkTrial n RUNNING None ps])).

Hypothesis run_trials : forall w, trials (snd (run w)) = trials w.

Lemma shared_local : Props.trial_local objective.
Proof.
  intros n w l Hw Hl.
  destruct (objective_prefix n w l Hl) as [ps [_ Ho]].
  rewrite <- (with_trials_same w), Hw, Ho.
  unfold Sys.bind, read_json. simpl files.
  destruct (Py.dict_get (files w) path) as [[old|]|]; simpl;
    try (eexists; split; reflexivity).
  rewrite run_trials. simpl. eexists; split; reflexivity.
Qed.

Lemma shared_trial w old :
  Props.well_numbered (trials w) ->
  Py.dict_get (files w) path = Some (JsonFile old) ->
  let n := List.length (trials w) in
  exists ps,
    Py.dict_keys ps = keys
    /\ forall r w3,
         run (Props.at_evaluator w (mkTrial n RUNNING None ps) path
                (Py.dict_update old (overlay ps))) = (r, w3) ->
         Optuna.run_trial objective w =
         (Props.handed_on r,
          match Props.recorded r with
          | Some (s, v) => Props.told w3 (trials w) (mkTrial n s v ps)
          | None => w3
          end).
Proof.
  intros Hwn Hold n.
  pose proof (well_numbered_fresh _ Hwn) as Hfresh. fold n in Hfresh.
  destruct (objective_prefix n w (trials w) Hfresh) as [ps [Hk Ho]].
  exists ps. split; [exact Hk|]. intros r w3 Hev.
  assert (Ho' : objective n (with_trials w (trials w ++ [Optuna.blank_trial n]))
                = (r, w3)).
  { rewrite Ho. unfold Sys.bind at 1. unfold read_json. simpl files.
    rewrite Hold. exact Hev. }
  assert (Ht : trials w3 = trials w ++ [mkTrial n RUNNING None ps]).
  { replace w3 with (snd (r, w3)) by reflexivity.
    rewrite <- Hev, run_trials. reflexivity. }
  rewrite (run_trial_spec objective w r w3 (mkTrial n RUNNING None ps)
             Hwn Ho' Ht eq_refl).
  destruct (Props.recorded r) as [[s v]|]; reflexivity.
Qed.

Hypothesis run_files : forall w, files (snd (run w)) = files w.

Lemma shared_trial_file w old :
  Props.well_numbered (trials w) ->
  Props.file_at w path = Some old ->
  exists t,
    trials (snd (Optuna.run_trial objective w)) = trials w ++ [t]
    /\ number t = List.length (trials w)
    /\ Py.dict_keys (params t) = keys
    /\ Props.file_at (snd (Optuna.run_trial objective w)) path
       = Some (Py.dict_update old (overlay (params t))).
Proof.
  intros Hwn Hfile.
  assert (Hold : Py.dict_get (files w) path = Some (JsonFile old)).
  { unfold Props.file_at in Hfile.
    destruct (Py.dict_get (files w) path) as [[d|]|]; try discriminate.
    now injection Hfile as ->. }
  destruct (shared_trial w old Hwn Hold) as [ps [Hk Htrial]].
  destruct (run (Props.at_evaluator w
                   (mkTrial (List.length (trials w)) RUNNING None ps) path
                   (Py.dict_update old (overlay ps)))) as [r w3] eqn:Hev.
  rewrite (Htrial r w3 eq_refl).
  assert (Hf : files w3 =
               Py.dict_set (files w) path (JsonFile (Py.dict_update old (overlay ps)))).
  { replace w3 with (snd (r, w3)) by reflexivity.
    rewrite <- Hev, run_files. reflexivity. }
  assert (Ht : trials w3 =
               trials w ++ [mkTrial (List.length (trials w)) RUNNING None ps]).
  { replace w3 with (snd (r, w3)) by reflexivity.
    rewrite <- Hev, run_trials. reflexivity. }
  assert (Hfa : Props.file_at w3 path = Some (Py.dict_update old (overlay ps))).
  { unfold Props.file_at. rewrite Hf, dict_get_set, String.eqb_refl. reflexivity. }
  destruct (Props.recorded r) as [[st v]|]; simpl.
  - exists (mkTrial (List.length (trials w)) st v ps). repeat split; try assumption.
  - exists (mkTrial (List.length (trials w)) RUNNING None ps).
    repeat split; assumption.
Qed.

Lemma shared_loop timed :
  forall budget i w old,
    Props.well_numbered (trials w) ->
    Props.file_at w path = Some old ->
    exists added,
      trials (snd (Optuna.optimize_from objective timed budget i w))
        = trials w ++ added
      /\ Forall (fun t => Py.dict_keys (params t) = keys) added
      /\ Props.file_at (snd (Optuna.optimize_from objective timed budget i w)) path
         = Some (Props.layered overlay added old).
Proof.
  induction budget as [|budget IH]; intros i w old Hwn Hfile.
  - exists []. simpl. rewrite app_nil_r. repeat split; [constructor|exact Hfile].
  - destruct (timed && deadline_passed w i) eqn:Hd.
    + exists []. simpl. rewrite Hd. simpl. rewrite app_nil_r.
      repeat split; [constructor|exact Hfile].
    + rewrite (optimize_from_step _ _ _ _ _ Hd).
      destruct (shared_trial_file w old Hwn Hfile) as [t [Ht [Hn [Hk Hf]]]].
      destruct (Optuna.run_trial objective w) as [[u|e] w'] eqn:Hrun;
        simpl in Ht, Hf.
      * assert (Hwn' : Props.well_numbered (trials w')).
        { rewrite Ht. now apply well_numbered_snoc. }
        destruct (IH (S i) w' _ Hwn' Hf) as [added [Ha [Hb Hc]]].
        exists (t :: added). rewrite Ha, Ht, <- app_assoc. simpl.
        repeat split; [constructor; assumption|exact Hc].
      * exists [t]. simpl. repeat split; [exact Ht| |exact Hf].
        constructor; [exact Hk|constructor].
Qed.

End SharedFile.

Section RankingFacts.

Import Sys.

Lemma ranking_run_evaluator_spec subset path w :
  Ranking.run_evaluator subset path w =
  match node w (spawned w) (Ranking.command subset path) (files w) with
  | None => (Py.Raise Py.TimeoutExpired, with_spawned w (S (spawned w)))
  | Some result => Ranking.read_result result (with_spawned w (S (spawned w)))
  end.
Proof.
  unfold Ranking.run_evaluator, Sys.bind, subprocess_run.
  destruct (node w (spawned w) _ (files w)); reflexivity.
Qed.

Lemma ranking_read_result_trials result w :
  trials (snd (Ranking.read_result result w)) = trials w.
Proof.
  unfold Ranking.read_result.
  destruct (negb (Z.eqb (returncode result) 0)); reflexivity.
Qed.

Lemma ranking_run_trials subset path w :
  trials (snd (Ranking.run_evaluator subset path w)) = trials w.
Proof.
  rewrite ranking_run_evaluator_spec.
  destruct (node w (spawned w) _ (files w)); [|reflexivity].
  now rewrite ranking_read_result_trials.
Qed.

Lemma ranking_prefix n w l :
  (forall t', In t' l -> number t' <> n) ->
  exists ps,
    Py.dict_keys ps =
      ["anchor_per_match"; "anchor_cap"; "subspecialty_cap"; "high_signal_2";
       "pathway_3"]%string
    /\ Ranking.objective n (with_trials w (l ++ [Optuna.blank_trial n])) =
       (weights <- read_json Ranking.WEIGHTS_PATH ;;
        write_json Ranking.WEIGHTS_PATH
                   (Py.dict_update weights (Ranking.num_params ps)) ;;;
        Ranking.run_evaluator "train" Ranking.WEIGHTS_PATH)
         (with_trials w (l ++ [mkTrial n RUNNING None ps])).
Proof.
  intros Hl.
  assert (H : exists v1 v2 v3 v4 v5,
             Ranking.objective n (with_trials w (l ++ [Optuna.blank_trial n])) =
             (weights <- read_json Ranking.WEIGHTS_PATH ;;
              write_json Ranking.WEIGHTS_PATH
                (Py.dict_update weights
                   [ ("anchor_per_match", Py.JNum v1); ("anchor_cap", Py.JNum v2);
                     ("subspecialty_cap", Py.JNum v3); ("high_signal_2", Py.JNum v4);
                     ("pathway_3", Py.JNum v5) ]%string) ;;;
              Ranking.run_evaluator "train" Ranking.WEIGHTS_PATH)
               (with_trials w
                  (l ++ [mkTrial n RUNNING None
                           [ ("anchor_per_match", v1); ("anchor_cap", v2);
                             ("subspecialty_cap", v3); ("high_signal_2", v4);
                             ("pathway_3", v5) ]%string]))).
  { do 5 eexists. unfold Ranking.objective.
    do 5 suggest_step Hl.
    reflexivity. }
  destruct H as [v1 [v2 [v3 [v4 [v5 H]]]]].
  eexists. split; [|exact H]. reflexivity.
Qed.

End RankingFacts.

(* ================================================================== *)
(** * Properties of the trial runners *)
(* ================================================================== *)

Section TrialRunnerFacts.

Import Sys.







Lemma ranking_trial w old :
  Props.well_numbered (trials w) ->
  Py.dict_get (files w) Ranking.WEIGHTS_PATH = Some (JsonFile old) ->
  let n := List.length (trials w) in
  exists ps,
    Py.dict_keys ps =
      ["anchor_per_match"; "anchor_cap"; "subspecialty_cap"; "high_signal_2";
       "pathway_3"]%string
    /\ forall r w3,
         Ranking.run_evaluator "train" Ranking.WEIGHTS_PATH
           (Props.at_evaluator w (mkTrial n RUNNING None ps) Ranking.WEIGHTS_PATH
              (Py.dict_update old (Ranking.num_params ps))) = (r, w3) ->
         Optuna.run_trial Ranking.objective w =
         (Props.handed_on r,
          match Props.recorded r with
          | Some (s, v) => Props.told w3 (trials w) (mkTrial n s v ps)
          | None => w3
          end).
Proof.
  apply (shared_trial Ranking.objective Ranking.WEIGHTS_PATH
           (Ranking.run_evaluator "train" Ranking.WEIGHTS_PATH)
           Ranking.num_params).
  - intros n w0 l Hl. apply ranking_prefix. exact Hl.
  - intros w0. apply ranking_run_trials.
Qed.

Lemma ranking_local : Props.trial_local Ranking.objective.
Proof.
  apply (shared_local Ranking.objective Ranking.WEIGHTS_PATH
           (Ranking.run_evaluator "train" Ranking.WEIGHTS_PATH)
           Ranking.num_params
           ["anchor_per_match"; "anchor_cap"; "subspecialty_cap"; "high_signal_2";
            "pathway_3"]%string).
  - intros n w0 l Hl. apply ranking_prefix. exact Hl.
  - intros w0. apply ranking_run_trials.
Qed.







Lemma float_of_str_raises s e :
  Py.float_of_str s = Py.Raise e ->
  e = Py.ValueError ("could not convert string to float: " ++ Py.repr s)%string.
Proof.
  unfold Py.float_of_str.
  destruct (Py.read_sign (Py.strip s)) as [neg s0].
  destruct (String.eqb (Py.lower s0) "inf" || String.eqb (Py.lower s0) "infinity");
    [discriminate|].
  destruct (String.eqb (Py.lower s0) "nan"); [discriminate|].
  destruct (Py.read_digitpart s0 0%Z 0) as [[ip ni] s1].
  destruct (match s1 with
            | String "."%char s1' => Py.read_digitpart s1' ip 0
            | _ => (ip, 0, s1)
            end) as [[fp nf] s2].
  destruct (ni + nf); [now intros [= <-]|].
  destruct (Py.read_exponent s2) as [[ex rest]|]; [|now intros [= <-]].
  destruct rest; [discriminate|now intros [= <-]].
Qed.




Lemma mem_fw key ks :
  Props.mem (String.append "fw_" key) (map (String.append "fw_") ks)
  = Props.mem key ks.
Proof.
  unfold Props.mem. induction ks as [|a ks IH]; [reflexivity|].
  cbn [map existsb]. rewrite IH. f_equal.
Qed.

Lemma stage_a_fields_spec ranges :
  forall n l t acc w,
    trials w = l ++ [t] -> number t = n ->
    (forall t', In t' l -> number t' <> n) ->
    exists ps' acc',
      StageA.sample_fields n ranges acc w =
        (Py.Ok acc', with_trials w (l ++ [mkTrial n (state t) (value t) ps']))
      /\ (forall key,
            Py.dict_get acc' key =
            if Props.mem key (Py.dict_keys ranges)
            then option_map Py.JNum (Py.dict_get ps' (String.append "fw_" key))
            else Py.dict_get acc key)
      /\ (forall key, Props.mem key (Py.dict_keys ranges) = true ->
                      Py.dict_get ps' (String.append "fw_" key) <> None)
      /\ (forall name,
            Props.mem name (map (String.append "fw_") (Py.dict_keys ranges)) = false ->
            Py.dict_get ps' name = Py.dict_get (params t) name)
      /\ Py.dict_keys acc' =
         fold_left Props.add_key (Py.dict_keys ranges) (Py.dict_keys acc)
      /\ Py.dict_keys ps' =
         fold_left Props.add_key
           (map (String.append "fw_") (Py.dict_keys ranges))
           (Py.dict_keys (params t)).
Proof.
  induction ranges as [|[key [low high]] ranges IH]; intros n l t acc w Hw Hn Hl.
  - exists (params t), acc. subst n.
    replace (mkTrial (number t) (state t) (value t) (params t)) with t
      by now destruct t.
    rewrite <- Hw, with_trials_same. simpl. repeat split; easy.
  - simpl StageA.sample_fields.
    pose proof (suggest_float_spec w l t n ("fw_" ++ key) low high Hw Hn Hl) as Hs.
    cbv zeta in Hs. rewrite (bind_ok _ _ _ _ _ Hs).
    set (v := Props.suggested w (params t) ("fw_" ++ key) low high) in *.
    destruct (IH n l (Optuna.set_param ("fw_" ++ key) v t)
                 (Py.dict_set acc key (Py.JNum v))
                 (with_trials w (l ++ [Optuna.set_param ("fw_" ++ key) v t]))
                 eq_refl Hn Hl)
      as [ps' [acc' [Hrun [Hget [Hin [Hout [Hka Hkp]]]]]]].
    exists ps', acc'. split; [exact Hrun|].
    change ("fw_" ++ key)%string with (String.append "fw_" key) in *.
    assert (Hself : Props.mem key (Py.dict_keys ranges) = false ->
                    Py.dict_get ps' (String.append "fw_" key) = Some v).
    { intros E. rewrite (Hout _ (eq_trans (mem_fw key _) E)).
      simpl. rewrite dict_get_set, String.eqb_refl. reflexivity. }
    simpl Py.dict_keys. unfold Props.mem in *. cbn [map existsb].
    split; [|split; [|split; [|split]]].
    + intros k. rewrite Hget.
      destruct (existsb (String.eqb k) (Py.dict_keys ranges)) eqn:E.
      * now rewrite orb_true_r.
      * rewrite orb_false_r, dict_get_set, (String.eqb_sym k key).
        destruct (String.eqb key k) eqn:Ek; [|reflexivity].
        apply String.eqb_eq in Ek. subst k.
        rewrite (Hself E). reflexivity.
    + intros k Hk.
      destruct (existsb (String.eqb k) (Py.dict_keys ranges)) eqn:E.
      * now apply Hin.
      * rewrite orb_false_r in Hk. apply String.eqb_eq in Hk. subst k.
        rewrite (Hself E). discriminate.
    + intros name Hname. apply orb_false_elim in Hname.
      destruct Hname as [H1 H2].
      rewrite (Hout name H2). simpl.
      rewrite dict_get_set.
      destruct (String.eqb _ name) eqn:E; [|reflexivity].
      apply String.eqb_eq in E. subst name.
      simpl in H1. rewrite String.eqb_refl in H1. discriminate.
    + rewrite Hka. rewrite dict_keys_set. reflexivity.
    + rewrite Hkp. simpl. rewrite dict_keys_set. reflexivity.
Qed.

(** C8: the parameter set in the file the evaluator reads.  In
    optimize_excellent_fit_top3 the evaluator of every trial is started on a
    weights file that holds the base configuration with the sampled values
    laid over it: a sampled key carries the value recorded in the trial, any
    other key carries its value of the base file, all sixteen keys of the
    search space are sampled, and no key of the base is dropped.  In
    optimize_stage_a_recall, which reads no base file, the file holds the
    fixed entry [stage_a_top_n] next to the sampled [k1] and [b] (and the
    sampled field weights when these are tuned). *)
Theorem C8_full_parameter_set
  (cfg : ExcellentFit.Config) (w : World) (base : Py.dict Py.json) :
  Props.well_numbered (trials w) ->
  Py.dict_get (files w) ExcellentFit.BASE_WEIGHTS = Some (JsonFile base) ->
  let n := List.length (trials w) in
  let started := with_trials w (trials w ++ [Optuna.blank_trial n]) in
  (exists ps written,
      let at_call :=
        Props.at_evaluator w (mkTrial n RUNNING None ps)
                           ExcellentFit.WEIGHTS_PATH written in
      ExcellentFit.objective cfg n started =
        ExcellentFit.run_evaluator cfg ExcellentFit.WEIGHTS_PATH at_call
      /\ Py.dict_get (files at_call) ExcellentFit.WEIGHTS_PATH
         = Some (JsonFile written)
      /\ Py.dict_get (files at_call) ExcellentFit.BASE_WEIGHTS
         = Some (JsonFile base)
      /\ Py.dict_keys ps = Py.dict_keys ExcellentFit.RESCORE_RANGES
      /\ (forall key,
            Props.mem key (Py.dict_keys ExcellentFit.RESCORE_RANGES) = true ->
            exists v, Py.dict_get ps key = Some v
                      /\ Py.dict_get written key = Some (Py.JNum v))
      /\ (forall key,
            Props.mem key (Py.dict_keys ExcellentFit.RESCORE_RANGES) = false ->
            Py.dict_get written key = Py.dict_get base key)
      /\ (forall key j, Py.dict_get base key = Some j ->
                        exists j', Py.dict_get written key = Some j'))
  /\ (forall tune_fields, exists ps written,
      StageA.objective tune_fields n started =
        StageA.run_stage_a_recall StageA.WEIGHTS_PATH
          (Props.at_evaluator w (mkTrial n RUNNING None ps)
                              StageA.WEIGHTS_PATH written)
      /\ Py.dict_get written "stage_a_top_n" = Some (Py.JNum 150)
      /\ Py.dict_get written "k1" = option_map Py.JNum (Py.dict_get ps "k1")
      /\ Py.dict_get written "b" = option_map Py.JNum (Py.dict_get ps "b")
      /\ Py.dict_keys written =
         ["stage_a_top_n"; "k1"; "b"]%string
         ++ (if tune_fields then ["field_weights"]%string else [])
      /\ Py.dict_keys ps =
         ["k1"; "b"]%string
         ++ (if tune_fields
             then map (String.append "fw_") (Py.dict_keys StageA.FIELD_RANGES)
             else [])
      /\ (tune_fields = true ->
          exists fw,
            Py.dict_get written "field_weights" = Some (Py.JObj fw)
            /\ Py.dict_keys fw = Py.dict_keys StageA.FIELD_RANGES
            /\ forall key,
                 In key (Py.dict_keys StageA.FIELD_RANGES) ->
                 exists v,
                   Py.dict_get ps (String.append "fw_" key) = Some v
                   /\ Py.dict_get fw key = Some (Py.JNum v))).
Proof.
  intros Hwn Hbase n started.
  pose proof (well_numbered_fresh _ Hwn) as Hfresh. fold n in Hfresh.
  split.
  - destruct (objective_spec cfg started (trials w) (Optuna.blank_trial n) base
                eq_refl Hfresh Hbase)
      as [ps [written [Ho [Hget [Hin [_ Hkeys]]]]]].
    exists ps, written. cbv zeta.
    split; [exact Ho|]. split.
    { unfold Props.at_evaluator. simpl files. rewrite dict_get_set.
      now rewrite String.eqb_refl. }
    split.
    { unfold Props.at_evaluator. simpl files. rewrite dict_get_set.
      exact Hbase. }
    split; [exact Hkeys|]. split; [|split].
    + intros key Hk. specialize (Hget key). rewrite Hk in Hget.
      destruct (Py.dict_get ps key) as [v|] eqn:E.
      * exists v. split; [reflexivity|exact Hget].
      * exfalso. now apply (Hin key Hk).
    + intros key Hk. specialize (Hget key). now rewrite Hk in Hget.
    + intros key j Hj. specialize (Hget key).
      destruct (Props.mem key (Py.dict_keys ExcellentFit.RESCORE_RANGES)) eqn:Hk.
      * destruct (Py.dict_get ps key) as [v|] eqn:E.
        -- exists (Py.JNum v). exact Hget.
        -- exfalso. now apply (Hin key Hk).
      * exists j. now rewrite Hget.
  - intros tune_fields.
    pose proof (suggest_float_spec started (trials w) (Optuna.blank_trial n) n
                  "k1" 1.0 2.2 eq_refl eq_refl Hfresh) as H1.
    cbv zeta in H1.
    set (k1 := Props.suggested started (params (Optuna.blank_trial n)) "k1" 1.0 2.2)
      in H1.
    clearbody k1.
    pose proof (suggest_float_spec
                  (with_trials started
                     (trials w ++ [Optuna.set_param "k1" k1 (Optuna.blank_trial n)]))
                  (trials w) (Optuna.set_param "k1" k1 (Optuna.blank_trial n)) n
                  "b" 0.5 0.95 eq_refl eq_refl Hfresh) as H2.
    cbv zeta in H2.
    set (b := Props.suggested _ _ "b" 0.5 0.95) in H2.
    clearbody b.
    unfold StageA.objective.
    rewrite (bind_ok _ _ _ _ _ H1), (bind_ok _ _ _ _ _ H2).
    destruct tune_fields.
    + destruct (stage_a_fields_spec StageA.FIELD_RANGES n (trials w)
                  (Optuna.set_param "b" b
                     (Optuna.set_param "k1" k1 (Optuna.blank_trial n)))
                  []
                  (with_trials
                     (with_trials started
                        (trials w
                         ++ [Optuna.set_param "k1" k1 (Optuna.blank_trial n)]))
                     (trials w
                      ++ [Optuna.set_param "b" b
                            (Optuna.set_param "k1" k1 (Optuna.blank_trial n))]))
                  eq_refl eq_refl Hfresh)
        as [ps' [acc' [Hrun [Hget [Hin [Hout [Hka Hkp]]]]]]].
      rewrite bind_assoc, (bind_ok _ _ _ _ _ Hrun).
      exists ps'.
      exists [ ("stage_a_top_n", Py.JNum 150); ("k1", Py.JNum k1);
               ("b", Py.JNum b); ("field_weights", Py.JObj acc') ]%string.
      split; [reflexivity|]. split; [reflexivity|].
      split; [rewrite (Hout "k1"%string eq_refl); reflexivity|].
      split; [rewrite (Hout "b"%string eq_refl); reflexivity|].
      split; [reflexivity|].
      split; [rewrite Hkp; reflexivity|].
      intros _. exists acc'. split; [reflexivity|].
      split; [rewrite Hka; reflexivity|].
      intros key Hkey. apply mem_in in Hkey.
      specialize (Hget key). rewrite Hkey in Hget.
      destruct (Py.dict_get ps' (String.append "fw_" key)) as [v|] eqn:E;
        [|exfalso; now apply (Hin key Hkey)].
      exists v. split; [reflexivity|exact Hget].
    + exists [ ("k1", k1); ("b", b) ]%string.
      exists [ ("stage_a_top_n", Py.JNum 150); ("k1", Py.JNum k1);
               ("b", Py.JNum b) ]%string.
      repeat split; try reflexivity. discriminate.
Qed.

Lemma C8_witness :
  exists ps written,
    Py.dict_keys ps = Py.dict_keys ExcellentFit.RESCORE_RANGES
    /\ Py.dict_get written "k1" = Some (Py.JNum 1.2)
    /\ exists v, Py.dict_get ps "pathway_3" = Some v
                 /\ Py.dict_get written "pathway_3" = Some (Py.JNum v).
Proof.
  destruct (C8_full_parameter_set Props.demo_config (Props.demo_world None)
              Props.demo_base)
    as [[ps [written [_ [_ [_ [Hk [Hin [Hout _]]]]]]]] _].
  - reflexivity.
  - reflexivity.
  - exists ps, written. split; [exact Hk|]. split.
    + rewrite (Hout "k1"%string eq_refl). reflexivity.
    + apply (Hin "pathway_3"%string). reflexivity.
Defined.

(** The file the evaluator of the first trial reads on the demo files: the
    four keys of the base, with [anchor_per_match] and [pathway_3] replaced
    by the sampled lower bounds, followed by the other fourteen sampled keys. *)
Example excellent_fit_file_of_first_trial :
  Props.file_at
    (snd (Optuna.run_trial (ExcellentFit.objective Props.demo_config)
            (Props.demo_world (Some Props.plain_success))))
    ExcellentFit.WEIGHTS_PATH
  = Some [ ("k1", Py.JNum 1.2); ("b", Py.JNum 0.75);
           ("anchor_per_match", Py.JNum 0.15); ("pathway_3", Py.JNum 2.0);
           ("high_signal_1", Py.JNum 1.5); ("high_signal_2", Py.JNum 3.0);
           ("pathway_1", Py.JNum 0.5); ("pathway_2", Py.JNum 1.0);
           ("procedure_per_match", Py.JNum 0.2); ("anchor_cap", Py.JNum 0.5);
           ("subspecialty_factor", Py.JNum 0.2); ("subspecialty_cap", Py.JNum 0.3);
           ("negative_1", Py.JNum (-2.0)); ("negative_2", Py.JNum (-3.5));
           ("negative_4", Py.JNum (-5.0)); ("safe_lane_1", Py.JNum 0.5);
           ("safe_lane_2", Py.JNum 1.0); ("safe_lane_3_or_more", Py.JNum 2.0) ]%string.
Proof. vm_compute. reflexivity. Qed.

End TrialRunnerFacts.

(* ================================================================== *)
(** * Properties of the drivers that tune the default weights file *)
(* ================================================================== *)

Ltac run_evaluator_frame :=
  intros;
  unfold Ranking.run_evaluator, Bm25.run_evaluator, FieldWeights.run_evaluator,
    Ranking.read_result, Bm25.read_result, FieldWeights.read_result,
    Sys.bind, Sys.subprocess_run;
  match goal with
  | |- context [Sys.node ?w ?i ?c ?f] => destruct (Sys.node w i c f)
  end;
  [match goal with |- context [negb ?b] => destruct (negb b) end|];
  reflexivity.

Section InPlaceFacts.

Import Sys.

Lemma ranking_run_files subset path w :
  files (snd (Ranking.run_evaluator subset path w)) = files w.
Proof. run_evaluator_frame. Qed.

Lemma bm25_run_trials subset path w :
  trials (snd (Bm25.run_evaluator subset path w)) = trials w.
Proof. run_evaluator_frame. Qed.

Lemma bm25_run_files subset path w :
  files (snd (Bm25.run_evaluator subset path w)) = files w.
Proof. run_evaluator_frame. Qed.

Lemma field_run_trials subset path w :
  trials (snd (FieldWeights.run_evaluator subset path w)) = trials w.
Proof. run_evaluator_frame. Qed.

Lemma field_run_files subset path w :
  files (snd (FieldWeights.run_evaluator subset path w)) = files w.
Proof. run_evaluator_frame. Qed.

Lemma bm25_prefix n w l :
  (forall t', In t' l -> number t' <> n) ->
  exists ps,
    Py.dict_keys ps = ["k1"; "b"]%string
    /\ Bm25.objective n (with_trials w (l ++ [Optuna.blank_trial n])) =
       (weights <- read_json Bm25.WEIGHTS_PATH ;;
        write_json Bm25.WEIGHTS_PATH
                   (Py.dict_update weights (Ranking.num_params ps)) ;;;
        Bm25.run_evaluator "train" Bm25.WEIGHTS_PATH)
         (with_trials w (l ++ [mkTrial n RUNNING None ps])).
Proof.
  intros Hl.
  assert (H : exists v1 v2,
             Bm25.objective n (with_trials w (l ++ [Optuna.blank_trial n])) =
             (weights <- read_json Bm25.WEIGHTS_PATH ;;
              write_json Bm25.WEIGHTS_PATH
                (Py.dict_update weights
                   [ ("k1", Py.JNum v1); ("b", Py.JNum v2) ]%string) ;;;
              Bm25.run_evaluator "train" Bm25.WEIGHTS_PATH)
               (with_trials w
                  (l ++ [mkTrial n RUNNING None [ ("k1", v1); ("b", v2) ]%string]))).
  { do 2 eexists. unfold Bm25.objective.
    do 2 suggest_step Hl.
    reflexivity. }
  destruct H as [v1 [v2 H]].
  eexists. split; [|exact H]. reflexivity.
Qed.

Lemma num_params_set ps k v :
  Ranking.num_params (Py.dict_set ps k v) =
  Py.dict_set (Ranking.num_params ps) k (Py.JNum v).
Proof.
  induction ps as [|[k0 v0] ps IH]; simpl; [reflexivity|].
  destruct (String.eqb k0 k); simpl; [reflexivity|now rewrite IH].
Qed.

(** The field weights are collected in step with the parameters of the trial. *)
Lemma sample_fields_lockstep ranges :
  forall n l t w,
    trials w = l ++ [t] -> number t = n ->
    (forall t', In t' l -> number t' <> n) ->
    exists ps',
      FieldWeights.sample_fields n ranges (Ranking.num_params (params t)) w =
        (Py.Ok (Ranking.num_params ps'),
         with_trials w (l ++ [mkTrial n (state t) (value t) ps']))
      /\ Py.dict_keys ps' =
         fold_left Props.add_key (Py.dict_keys ranges) (Py.dict_keys (params t)).
Proof.
  induction ranges as [|[key [low high]] ranges IH]; intros n l t w Hw Hn Hl.
  - exists (params t). subst n.
    replace (mkTrial (number t) (state t) (value t) (params t)) with t
      by now destruct t.
    rewrite <- Hw, with_trials_same. simpl. split; reflexivity.
  - simpl FieldWeights.sample_fields.
    pose proof (suggest_float_spec w l t n key low high Hw Hn Hl) as Hs.
    cbv zeta in Hs. rewrite (bind_ok _ _ _ _ _ Hs).
    set (v := Props.suggested w (params t) key low high) in *.
    rewrite <- num_params_set.
    destruct (IH n l (Optuna.set_param key v t)
                 (with_trials w (l ++ [Optuna.set_param key v t]))
                 eq_refl Hn Hl)
      as [ps' [Hrun Hkeys]].
    exists ps'. split; [exact Hrun|].
    rewrite Hkeys. simpl. rewrite dict_keys_set. reflexivity.
Qed.

Lemma field_prefix n w l :
  (forall t', In t' l -> number t' <> n) ->
  exists ps,
    Py.dict_keys ps = Py.dict_keys FieldWeights.FIELD_RANGES
    /\ FieldWeights.objective n (with_trials w (l ++ [Optuna.blank_trial n])) =
       (weights <- read_json FieldWeights.WEIGHTS_PATH ;;
        write_json FieldWeights.WEIGHTS_PATH
                   (Py.dict_update weights (Props.field_overlay ps)) ;;;
        FieldWeights.run_evaluator "train" FieldWeights.WEIGHTS_PATH)
         (with_trials w (l ++ [mkTrial n RUNNING None ps])).
Proof.
  intros Hl.
  destruct (sample_fields_lockstep FieldWeights.FIELD_RANGES n l
              (Optuna.blank_trial n)
              (with_trials w (l ++ [Optuna.blank_trial n])) eq_refl eq_refl Hl)
    as [ps [Hrun Hkeys]].
  exists ps. split; [exact Hkeys|].
  unfold FieldWeights.objective.
  change (@nil (string * Py.json)) with (Ranking.num_params (params (Optuna.blank_trial n))).
  rewrite (bind_ok _ _ _ _ _ Hrun). reflexivity.
Qed.

Lemma exists_true {A} path (k : bool -> M A) w :
  Py.dict_get (files w) path <> None ->
  Sys.bind (exists_ path) k w = k true w.
Proof.
  intros H. unfold Sys.bind, exists_.
  destruct (Py.dict_get (files w) path); [reflexivity|contradiction].
Qed.

Lemma bind_ret {A B} (a : A) (k : A -> M B) w : Sys.bind (ret a) k w = k a w.
Proof. reflexivity. Qed.

Lemma file_at_get w path d :
  Props.file_at w path = Some d -> Py.dict_get (files w) path = Some (JsonFile d).
Proof.
  unfold Props.file_at.
  destruct (Py.dict_get (files w) path) as [[d'|]|]; try discriminate.
  now intros [= ->].
Qed.

Lemma best_params_eq w best :
  Optuna.best_trial_of (trials w) = Py.Ok best ->
  Optuna.best_params w = (Py.Ok (params best), w).
Proof.
  intros H. unfold Optuna.best_params, Sys.bind, Optuna.best_trial.
  rewrite H. reflexivity.
Qed.

Lemma file_at_present w path d :
  Props.file_at w path = Some d -> Py.dict_get (files w) path <> None.
Proof. intros H. rewrite (file_at_get _ _ _ H). discriminate. Qed.

Lemma read_json_file_at w path d :
  Props.file_at w path = Some d -> read_json path w = (Py.Ok d, w).
Proof. intros H. unfold read_json. now rewrite (file_at_get _ _ _ H). Qed.

Ltac main_prefix Hold Hsplit Hcache Hopt Hbest Hold1 :=
  rewrite (exists_true _ _ _ (file_at_present _ _ _ Hold));
  simpl negb; cbv iota; rewrite bind_ret;
  rewrite (exists_true _ _ _ Hsplit);
  simpl negb; cbv iota; rewrite bind_ret;
  rewrite (exists_true _ _ _ Hcache);
  simpl negb; cbv iota; rewrite bind_ret;
  rewrite (bind_ok (Optuna.create_study false) _ _ tt _ eq_refl);
  rewrite (bind_ok _ _ _ _ _ Hopt);
  rewrite (bind_ok _ _ _ _ _ (best_params_eq _ _ Hbest));
  rewrite (bind_ok _ _ _ _ _ (read_json_file_at _ _ _ Hold1)).

Ltac main_suffix run_trials_lemma run_files_lemma :=
  rewrite (bind_ok (write_json _ _) _ _ tt _ eq_refl);
  rewrite (bind_ok (write_json _ _) _ _ tt _ eq_refl);
  unfold Sys.bind;
  match goal with
  | |- context [let (_, _) := ?run ?sub ?path ?W in _] =>
      let Ht := fresh "Ht" in
      let Hf := fresh "Hf" in
      pose proof (run_trials_lemma sub path W) as Ht;
      pose proof (run_files_lemma sub path W) as Hf;
      destruct (run sub path W) as [[v|e] W'];
      [unfold lift; destruct (Py.finite v)|];
      simpl in Ht, Hf; simpl snd;
      unfold Props.file_at; simpl files; rewrite ?Hf;
      rewrite ?dict_get_set; simpl String.eqb; cbv iota;
      rewrite ?dict_get_set, ?String.eqb_refl;
      (split; [exact Ht|reflexivity])
  end.

Lemma ranking_main n w old w1 best old1 :
  Props.file_at w Ranking.WEIGHTS_PATH = Some old ->
  Py.dict_get (files w) Ranking.SPLIT_PATH <> None ->
  Py.dict_get (files w) Ranking.CACHE_PATH <> None ->
  Optuna.optimize Ranking.objective n false (with_trials w []) = (Py.Ok tt, w1) ->
  Optuna.best_trial_of (trials w1) = Py.Ok best ->
  Props.file_at w1 Ranking.WEIGHTS_PATH = Some old1 ->
  trials (snd (Ranking.main n w)) = trials w1
  /\ Props.file_at (snd (Ranking.main n w)) Ranking.WEIGHTS_PATH
     = Some (Py.dict_update old1 (Ranking.num_params (params best))).
Proof.
  intros Hold Hsplit Hcache Hopt Hbest Hold1.
  unfold Ranking.main.
  main_prefix Hold Hsplit Hcache Hopt Hbest Hold1.
  main_suffix ranking_run_trials ranking_run_files.
Qed.

Lemma bm25_main n w old w1 best old1 :
  Props.file_at w Bm25.WEIGHTS_PATH = Some old ->
  Py.dict_get (files w) Bm25.SPLIT_PATH <> None ->
  Py.dict_get (files w) Bm25.CACHE_PATH <> None ->
  Optuna.optimize Bm25.objective n false (with_trials w []) = (Py.Ok tt, w1) ->
  Optuna.best_trial_of (trials w1) = Py.Ok best ->
  Props.file_at w1 Bm25.WEIGHTS_PATH = Some old1 ->
  trials (snd (Bm25.main n w)) = trials w1
  /\ Props.file_at (snd (Bm25.main n w)) Bm25.WEIGHTS_PATH
     = Some (Py.dict_update old1 (Ranking.num_params (params best))).
Proof.
  intros Hold Hsplit Hcache Hopt Hbest Hold1.
  unfold Bm25.main.
  main_prefix Hold Hsplit Hcache Hopt Hbest Hold1.
  main_suffix bm25_run_trials bm25_run_files.
Qed.

Lemma field_main n w old w1 best old1 :
  Props.file_at w FieldWeights.WEIGHTS_PATH = Some old ->
  Py.dict_get (files w) FieldWeights.SPLIT_PATH <> None ->
  Py.dict_get (files w) FieldWeights.CACHE_PATH <> None ->
  Optuna.optimize FieldWeights.objective n false (with_trials w []) = (Py.Ok tt, w1) ->
  Optuna.best_trial_of (trials w1) = Py.Ok best ->
  Props.file_at w1 FieldWeights.WEIGHTS_PATH = Some old1 ->
  trials (snd (FieldWeights.main n w)) = trials w1
  /\ Props.file_at (snd (FieldWeights.main n w)) FieldWeights.WEIGHTS_PATH
     = Some (Py.dict_update old1 (Props.field_overlay (params best))).
Proof.
  intros Hold Hsplit Hcache Hopt Hbest Hold1.
  unfold FieldWeights.main.
  main_prefix Hold Hsplit Hcache Hopt Hbest Hold1.
  main_suffix field_run_trials field_run_files.
Qed.

Lemma file_at_reset w path : Props.file_at (with_trials w []) path = Props.file_at w path.
Proof. reflexivity. Qed.

(** C9: optimize_ranking, optimize_bm25_params and optimize_field_weights
    tune keys of the default weights file in place.  Every trial reads the
    file, lays its sampled values over what it read and writes the file back,
    so the content a trial reads is the content the trial before wrote; when
    the study has finished, [main] overwrites the file once more with the
    best parameters laid over what the last trial left; a tuned key always
    takes the overlaid value, so the values the file had at the start are
    not kept and not put back. *)
Theorem C9_default_file_tuned_in_place :
  Props.tunes_in_place Ranking.objective Ranking.main
    Ranking.WEIGHTS_PATH Ranking.SPLIT_PATH Ranking.CACHE_PATH
    Ranking.num_params
    ["anchor_per_match"; "anchor_cap"; "subspecialty_cap"; "high_signal_2";
     "pathway_3"]%string
  /\ Props.tunes_in_place Bm25.objective Bm25.main
    Bm25.WEIGHTS_PATH Bm25.SPLIT_PATH Bm25.CACHE_PATH
    Ranking.num_params ["k1"; "b"]%string
  /\ Props.tunes_in_place FieldWeights.objective FieldWeights.main
    FieldWeights.WEIGHTS_PATH FieldWeights.SPLIT_PATH FieldWeights.CACHE_PATH
    Props.field_overlay (Py.dict_keys FieldWeights.FIELD_RANGES).
Proof.
  assert (HR : forall timed budget i w old,
             Props.well_numbered (trials w) ->
             Props.file_at w Ranking.WEIGHTS_PATH = Some old -> _)
    by (intros timed; exact (shared_loop Ranking.objective Ranking.WEIGHTS_PATH
          (Ranking.run_evaluator "train" Ranking.WEIGHTS_PATH) Ranking.num_params _
          (fun n w l Hl => ranking_prefix n w l Hl)
          (ranking_run_trials _ _) (ranking_run_files _ _) timed)).
  assert (HB : forall timed budget i w old,
             Props.well_numbered (trials w) ->
             Props.file_at w Bm25.WEIGHTS_PATH = Some old -> _)
    by (intros timed; exact (shared_loop Bm25.objective Bm25.WEIGHTS_PATH
          (Bm25.run_evaluator "train" Bm25.WEIGHTS_PATH) Ranking.num_params _
          (fun n w l Hl => bm25_prefix n w l Hl)
          (bm25_run_trials _ _) (bm25_run_files _ _) timed)).
  assert (HF : forall timed budget i w old,
             Props.well_numbered (trials w) ->
             Props.file_at w FieldWeights.WEIGHTS_PATH = Some old -> _)
    by (intros timed; exact (shared_loop FieldWeights.objective
          FieldWeights.WEIGHTS_PATH
          (FieldWeights.run_evaluator "train" FieldWeights.WEIGHTS_PATH)
          Props.field_overlay _
          (fun n w l Hl => field_prefix n w l Hl)
          (field_run_trials _ _) (field_run_files _ _) timed)).
  split; [|split]; (split; [|split]).
  - intros w old timed budget i. apply HR.
  - intros n w old w1 best Hold Hs Hc Hopt Hbest.
    destruct (HR false n 0 (with_trials w []) old eq_refl Hold)
      as [added [Ha [_ Hf]]].
    unfold Optuna.optimize in Hopt. rewrite Hopt in Ha, Hf. simpl in Ha, Hf.
    subst added.
    exact (ranking_main n w old w1 best _ Hold Hs Hc Hopt Hbest Hf).
  - intros d ps key. apply dict_update_overrides.
  - intros w old timed budget i. apply HB.
  - intros n w old w1 best Hold Hs Hc Hopt Hbest.
    destruct (HB false n 0 (with_trials w []) old eq_refl Hold)
      as [added [Ha [_ Hf]]].
    unfold Optuna.optimize in Hopt. rewrite Hopt in Ha, Hf. simpl in Ha, Hf.
    subst added.
    exact (bm25_main n w old w1 best _ Hold Hs Hc Hopt Hbest Hf).
  - intros d ps key. apply dict_update_overrides.
  - intros w old timed budget i. apply HF.
  - intros n w old w1 best Hold Hs Hc Hopt Hbest.
    destruct (HF false n 0 (with_trials w []) old eq_refl Hold)
      as [added [Ha [_ Hf]]].
    unfold Optuna.optimize in Hopt. rewrite Hopt in Ha, Hf. simpl in Ha, Hf.
    subst added.
    exact (field_main n w old w1 best _ Hold Hs Hc Hopt Hbest Hf).
  - intros d ps key. apply dict_update_overrides.
Qed.

Lemma C9_witness :
  exists added,
    trials (snd (Optuna.optimize_from Ranking.objective false 2 0
                   (Props.demo_world (Some Props.plain_success))))
      = trials (Props.demo_world (Some Props.plain_success)) ++ added
    /\ Forall (fun t => Py.dict_keys (params t) =
                        ["anchor_per_match"; "anchor_cap"; "subspecialty_cap";
                         "high_signal_2"; "pathway_3"]%string) added
    /\ Props.file_at
         (snd (Optuna.optimize_from Ranking.objective false 2 0
                 (Props.demo_world (Some Props.plain_success))))
         Ranking.WEIGHTS_PATH
       = Some (Props.layered Ranking.num_params added Props.demo_base).
Proof.
  apply (proj1 (proj1 C9_default_file_tuned_in_place)); reflexivity.
Defined.

(** A run of optimize_ranking on the demo files: the default file starts
    with [anchor_per_match] 0.2 and [pathway_3] 3.0 and ends with the sampled
    values 0.1 and 2.0, while the untouched key [k1] keeps 1.2. *)
Example ranking_main_overwrites_defaults :
  fst (Ranking.main 2 (Props.demo_world (Some Props.plain_success))) = Py.Ok tt
  /\ Props.file_at (Props.demo_world (Some Props.plain_success))
                   Ranking.WEIGHTS_PATH
     = Some Props.demo_base
  /\ Props.file_at (snd (Ranking.main 2 (Props.demo_world (Some Props.plain_success))))
                   Ranking.WEIGHTS_PATH
     = Some [ ("k1", Py.JNum 1.2); ("b", Py.JNum 0.75);
              ("anchor_per_match", Py.JNum 0.1); ("pathway_3", Py.JNum 2.0);
              ("anchor_cap", Py.JNum 0.4); ("subspecialty_cap", Py.JNum 0.3);
              ("high_signal_2", Py.JNum 2.0) ]%string.
Proof. repeat split; vm_compute; reflexivity. Qed.

End InPlaceFacts.

(* ================================================================== *)
(** * Properties of the end of the excellent-fit study *)
(* ================================================================== *)

Section StudyEndFacts.

Import Sys.

(** C3: the end of a study without COMPLETE trial in
    optimize_excellent_fit_top3.  When the prerequisites are there and the
    loop has ended normally on a study without COMPLETE trial, [main] is left
    by the [ValueError] of [study.best_trial]: the test [is None] that guards
    the message "No completed trials ..." and [sys.exit(1)] is not reached,
    nothing is printed, and the exception is not caught. *)
Theorem C3_no_complete_trial_raises
  (cfg : ExcellentFit.Config) (w w1 : World) :
  Py.dict_get (files w) ExcellentFit.BASE_WEIGHTS <> None ->
  Py.dict_get (files w) ExcellentFit.BENCHMARK_CACHE <> None ->
  Py.dict_get (files w) ExcellentFit.EVALUATOR_JS <> None ->
  Optuna.optimize (ExcellentFit.objective cfg) (ExcellentFit.N_TRIALS cfg)
    (match ExcellentFit.STUDY_TIMEOUT cfg with Some _ => true | None => false end)
    (snd (Optuna.create_study (ExcellentFit.OPTUNA_RESUME cfg) w))
  = (Py.Ok tt, w1) ->
  Optuna.completed (trials w1) = [] ->
  ExcellentFit.main cfg w
  = (Py.Raise (Py.ValueError "No trials are completed yet."), w1).
Proof.
  intros Hbase Hcache Hjs Hopt Hnone.
  unfold ExcellentFit.main.
  rewrite (exists_true _ _ _ Hbase). simpl negb. cbv iota. rewrite bind_ret.
  rewrite (exists_true _ _ _ Hcache). simpl negb. cbv iota. rewrite bind_ret.
  rewrite (exists_true _ _ _ Hjs). simpl negb. cbv iota. rewrite bind_ret.
  rewrite (bind_ok (Optuna.create_study _) _ _ tt _ eq_refl).
  rewrite (bind_ok _ _ _ _ _ Hopt).
  unfold Sys.bind, Optuna.best_trial, Optuna.best_trial_of.
  rewrite Hnone. reflexivity.
Qed.

Lemma C3_witness :
  fst (ExcellentFit.main Props.demo_config (Props.demo_world None))
  = Py.Raise (Py.ValueError "No trials are completed yet.")
  /\ map state (trials (snd (ExcellentFit.main Props.demo_config
                               (Props.demo_world None))))
     = [PRUNED; PRUNED; PRUNED].
Proof.
  assert (H : Optuna.optimize (ExcellentFit.objective Props.demo_config) 3 false
                (snd (Optuna.create_study false (Props.demo_world None)))
              = (Py.Ok tt,
                 snd (Optuna.optimize (ExcellentFit.objective Props.demo_config)
                        3 false
                        (snd (Optuna.create_study false (Props.demo_world None))))))
    by (vm_compute; reflexivity).
  rewrite (C3_no_complete_trial_raises Props.demo_config (Props.demo_world None) _
             ltac:(discriminate) ltac:(discriminate) ltac:(discriminate) H
             ltac:(vm_compute; reflexivity)).
  split; [reflexivity|]. vm_compute. reflexivity.
Defined.

End StudyEndFacts.

(* ================================================================== *)
(** * Facts about the stable sort *)
(* ================================================================== *)

Section SortFacts.

Context {A : Type}.
Variable before : A -> A -> bool.
Variable R : A -> A -> Prop.

Hypothesis before_true : forall x y, before x y = true -> R x y.
Hypothesis before_false : forall x y, before x y = false -> R y x.
Hypothesis R_trans : forall x y z, R x y -> R y z -> R x z.

Lemma insert_by_perm x l : Permutation (Py.insert_by before x l) (x :: l).
Proof.
  induction l as [|y l IH]; simpl; [reflexivity|].
  destruct (before x y); [reflexivity|].
  rewrite IH. apply perm_swap.
Qed.

Lemma sort_by_perm l : Permutation (Py.sort_by before l) l.
Proof.
  induction l as [|x l IH]; simpl; [reflexivity|].
  rewrite insert_by_perm. now constructor.
Qed.

Lemma insert_by_sorted x l :
  StronglySorted R l -> StronglySorted R (Py.insert_by before x l).
Proof.
  induction l as [|y l IH]; intros Hs; simpl.
  - repeat constructor.
  - inversion Hs as [|y' l' Hl Hy]; subst.
    destruct (before x y) eqn:E.
    + constructor; [exact Hs|]. constructor; [now apply before_true|].
      apply Forall_forall. intros z Hz.
      apply (R_trans x y z); [now apply before_true|].
      rewrite Forall_forall in Hy. now apply Hy.
    + constructor; [now apply IH|].
      apply Forall_forall. intros z Hz.
      apply (Permutation_in _ (insert_by_perm x l)) in Hz.
      destruct Hz as [<-|Hz]; [now apply before_false|].
      rewrite Forall_forall in Hy. now apply Hy.
Qed.

Lemma sort_by_sorted l : StronglySorted R (Py.sort_by before l).
Proof.
  induction l as [|x l IH]; simpl; [constructor|].
  now apply insert_by_sorted.
Qed.

Lemma sort_by_length l : List.length (Py.sort_by before l) = List.length l.
Proof. apply Permutation_length, sort_by_perm. Qed.


End SortFacts.

Section OrderFacts.

Lemma Qle_bool_true x y : Qle_bool x y = true -> (x <= y)%Q.
Proof. apply Qle_bool_iff. Qed.

Lemma Qle_bool_false x y : Qle_bool x y = false -> (y <= x)%Q.
Proof.
  intros H. apply Qlt_le_weak, Qnot_le_lt. intros Hle.
  apply Qle_bool_iff in Hle. congruence.
Qed.

Lemma sorted_perm l : Permutation (Py.sorted l) l.
Proof. apply sort_by_perm. Qed.

Lemma sorted_ascending l : StronglySorted Qle (Py.sorted l).
Proof.
  apply (sort_by_sorted Qle_bool Qle Qle_bool_true Qle_bool_false Qle_trans).
Qed.

Lemma sorted_desc_perm {A} (key : A -> Q) l : Permutation (Py.sorted_desc key l) l.
Proof. apply sort_by_perm. Qed.


End OrderFacts.

(* ================================================================== *)
(** * Properties of analyze_optuna_results.py *)
(* ================================================================== *)

Section AnalyzeFacts.

Import Sys.

(** C10: the analyzer needs a COMPLETE trial.  On a study without one the
    analysis is not built: the first read of the best trial raises
    [ValueError], so neither the analysis nor the report is produced; the
    value list is empty, and the minimum and the mean of the value
    distribution raise on it as well. *)
Theorem C10_analysis_requires_complete_trial
  (stdev : list Q -> Q) (study : list FrozenTrial) (f : Analyze.BaselineFile) :
  Optuna.completed study = [] ->
  Analyze.analyse stdev study f
    = Py.Raise (Py.ValueError "No trials are completed yet.")
  /\ Analyze.run stdev study f
    = Py.Raise (Py.ValueError "No trials are completed yet.")
  /\ map Analyze.t_value (Analyze.trials_data study) = []
  /\ Analyze.build_distribution stdev (map Analyze.t_value (Analyze.trials_data study))
    = Py.Raise (Py.ValueError "min() iterable argument is empty")
  /\ Py.mean (map Analyze.t_value (Analyze.trials_data study))
    = Py.Raise (Py.StatisticsError "mean requires at least one data point").
Proof.
  intros H.
  assert (Ha : Analyze.analyse stdev study f
               = Py.Raise (Py.ValueError "No trials are completed yet.")).
  { unfold Analyze.analyse, Analyze.build_summary, Optuna.best_trial_of.
    rewrite H. reflexivity. }
  assert (Hv : map Analyze.t_value (Analyze.trials_data study) = []).
  { unfold Analyze.trials_data. rewrite H. reflexivity. }
  split; [exact Ha|]. split.
  - unfold Analyze.run. rewrite Ha. reflexivity.
  - rewrite Hv. repeat split; reflexivity.
Qed.

Lemma C10_witness :
  Analyze.run (fun _ => 0%Q)
              [mkTrial 0 PRUNED None []; mkTrial 1 FAIL None []]
              Analyze.NoBaselineFile
  = Py.Raise (Py.ValueError "No trials are completed yet.").
Proof.
  apply (C10_analysis_requires_complete_trial
           (fun _ => 0%Q) [mkTrial 0 PRUNED None []; mkTrial 1 FAIL None []]
           Analyze.NoBaselineFile).
  reflexivity.
Defined.

Lemma Ok_inj {X} (x y : X) : Py.Ok x = Py.Ok y -> x = y.
Proof. now intros [= ->]. Qed.

Lemma rbind_ok_inv {X Y} (r : Py.result X) (k : X -> Py.result Y) y :
  Py.rbind r k = Py.Ok y -> exists x, r = Py.Ok x /\ k x = Py.Ok y.
Proof. destruct r as [x|e]; simpl; [now exists x|discriminate]. Qed.

Lemma rmap_length {X Y} (f : X -> Py.result Y) l : forall l',
  Py.rmap f l = Py.Ok l' -> List.length l' = List.length l.
Proof.
  induction l as [|x l IH]; simpl; intros l' H.
  - now injection H as <-.
  - apply rbind_ok_inv in H. destruct H as [y [_ H]].
    apply rbind_ok_inv in H. destruct H as [ys [Hys H]].
    injection H as <-. simpl. f_equal. now apply IH.
Qed.



Lemma trials_data_length study :
  List.length (Analyze.trials_data study) = List.length (Optuna.completed study).
Proof.
  unfold Analyze.trials_data, Py.sorted_desc.
  rewrite sort_by_length. apply length_map.
Qed.












(** C4: the quartiles of the value distribution.  For a non-empty list of
    values the distribution is built, and its q25 and q75 are the elements at
    the indices n/4 and 3n/4 (integer division) of the values sorted
    ascending, a permutation of the values in non-decreasing order; both
    indices lie within the list and no value is interpolated. *)
Theorem C4_quartiles_floor_index (stdev : list Q -> Q) (values : list Q) :
  values <> [] ->
  let n := List.length values in
  exists d sorted_values,
    Analyze.build_distribution stdev values = Py.Ok d
    /\ sorted_values = Py.sorted values
    /\ Permutation sorted_values values
    /\ StronglySorted Qle sorted_values
    /\ n / 4 < n /\ 3 * n / 4 < n
    /\ Analyze.q25 d = Some (nth (n / 4) sorted_values 0%Q)
    /\ Analyze.q75 d = Some (nth (3 * n / 4) sorted_values 0%Q).
Proof.
  intros Hne n.
  destruct values as [|v values]; [contradiction|].
  assert (Hn : 0 < n) by (unfold n; simpl; lia).
  unfold Analyze.build_distribution. fold n.
  simpl Py.py_min. simpl Py.py_max. cbv zeta.
  unfold Py.mean, Py.median. fold n.
  destruct n as [|m] eqn:En; [lia|].
  assert (Hpos : (0 <? S m) = true) by reflexivity.
  rewrite Hpos.
  destruct (Nat.odd (S m)); simpl Py.rbind;
    (eexists; exists (Py.sorted (v :: values));
     split; [reflexivity|]; split; [reflexivity|];
     split; [apply sorted_perm|]; split; [apply sorted_ascending|];
     split; [apply Nat.Div0.div_lt_upper_bound; lia|];
     split; [apply Nat.Div0.div_lt_upper_bound; lia|];
     split; reflexivity).
Qed.

Lemma C4_witness :
  exists d,
    Analyze.build_distribution Props.no_stdev [1; 2; 3; 4; 5; 6; 7; 8]%Q = Py.Ok d
    /\ Analyze.q25 d = Some 3%Q
    /\ Analyze.q75 d = Some 7%Q.
Proof.
  destruct (C4_quartiles_floor_index Props.no_stdev [1; 2; 3; 4; 5; 6; 7; 8]%Q)
    as [d [sv [Hd [Hsv [_ [_ [_ [_ [H25 H75]]]]]]]]].
  - discriminate.
  - exists d. subst sv. split; [exact Hd|].
    split; [rewrite H25|rewrite H75]; reflexivity.
Defined.

(** The quartiles do not depend on the order the values come in. *)
Example quartiles_of_shuffled_values :
  exists d,
    Analyze.build_distribution Props.no_stdev [5; 3; 8; 1; 7; 2; 6; 4]%Q = Py.Ok d
    /\ Analyze.q25 d = Some 3%Q /\ Analyze.q75 d = Some 7%Q
    /\ Analyze.d_median d = (9 # 2)%Q.
Proof. eexists. repeat split. Qed.

Lemma improvement_spec (best b : Q) :
  Analyze.improvement best (Py.JNum b) =
  Py.Ok (if Qeq_bool best 0 || Qeq_bool b 0 then None else Some (best - b)%Q).
Proof.
  unfold Analyze.improvement, Py.json_truthy, Py.float_truthy. simpl.
  destruct (Qeq_bool best 0), (Qeq_bool b 0); reflexivity.
Qed.

(** C5: the improvement over the baseline on a study whose best completed
    value is 0.0.  Both the best value and the baseline (the fallback 65.0)
    are present, and the analysis reports no improvement where best minus
    baseline is -65.0: the test of line 59 takes the value 0.0 for an absent
    one.  The report has the baseline line and no improvement line. *)
Theorem C5_zero_best_value_reports_no_improvement :
  exists a rep,
    Analyze.run Props.no_stdev Props.zero_study Analyze.NoBaselineFile
      = Py.Ok (a, rep)
    /\ Analyze.best_value (Analyze.summary a) = Some 0.0%Q
    /\ Analyze.summary_baseline (Analyze.summary a) = Py.JNum 65.0
    /\ Analyze.improvement_over_baseline (Analyze.summary a) = None
    /\ In (Analyze.Text ("- **Baseline Value:** 65.00%" ++ Py.nl)) rep
    /\ forall s, In (Analyze.Text s) rep ->
                 Py.startswith "- **Improvement:**" s = false.
Proof.
  eexists. eexists. split; [vm_compute; reflexivity|].
  repeat split.
  - simpl. tauto.
  - intros s Hin. simpl in Hin.
    repeat (destruct Hin as [Hin|Hin];
            [try discriminate Hin; injection Hin as <-; reflexivity|]).
    contradiction.
Qed.

(** On the values of the specification, baseline 65.0 and best value 72.3,
    the improvement is 7.3 and the report prints it with its sign. *)
Example improvement_of_the_specification :
  exists a rep,
    Analyze.run Props.no_stdev Props.good_study Analyze.NoBaselineFile
      = Py.Ok (a, rep)
    /\ Analyze.improvement_over_baseline (Analyze.summary a)
       = Some (72.3 - 65.0)%Q
    /\ (72.3 - 65.0 == 7.3)%Q
    /\ In (Analyze.Text ("- **Improvement:** +7.30 percentage points" ++ Py.nl)) rep.
Proof.
  eexists. eexists. split; [vm_compute; reflexivity|].
  split; [reflexivity|]. split; [reflexivity|]. simpl. tauto.
Qed.





(** The rows of the section for the twenty trials: the parameter with the
    larger absolute difference comes first, whatever its sign, and the
    parameter without difference last. *)
Example section_of_twenty_trials :
  exists a rep,
    Analyze.run Props.no_stdev Props.twenty_study Analyze.NoBaselineFile
      = Py.Ok (a, rep)
    /\ map (fun kv => (fst kv, Py.format_f true 3 (Analyze.difference (snd kv))))
           (Analyze.correlation_rows (Analyze.correlation_analysis a))
       = [ ("procedure_per_match", "+1.000"); ("anchor_per_match", "-0.500");
           ("subspecialty_factor", "+0.000") ]%string
    /\ In Analyze.CORRELATION_HEADING rep.
Proof.
  eexists. eexists. split; [vm_compute; reflexivity|].
  split; [vm_compute; reflexivity|]. vm_compute. tauto.
Qed.

End AnalyzeFacts.

(* ================================================================== *)
(** * Further properties: what the drivers leave untouched *)
(* ================================================================== *)

Create HintDb frame discriminated.

Section FrameFacts.

Import Sys.

Lemma keeps_ret p {A} (a : A) : Props.keeps p (ret a).
Proof. intros w. reflexivity. Qed.

Lemma keeps_raise p {A} e : Props.keeps p (@raise A e).
Proof. intros w. reflexivity. Qed.

Lemma keeps_sys_exit p {A} code : Props.keeps p (@sys_exit A code).
Proof. intros w. reflexivity. Qed.

Lemma keeps_lift p {A} (r : Py.result A) : Props.keeps p (lift r).
Proof. intros w. reflexivity. Qed.

Lemma keeps_eprint p msg : Props.keeps p (eprint msg).
Proof. intros w. reflexivity. Qed.

Lemma keeps_exists p q : Props.keeps p (exists_ q).
Proof. intros w. reflexivity. Qed.

Lemma keeps_read_json p q : Props.keeps p (read_json q).
Proof.
  intros w. unfold read_json.
  destruct (Py.dict_get (files w) q) as [[d|]|]; reflexivity.
Qed.

Lemma keeps_write_json p q d : q <> p -> Props.keeps p (write_json q d).
Proof.
  intros H w. unfold write_json. simpl. rewrite dict_get_set.
  apply String.eqb_neq in H. now rewrite H.
Qed.

Lemma keeps_subprocess p cmd : Props.keeps p (subprocess_run cmd).
Proof.
  intros w. unfold subprocess_run.
  destruct (node w (spawned w) cmd (files w)); reflexivity.
Qed.

Lemma keeps_bind p {A B} (c : M A) (k : A -> M B) :
  Props.keeps p c -> (forall a, Props.keeps p (k a)) -> Props.keeps p (Sys.bind c k).
Proof.
  intros Hc Hk w. unfold Sys.bind. specialize (Hc w).
  destruct (c w) as [[a|e] w']; simpl in Hc.
  - rewrite (Hk a w'). exact Hc.
  - exact Hc.
Qed.

Lemma keeps_attempt p {A} (c : M A) : Props.keeps p c -> Props.keeps p (attempt c).
Proof.
  intros Hc w. unfold attempt. specialize (Hc w).
  destruct (c w) as [r w']. exact Hc.
Qed.

Lemma keeps_ask p : Props.keeps p Optuna.ask.
Proof. intros w. reflexivity. Qed.

Lemma keeps_suggest p n name low high :
  Props.keeps p (Optuna.suggest_float n name low high).
Proof.
  intros w. unfold Optuna.suggest_float.
  destruct (match Optuna.find_trial n (trials w) with
            | Some t => Py.dict_get (params t) name
            | None => None
            end); reflexivity.
Qed.

Lemma keeps_tell p n s v : Props.keeps p (Optuna.tell n s v).
Proof. intros w. reflexivity. Qed.

Lemma keeps_create_study p b : Props.keeps p (Optuna.create_study b).
Proof. intros w. unfold Optuna.create_study. now destruct b. Qed.

Lemma keeps_best_trial p : Props.keeps p Optuna.best_trial.
Proof. intros w. reflexivity. Qed.

End FrameFacts.

#[local] Hint Resolve keeps_ret keeps_raise keeps_sys_exit keeps_lift keeps_eprint keeps_exists
  keeps_read_json keeps_subprocess keeps_ask keeps_suggest keeps_tell
  keeps_create_study keeps_best_trial : frame.

Ltac frame :=
  repeat first
    [ apply keeps_bind; [|intros ?]
    | apply keeps_attempt
    | apply keeps_write_json; congruence
    | solve [auto with frame]
    | match goal with
      | |- Props.keeps _ (if ?b then _ else _) => destruct b
      | |- Props.keeps _ (match ?r with _ => _ end) => destruct r
      | |- Props.keeps _ (let (_, _) := ?r in _) => destruct r
      end ].

Section FrameOfDrivers.

Import Sys.

Lemma keeps_run_trial p objective :
  (forall n, Props.keeps p (objective n)) ->
  Props.keeps p (Optuna.run_trial objective).
Proof. intros H. unfold Optuna.run_trial. frame. Qed.

Lemma keeps_optimize_from p objective timed :
  (forall n, Props.keeps p (objective n)) ->
  forall budget i, Props.keeps p (Optuna.optimize_from objective timed budget i).
Proof.
  intros H. induction budget as [|budget IH]; intros i w; [reflexivity|].
  simpl. destruct (timed && deadline_passed w i); [reflexivity|].
  apply (keeps_bind p (Optuna.run_trial objective)
           (fun _ => Optuna.optimize_from objective timed budget (S i))).
  - now apply keeps_run_trial.
  - intros _. apply IH.
Qed.


Lemma keeps_best_params p : Props.keeps p Optuna.best_params.
Proof. unfold Optuna.best_params. frame. Qed.

Lemma keeps_excellent_sample p trial ranges :
  forall cur, Props.keeps p (ExcellentFit.sample_into trial ranges cur).
Proof.
  induction ranges as [|[key [low high]] ranges IH]; intros cur; simpl.
  - frame.
  - apply keeps_bind; [frame|]. intros v. apply IH.
Qed.

Lemma keeps_excellent_evaluator p cfg path :
  Props.keeps p (ExcellentFit.run_evaluator cfg path).
Proof. unfold ExcellentFit.run_evaluator, ExcellentFit.read_result. frame. Qed.

Lemma keeps_excellent_objective p cfg n :
  p <> ExcellentFit.WEIGHTS_PATH ->
  Props.keeps p (ExcellentFit.objective cfg n).
Proof.
  intros H. unfold ExcellentFit.objective.
  apply keeps_bind; [frame|]. intros base.
  apply keeps_bind; [apply keeps_excellent_sample|]. intros params.
  apply keeps_bind; [frame|]. intros _.
  apply keeps_excellent_evaluator.
Qed.

End FrameOfDrivers.

#[local] Hint Resolve keeps_best_params keeps_excellent_evaluator
  keeps_excellent_sample : frame.

Section FrameOfMains.

Import Sys.



Lemma keeps_description_evaluator p path :
  Props.keeps p (Description.run_stage_a_recall path).
Proof.
  unfold Description.run_stage_a_recall, Description.read_result. frame.
Qed.




End FrameOfMains.

(* ================================================================== *)
(** * Further properties: the checks before a study *)
(* ================================================================== *)

Lemma exists_false {A} path (k : bool -> Sys.M A) w :
  Py.dict_get (Sys.files w) path = None ->
  Sys.bind (Sys.exists_ path) k w = k false w.
Proof. intros H. unfold Sys.bind, Sys.exists_. now rewrite H. Qed.

Ltac check_step :=
  match goal with
  | |- context [Sys.bind (Sys.exists_ ?p) _ ?w] =>
      let E := fresh "E" in
      let Hne := fresh "Hne" in
      destruct (Py.dict_get (Sys.files w) p) eqn:E;
      [ assert (Hne : Py.dict_get (Sys.files w) p <> None)
          by (rewrite E; discriminate);
        rewrite (exists_true _ _ _ Hne); simpl negb; cbv iota; rewrite bind_ret;
        clear Hne
      | rewrite (exists_false _ _ _ E); eexists; reflexivity ]
  end.

Ltac all_present H :=
  exfalso; unfold Props.missing in H;
  repeat (destruct H as [H|H]; [congruence|]); congruence.

Section FailFastFacts.

Import Sys.

(** X2: every driver checks its prerequisites before it creates a study.
    When one of the files [main] looks for is absent, [main] ends by
    [sys.exit(1)] after one message on the standard error: no trial is
    created, no evaluator is started and no file is written. *)
Theorem drivers_fail_fast (w : World) :
  (forall cfg,
      Props.missing w ExcellentFit.BASE_WEIGHTS
      \/ Props.missing w ExcellentFit.BENCHMARK_CACHE
      \/ Props.missing w ExcellentFit.EVALUATOR_JS ->
      exists msg, ExcellentFit.main cfg w
                  = (Py.Raise (Py.SystemExit 1), Props.complained w msg))
  /\ (forall metric n,
      Props.missing w Stage2.BASE_WEIGHTS \/ Props.missing w Stage2.CACHE_V2
      \/ Props.missing w Stage2.SPLIT_FILE
      \/ Props.missing w Stage2.EVALUATOR_CHECKED ->
      exists msg, Stage2.main metric n w
                  = (Py.Raise (Py.SystemExit 1), Props.complained w msg))
  /\ (forall n,
      Props.missing w Description.BASE_WEIGHTS
      \/ Props.missing w Description.CACHE_V2
      \/ Props.missing w Description.EVALUATOR_JS ->
      exists msg, Description.main n w
                  = (Py.Raise (Py.SystemExit 1), Props.complained w msg))
  /\ (forall tune n,
      Props.missing w StageA.CACHE_V2 \/ Props.missing w StageA.EVALUATOR_JS ->
      exists msg, StageA.main tune n w
                  = (Py.Raise (Py.SystemExit 1), Props.complained w msg))
  /\ (forall n,
      Props.missing w Ranking.WEIGHTS_PATH \/ Props.missing w Ranking.SPLIT_PATH
      \/ Props.missing w Ranking.CACHE_PATH ->
      exists msg, Ranking.main n w
                  = (Py.Raise (Py.SystemExit 1), Props.complained w msg))
  /\ (forall n,
      Props.missing w Bm25.WEIGHTS_PATH \/ Props.missing w Bm25.SPLIT_PATH
      \/ Props.missing w Bm25.CACHE_PATH ->
      exists msg, Bm25.main n w
                  = (Py.Raise (Py.SystemExit 1), Props.complained w msg))
  /\ (forall n,
      Props.missing w FieldWeights.WEIGHTS_PATH
      \/ Props.missing w FieldWeights.SPLIT_PATH
      \/ Props.missing w FieldWeights.CACHE_PATH ->
      exists msg, FieldWeights.main n w
                  = (Py.Raise (Py.SystemExit 1), Props.complained w msg)).
Proof.
  repeat split.
  - intros cfg H. unfold ExcellentFit.main. do 3 check_step. all_present H.
  - intros metric n H. unfold Stage2.main. do 4 check_step. all_present H.
  - intros n H. unfold Description.main. do 3 check_step. all_present H.
  - intros tune n H. unfold StageA.main. do 2 check_step. all_present H.
  - intros n H. unfold Ranking.main. do 3 check_step. all_present H.
  - intros n H. unfold Bm25.main. do 3 check_step. all_present H.
  - intros n H. unfold FieldWeights.main. do 3 check_step. all_present H.
Qed.

Lemma drivers_fail_fast_witness :
  exists msg,
    ExcellentFit.main Props.demo_config
      (Props.demo_world_without ExcellentFit.BENCHMARK_CACHE)
    = (Py.Raise (Py.SystemExit 1),
       Props.complained (Props.demo_world_without ExcellentFit.BENCHMARK_CACHE) msg).
Proof.
  apply (proj1 (drivers_fail_fast
                  (Props.demo_world_without ExcellentFit.BENCHMARK_CACHE))).
  right. left. reflexivity.
Defined.

End FailFastFacts.

(* ================================================================== *)
(** * Further properties: the course of the excellent-fit study *)
(* ================================================================== *)

Section ExcellentStudyFacts.

Import Sys.

Lemma excellent_read_result_no_exit r w c :
  fst (ExcellentFit.read_result r w) <> Py.Raise (Py.SystemExit c).
Proof.
  unfold ExcellentFit.read_result.
  destruct (negb (Z.eqb (returncode r) 0)).
  - destruct (ExcellentFit.quota_or_rate_limit _); simpl; discriminate.
  - destruct (Py.last_item _) as [l|]; simpl; [|discriminate].
    destruct (Py.float_of_str l) as [v|e] eqn:E; [discriminate|].
    rewrite (float_of_str_raises _ _ E). discriminate.
Qed.

Lemma excellent_read_result_python r w e :
  fst (ExcellentFit.read_result r w) = Py.Raise e -> Props.raised_by_python e.
Proof.
  unfold ExcellentFit.read_result.
  destruct (negb (Z.eqb (returncode r) 0)).
  - destruct (ExcellentFit.quota_or_rate_limit _); simpl;
      intros [= <-] what; discriminate.
  - destruct (Py.last_item _) as [l|]; simpl;
      [|intros [= <-] what; discriminate].
    destruct (Py.float_of_str l) as [v|e0] eqn:E; [discriminate|].
    rewrite (float_of_str_raises _ _ E). intros [= <-] what. discriminate.
Qed.

Lemma excellent_evaluator_python cfg path w e :
  fst (ExcellentFit.run_evaluator cfg path w) = Py.Raise e ->
  Props.raised_by_python e.
Proof.
  rewrite run_evaluator_spec.
  destruct (node w (spawned w) _ (files w)).
  - apply excellent_read_result_python.
  - simpl. intros [= <-] what. discriminate.
Qed.

Lemma excellent_evaluator_no_exit cfg path w c :
  fst (ExcellentFit.run_evaluator cfg path w) <> Py.Raise (Py.SystemExit c).
Proof.
  rewrite run_evaluator_spec.
  destruct (node w (spawned w) _ (files w)); [|simpl; discriminate].
  apply excellent_read_result_no_exit.
Qed.

Lemma file_at_keeps {A} (c : M A) p w :
  Props.keeps p c -> Props.file_at (snd (c w)) p = Props.file_at w p.
Proof. intros H. unfold Props.file_at. now rewrite (H w). Qed.

(** One trial of the driver: its number, its parameters, its state. *)
Lemma excellent_step cfg w base :
  Props.well_numbered (trials w) ->
  Props.file_at w ExcellentFit.BASE_WEIGHTS = Some base ->
  exists t,
    trials (snd (Optuna.run_trial (ExcellentFit.objective cfg) w)) = trials w ++ [t]
    /\ number t = List.length (trials w)
    /\ Py.dict_keys (params t) = Py.dict_keys ExcellentFit.RESCORE_RANGES
    /\ (fst (Optuna.run_trial (ExcellentFit.objective cfg) w) = Py.Ok tt ->
        Props.settled t)
    /\ (forall e, fst (Optuna.run_trial (ExcellentFit.objective cfg) w) = Py.Raise e ->
                  Props.raised_by_python e ->
                  state t = FAIL /\ value t = None).
Proof.
  intros Hwn Hbase. apply file_at_get in Hbase.
  destruct (excellent_trial cfg w base Hwn Hbase) as [ps [written [_ [Hk Htrial]]]].
  destruct (ExcellentFit.run_evaluator cfg ExcellentFit.WEIGHTS_PATH
              (Props.at_evaluator w
                 (mkTrial (List.length (trials w)) RUNNING None ps)
                 ExcellentFit.WEIGHTS_PATH written)) as [r w3] eqn:Hev.
  rewrite (Htrial r w3 eq_refl).
  pose proof (excellent_evaluator_no_exit cfg ExcellentFit.WEIGHTS_PATH
                (Props.at_evaluator w
                   (mkTrial (List.length (trials w)) RUNNING None ps)
                   ExcellentFit.WEIGHTS_PATH written)) as Hne.
  rewrite Hev in Hne. simpl in Hne.
  destruct r as [[v|b|]|e].
  - eexists. simpl. split; [reflexivity|]. split; [reflexivity|].
    split; [exact Hk|]. split; [|discriminate].
    intros _. left. split; [reflexivity|discriminate].
  - exists (mkTrial (List.length (trials w)) RUNNING None ps). simpl.
    split.
    { replace w3 with (snd (@Py.Ok Py.float (Py.Inf b), w3)) by reflexivity.
      rewrite <- Hev, run_evaluator_trials. reflexivity. }
    split; [reflexivity|]. split; [exact Hk|]. split; [discriminate|].
    intros e [= <-] Hpy. exfalso. now apply (Hpy "inf"%string).
  - eexists. simpl. split; [reflexivity|]. split; [reflexivity|].
    split; [exact Hk|]. split; [|discriminate].
    intros _. right. right. split; reflexivity.
  - destruct e; simpl;
      try (eexists; split; [reflexivity|]; split; [reflexivity|];
           split; [exact Hk|]; split; [discriminate|];
           intros e' _ _; split; reflexivity).
    + eexists. split; [reflexivity|]. split; [reflexivity|].
      split; [exact Hk|]. split; [|discriminate].
      intros _. right. left. split; reflexivity.
    + exfalso. now apply (Hne code).
Qed.

Lemma excellent_loop cfg timed :
  forall budget i w base,
    Props.well_numbered (trials w) ->
    Props.file_at w ExcellentFit.BASE_WEIGHTS = Some base ->
    exists added,
      trials (snd (Optuna.optimize_from (ExcellentFit.objective cfg) timed budget i w))
        = trials w ++ added
      /\ Forall (fun t => Py.dict_keys (params t)
                          = Py.dict_keys ExcellentFit.RESCORE_RANGES) added
      /\ match fst (Optuna.optimize_from (ExcellentFit.objective cfg) timed budget i w)
         with
         | Py.Ok _ =>
             Forall Props.settled added
             /\ (timed = false -> List.length added = budget)
         | Py.Raise e =>
             exists front last,
               added = front ++ [last]
               /\ Forall Props.settled front
               /\ (Props.raised_by_python e ->
                   state last = FAIL /\ value last = None)
         end.
Proof.
  induction budget as [|budget IH]; intros i w base Hwn Hbase.
  - exists []. simpl. rewrite app_nil_r. repeat split; constructor.
  - destruct (timed && deadline_passed w i) eqn:Hd.
    + exists []. simpl. rewrite Hd. simpl. rewrite app_nil_r.
      repeat split; try constructor.
      intros ->. discriminate.
    + rewrite (optimize_from_step _ _ _ _ _ Hd).
      destruct (excellent_step cfg w base Hwn Hbase) as [t [Ht [Hn [Hk [Hok Hraise]]]]].
      assert (Hneq : ExcellentFit.BASE_WEIGHTS <> ExcellentFit.WEIGHTS_PATH)
        by discriminate.
      pose proof (file_at_keeps (Optuna.run_trial (ExcellentFit.objective cfg))
                    ExcellentFit.BASE_WEIGHTS w
                    (keeps_run_trial _ _
                       (fun n => keeps_excellent_objective _ cfg n Hneq)))
        as Hfile.
      destruct (Optuna.run_trial (ExcellentFit.objective cfg) w) as [[u|e] w'];
        simpl in Ht, Hok, Hraise, Hfile.
      * assert (Hwn' : Props.well_numbered (trials w')).
        { rewrite Ht. now apply well_numbered_snoc. }
        rewrite Hbase in Hfile.
        destruct (IH (S i) w' base Hwn' Hfile) as [added [Ha [Hb Hc]]].
        exists (t :: added). rewrite Ha, Ht, <- app_assoc. simpl.
        split; [reflexivity|]. split; [now constructor|].
        destruct (fst (Optuna.optimize_from (ExcellentFit.objective cfg) timed
                         budget (S i) w')) as [u'|e].
        -- destruct Hc as [Hs Hl]. split.
           ++ constructor; [destruct u; now apply Hok|exact Hs].
           ++ intros E. simpl. f_equal. now apply Hl.
        -- destruct Hc as [front [last [-> [Hf Hlast]]]].
           exists (t :: front), last. split; [reflexivity|]. split; [|exact Hlast].
           constructor; [destruct u; now apply Hok|exact Hf].
      * exists [t]. simpl. split; [exact Ht|]. split; [now constructor|].
        exists [], t. split; [reflexivity|]. split; [constructor|].
        intros Hpy. now apply (Hraise e).
Qed.



End ExcellentStudyFacts.

Section ExcellentBestFacts.

Import Sys.

Lemma file_at_written w path d :
  Props.file_at (with_files w (Py.dict_set (files w) path (JsonFile d))) path
  = Some d.
Proof.
  unfold Props.file_at. destruct w; simpl.
  rewrite dict_get_set. now rewrite String.eqb_refl.
Qed.

Lemma copy_best_spec keys best :
  (forall k, In k keys -> Py.dict_get best k <> None) ->
  forall out,
    exists out',
      ExcellentFit.copy_best keys best out = Py.Ok out'
      /\ forall key,
           Py.dict_get out' key =
           if Props.mem key keys
           then option_map Py.JNum (Py.dict_get best key)
           else Py.dict_get out key.
Proof.
  induction keys as [|k0 keys IH]; intros Hall out.
  - exists out. split; reflexivity.
  - simpl. unfold Py.dict_item.
    destruct (Py.dict_get best k0) as [v|] eqn:E;
      [|exfalso; apply (Hall k0); [now left|exact E]].
    simpl.
    destruct (IH (fun k H => Hall k (or_intror H))
                 (Py.dict_set out k0 (Py.JNum v))) as [out' [Hrun Hget]].
    exists out'. split; [exact Hrun|].
    intros key. rewrite Hget. unfold Props.mem. simpl.
    destruct (existsb (String.eqb key) keys); [now rewrite orb_true_r|].
    rewrite orb_false_r, dict_get_set, (String.eqb_sym key k0).
    destruct (String.eqb k0 key) eqn:Ek; [|reflexivity].
    apply String.eqb_eq in Ek. subst key. now rewrite E.
Qed.


(** X4: the best weights file of optimize_excellent_fit_top3.  When the
    prerequisites are there, all trials of the study carry the sixteen
    parameters, the loop has ended normally and the study has a best trial,
    [main] returns normally and its last act is to write the best weights
    file: each of the sixteen keys holds the value of the best trial and
    every other key holds its value of the base file. *)
Theorem excellent_main_writes_best
  (cfg : ExcellentFit.Config) (w w1 : World) (base : Py.dict Py.json)
  (best : FrozenTrial) :
  Props.file_at w ExcellentFit.BASE_WEIGHTS = Some base ->
  Py.dict_get (files w) ExcellentFit.BENCHMARK_CACHE <> None ->
  Py.dict_get (files w) ExcellentFit.EVALUATOR_JS <> None ->
  Props.well_numbered
    (trials (snd (Optuna.create_study (ExcellentFit.OPTUNA_RESUME cfg) w))) ->
  Forall (fun t => Py.dict_keys (params t) = Py.dict_keys ExcellentFit.RESCORE_RANGES)
    (trials (snd (Optuna.create_study (ExcellentFit.OPTUNA_RESUME cfg) w))) ->
  Optuna.optimize (ExcellentFit.objective cfg) (ExcellentFit.N_TRIALS cfg)
    (match ExcellentFit.STUDY_TIMEOUT cfg with Some _ => true | None => false end)
    (snd (Optuna.create_study (ExcellentFit.OPTUNA_RESUME cfg) w))
  = (Py.Ok tt, w1) ->
  Optuna.best_trial_of (trials w1) = Py.Ok best ->
  exists out,
    ExcellentFit.main cfg w
    = (Py.Ok tt,
       with_files w1 (Py.dict_set (files w1) ExcellentFit.BEST_OUT_PATH (JsonFile out)))
    /\ forall key,
         if Props.mem key (Py.dict_keys ExcellentFit.RESCORE_RANGES)
         then exists v, Py.dict_get (params best) key = Some v
                        /\ Py.dict_get out key = Some (Py.JNum v)
         else Py.dict_get out key = Py.dict_get base key.
Proof.
  intros Hbase Hcache Hjs Hwn Hold Hopt Hbest.
  set (w0 := snd (Optuna.create_study (ExcellentFit.OPTUNA_RESUME cfg) w)) in *.
  assert (Hbase0 : Props.file_at w0 ExcellentFit.BASE_WEIGHTS = Some base).
  { unfold w0, Optuna.create_study.
    destruct (ExcellentFit.OPTUNA_RESUME cfg); exact Hbase. }
  unfold Optuna.optimize in Hopt.
  set (timed := match ExcellentFit.STUDY_TIMEOUT cfg with
                | Some _ => true | None => false end) in *.
  destruct (excellent_loop cfg timed (ExcellentFit.N_TRIALS cfg) 0 w0 base Hwn Hbase0)
    as [added [Ha [Hk _]]].
  rewrite Hopt in Ha. simpl in Ha.
  assert (Hbase1 : Props.file_at w1 ExcellentFit.BASE_WEIGHTS = Some base).
  { assert (Hneq : ExcellentFit.BASE_WEIGHTS <> ExcellentFit.WEIGHTS_PATH)
      by discriminate.
    pose proof (file_at_keeps
                  (Optuna.optimize_from (ExcellentFit.objective cfg) timed
                     (ExcellentFit.N_TRIALS cfg) 0)
                  ExcellentFit.BASE_WEIGHTS w0
                  (keeps_optimize_from _ _ _
                     (fun n => keeps_excellent_objective _ cfg n Hneq) _ _)) as H.
    rewrite Hopt in H. simpl in H. now rewrite H. }
  assert (Hkeys : Py.dict_keys (params best)
                  = Py.dict_keys ExcellentFit.RESCORE_RANGES).
  { destruct (best_trial_complete _ _ Hbest) as [Hin _].
    rewrite Ha in Hin. apply in_app_or in Hin.
    rewrite Forall_forall in Hold, Hk.
    destruct Hin as [Hin|Hin]; [now apply Hold|now apply Hk]. }
  assert (Hall : forall k, In k (Py.dict_keys ExcellentFit.RESCORE_RANGES) ->
                           Py.dict_get (params best) k <> None).
  { intros k Hin. rewrite <- Hkeys in Hin.
    destruct (dict_get_in _ _ Hin) as [j [Hj _]]. rewrite Hj. discriminate. }
  destruct (copy_best_spec _ _ Hall base) as [out [Hcopy Hget]].
  exists out. split.
  - unfold ExcellentFit.main.
    rewrite (exists_true _ _ _ (file_at_present _ _ _ Hbase)).
    simpl negb. cbv iota. rewrite bind_ret.
    rewrite (exists_true _ _ _ Hcache). simpl negb. cbv iota. rewrite bind_ret.
    rewrite (exists_true _ _ _ Hjs). simpl negb. cbv iota. rewrite bind_ret.
    rewrite (bind_ok (Optuna.create_study _) _ _ tt _ eq_refl).
    fold w0. unfold Optuna.optimize. fold timed. rewrite (bind_ok _ _ _ _ _ Hopt).
    assert (Hb : Optuna.best_trial w1 = (Py.Ok best, w1))
      by (unfold Optuna.best_trial; now rewrite Hbest).
    rewrite (bind_ok _ _ _ _ _ Hb).
    unfold ExcellentFit.is_None. rewrite bind_ret.
    rewrite (bind_ok _ _ _ _ _ (read_json_file_at _ _ _ Hbase1)).
    rewrite (bind_ok _ _ _ _ _ (best_params_eq _ _ Hbest)).
    unfold lift at 1. unfold Sys.bind at 1. rewrite Hcopy. reflexivity.
  - intros key. specialize (Hget key).
    destruct (Props.mem key (Py.dict_keys ExcellentFit.RESCORE_RANGES)) eqn:Hm;
      [|exact Hget].
    apply mem_in in Hm.
    destruct (Py.dict_get (params best) key) as [v|] eqn:E;
      [|exfalso; now apply (Hall key Hm)].
    exists v. split; [reflexivity|exact Hget].
Qed.

Lemma excellent_main_writes_best_witness :
  exists out v,
    fst (ExcellentFit.main Props.demo_config
           (Props.demo_world (Some Props.chatty_success))) = Py.Ok tt
    /\ Props.file_at (snd (ExcellentFit.main Props.demo_config
                             (Props.demo_world (Some Props.chatty_success))))
                     ExcellentFit.BEST_OUT_PATH = Some out
    /\ Py.dict_get out "pathway_1" = Some (Py.JNum v).
Proof.
  assert (H : Optuna.optimize (ExcellentFit.objective Props.demo_config) 3 false
                (snd (Optuna.create_study false
                        (Props.demo_world (Some Props.chatty_success))))
              = (Py.Ok tt,
                 snd (Optuna.optimize (ExcellentFit.objective Props.demo_config)
                        3 false
                        (snd (Optuna.create_study false
                                (Props.demo_world (Some Props.chatty_success)))))))
    by (vm_compute; reflexivity).
  assert (B : exists best,
             Optuna.best_trial_of
               (trials (snd (Optuna.optimize
                               (ExcellentFit.objective Props.demo_config) 3 false
                               (snd (Optuna.create_study false
                                       (Props.demo_world
                                          (Some Props.chatty_success)))))))
             = Py.Ok best)
    by (eexists; vm_compute; reflexivity).
  destruct B as [best B].
  destruct (excellent_main_writes_best Props.demo_config
              (Props.demo_world (Some Props.chatty_success)) _ Props.demo_base best
              eq_refl ltac:(discriminate) ltac:(discriminate)
              eq_refl (Forall_nil _) H B) as [out [Hmain Hget]].
  pose proof (Hget "pathway_1"%string) as H1.
  assert (E : Props.mem "pathway_1" (Py.dict_keys ExcellentFit.RESCORE_RANGES) = true)
    by reflexivity.
  rewrite E in H1. destruct H1 as [v [_ Hv]].
  exists out, v. rewrite Hmain. split; [reflexivity|]. split.
  - apply file_at_written.
  - exact Hv.
Defined.

End ExcellentBestFacts.

Section ExcellentKeyErrorFacts.

Import Sys.



End ExcellentKeyErrorFacts.

(* ================================================================== *)
(** * The best trial in the analysis *)
(* ================================================================== *)

Section RankFacts.

Import Sys.

Lemma Qle_bool_lt x y : Qle_bool x y = false -> (y < x)%Q.
Proof.
  intros H. apply Qnot_le_lt. intros Hle.
  apply Qle_bool_iff in Hle. congruence.
Qed.

(** [best_of] returns the first trial of maximal value: the trials before it
    have a smaller value, the trials after it none greater. *)
Lemma best_of_split l : forall b,
  exists l1 l2,
    b :: l = l1 ++ Optuna.best_of b l :: l2
    /\ Forall (fun x => (Optuna.value_of x < Optuna.value_of (Optuna.best_of b l))%Q) l1
    /\ Forall (fun x => (Optuna.value_of x <= Optuna.value_of (Optuna.best_of b l))%Q) l2.
Proof.
  induction l as [|t l IH]; intros b.
  - exists [], []. simpl. repeat split; constructor.
  - simpl. destruct (Qle_bool (Optuna.value_of t) (Optuna.value_of b)) eqn:E.
    + destruct (IH b) as [l1 [l2 [Heq [H1 H2]]]].
      remember (Optuna.best_of b l) as m eqn:Hm. clear Hm.
      destruct l1 as [|x l1]; simpl in Heq; injection Heq as Hb Hl.
      * subst m l. exists [], (t :: l2). simpl.
        repeat split; constructor; [now apply Qle_bool_iff|exact H2].
      * subst x l. exists (b :: t :: l1), l2. simpl.
        inversion H1 as [|? ? Hx Hl1]; subst.
        repeat split; [|exact H2].
        constructor; [exact Hx|]. constructor; [|exact Hl1].
        apply Qle_bool_iff in E. eapply Qle_lt_trans; eassumption.
    + destruct (IH t) as [l1 [l2 [Heq [H1 H2]]]].
      remember (Optuna.best_of t l) as m eqn:Hm. clear Hm.
      exists (b :: l1), l2. rewrite Heq. simpl.
      repeat split; [|exact H2].
      constructor; [|exact H1].
      apply Qle_bool_lt in E. eapply Qlt_le_trans; [exact E|].
      destruct l1 as [|x l1]; simpl in Heq; injection Heq as Hb Hl.
      * subst m. apply Qle_refl.
      * subst x. inversion H1; subst. now apply Qlt_le_weak.
Qed.

(** The stable descending sort puts the first element of maximal key first. *)
Lemma sorted_desc_head {A} (key : A -> Q) m l2 : forall l1,
  Forall (fun x => (key x < key m)%Q) l1 ->
  Forall (fun x => (key x <= key m)%Q) l2 ->
  Py.sorted_desc key (l1 ++ m :: l2) = m :: Py.sorted_desc key (l1 ++ l2).
Proof.
  unfold Py.sorted_desc, Py.sort_by.
  induction l1 as [|x l1 IH]; intros H1 H2; simpl.
  - pose proof (sort_by_perm (fun x y => Qle_bool (key y) (key x)) l2) as Hp.
    unfold Py.sort_by in Hp.
    destruct (fold_right _ [] l2) as [|h s]; [reflexivity|].
    simpl.
    assert (Hh : In h l2) by (apply (Permutation_in _ Hp); now left).
    rewrite Forall_forall in H2. specialize (H2 h Hh).
    apply Qle_bool_iff in H2. now rewrite H2.
  - inversion H1 as [|? ? Hx Hl1]; subst.
    rewrite (IH Hl1 H2). simpl.
    assert (E : Qle_bool (key m) (key x) = false).
    { destruct (Qle_bool (key m) (key x)) eqn:E; [|reflexivity].
      apply Qle_bool_iff in E. exfalso. apply (Qlt_not_le _ _ Hx E). }
    now rewrite E.
Qed.

Lemma trials_data_head study best :
  Optuna.best_trial_of study = Py.Ok best ->
  exists rest, Analyze.trials_data study = Props.as_trial_dict best :: rest.
Proof.
  unfold Optuna.best_trial_of, Analyze.trials_data.
  destruct (Optuna.completed study) as [|t l]; [discriminate|].
  intros H. apply Ok_inj in H. subst best.
  destruct (best_of_split l t) as [l1 [l2 [Heq [H1 H2]]]].
  rewrite Heq, map_app. simpl map.
  eexists.
  apply (sorted_desc_head Analyze.t_value
           (Props.as_trial_dict (Optuna.best_of t l))
           (map Props.as_trial_dict l2) (map Props.as_trial_dict l1)).
  - apply Forall_map. exact H1.
  - apply Forall_map. exact H2.
Qed.

(** X6: the best trial leads the analysis.  Whenever the analysis is made,
    the first entry of its top-10 list is the best trial of the study (on
    ties of the value: the earliest), the summary names its number and
    value, and the parameters dumped at the end of the report are those of
    that trial. *)
Theorem best_trial_leads_the_analysis
  (stdev : list Q -> Q) (study : list FrozenTrial) (f : Analyze.BaselineFile)
  (best : FrozenTrial) (a : Analyze.Analysis) (r : list Analyze.chunk) :
  Optuna.best_trial_of study = Py.Ok best ->
  Analyze.run stdev study f = Py.Ok (a, r) ->
  (exists rest, Analyze.top_10_trials a = Props.as_trial_dict best :: rest)
  /\ Analyze.best_trial_number (Analyze.summary a) = Some (number best)
  /\ Analyze.best_value (Analyze.summary a) = Some (Optuna.value_of best)
  /\ In (Analyze.JsonDump (params best)) r.
Proof.
  intros Hbest Hrun.
  destruct (trials_data_head study best Hbest) as [rest Htd].
  unfold Analyze.run in Hrun.
  apply rbind_ok_inv in Hrun. destruct Hrun as [a' [Ha Hrun]].
  apply rbind_ok_inv in Hrun. destruct Hrun as [r' [Hr Hrun]].
  apply Ok_inj in Hrun. injection Hrun as -> ->.
  unfold Analyze.analyse in Ha.
  apply rbind_ok_inv in Ha. destruct Ha as [sm [Hsm Ha]].
  apply rbind_ok_inv in Ha. destruct Ha as [ps [_ Ha]].
  apply rbind_ok_inv in Ha. destruct Ha as [ta [_ Ha]].
  apply rbind_ok_inv in Ha. destruct Ha as [ca [_ Ha]].
  apply rbind_ok_inv in Ha. destruct Ha as [vd [_ Ha]].
  apply Ok_inj in Ha. subst a.
  unfold Analyze.build_summary in Hsm. rewrite Hbest in Hsm.
  cbn [Py.rbind] in Hsm.
  apply rbind_ok_inv in Hsm. destruct Hsm as [imp [_ Hsm]].
  apply Ok_inj in Hsm. subst sm.
  cbn [Analyze.top_10_trials Analyze.summary Analyze.best_trial_number
       Analyze.best_value].
  split; [|split; [reflexivity|split; [reflexivity|]]].
  - rewrite Htd. exists (Py.first_n 9 rest). reflexivity.
  - unfold Analyze.report in Hr.
    apply rbind_ok_inv in Hr. destruct Hr as [s1 [_ Hr]].
    apply rbind_ok_inv in Hr. destruct Hr as [s3 [_ Hr]].
    apply rbind_ok_inv in Hr. destruct Hr as [s6 [Hs6 Hr]].
    apply Ok_inj in Hr. subst r.
    cbn [Analyze.summary Analyze.best_trial_number] in Hs6.
    rewrite Htd in Hs6. unfold Analyze.best_section in Hs6.
    cbn [find Props.as_trial_dict Analyze.t_number] in Hs6.
    rewrite Nat.eqb_refl in Hs6. apply Ok_inj in Hs6. subst s6.
    repeat (apply in_or_app; right).
    right. right. left. reflexivity.
Qed.

Lemma best_trial_leads_the_analysis_witness :
  exists a r,
    Analyze.run Props.no_stdev Props.twenty_study Analyze.NoBaselineFile
      = Py.Ok (a, r)
    /\ Analyze.best_trial_number (Analyze.summary a) = Some 19
    /\ exists rest, Analyze.top_10_trials a
                    = Props.as_trial_dict
                        (mkTrial 19 COMPLETE (Some (inject_Z 19))
                           [ ("procedure_per_match"%string, (inject_Z 19 / 10)%Q);
                             ("subspecialty_factor"%string, 0.4%Q);
                             ("anchor_per_match"%string, (1 - inject_Z 19 / 20)%Q) ])
                      :: rest.
Proof.
  assert (H : exists a r,
             Analyze.run Props.no_stdev Props.twenty_study Analyze.NoBaselineFile
             = Py.Ok (a, r))
    by (vm_compute; eexists; eexists; reflexivity).
  destruct H as [a [r H]].
  exists a, r. split; [exact H|].
  assert (B : Optuna.best_trial_of Props.twenty_study
              = Py.Ok (mkTrial 19 COMPLETE (Some (inject_Z 19))
                         [ ("procedure_per_match"%string, (inject_Z 19 / 10)%Q);
                           ("subspecialty_factor"%string, 0.4%Q);
                           ("anchor_per_match"%string, (1 - inject_Z 19 / 20)%Q) ]))
    by (vm_compute; reflexivity).
  destruct (best_trial_leads_the_analysis Props.no_stdev Props.twenty_study
              Analyze.NoBaselineFile _ a r B H) as [Hrest [Hn _]].
  split; [exact Hn|exact Hrest].
Defined.

End RankFacts.

(* ================================================================== *)
(** * The value distribution *)
(* ================================================================== *)

Section DistributionFacts.

Lemma Qmin_list_spec l : forall x,
  In (Py.Qmin_list x l) (x :: l)
  /\ forall y, In y (x :: l) -> (Py.Qmin_list x l <= y)%Q.
Proof.
  unfold Py.Qmin_list.
  induction l as [|z l IH]; intros x; simpl.
  - split; [now left|]. intros y [<-|[]]. apply Qle_refl.
  - destruct (Qle_bool x z) eqn:E.
    + destruct (IH x) as [Hin Hle]. split.
      * destruct Hin as [H|H]; [now left|now right; right].
      * intros y [<-|[<-|Hy]].
        -- apply Hle. now left.
        -- apply Qle_bool_iff in E.
           eapply Qle_trans; [apply Hle; now left|exact E].
        -- apply Hle. now right.
    + destruct (IH z) as [Hin Hle]. split.
      * now right.
      * intros y [<-|[<-|Hy]].
        -- apply Qle_bool_false in E.
           eapply Qle_trans; [apply Hle; now left|exact E].
        -- apply Hle. now left.
        -- apply Hle. now right.
Qed.

Lemma Qmax_list_spec l : forall x,
  In (Py.Qmax_list x l) (x :: l)
  /\ forall y, In y (x :: l) -> (y <= Py.Qmax_list x l)%Q.
Proof.
  unfold Py.Qmax_list.
  induction l as [|z l IH]; intros x; simpl.
  - split; [now left|]. intros y [<-|[]]. apply Qle_refl.
  - destruct (Qle_bool z x) eqn:E.
    + destruct (IH x) as [Hin Hle]. split.
      * destruct Hin as [H|H]; [now left|now right; right].
      * intros y [<-|[<-|Hy]].
        -- apply Hle. now left.
        -- apply Qle_bool_iff in E.
           eapply Qle_trans; [exact E|apply Hle; now left].
        -- apply Hle. now right.
    + destruct (IH z) as [Hin Hle]. split.
      * now right.
      * intros y [<-|[<-|Hy]].
        -- apply Qle_bool_false in E.
           eapply Qle_trans; [exact E|apply Hle; now left].
        -- apply Hle. now left.
        -- apply Hle. now right.
Qed.

Lemma sorted_nth_le s :
  StronglySorted Qle s ->
  forall i j, i <= j -> j < List.length s -> (nth i s 0 <= nth j s 0)%Q.
Proof.
  induction 1 as [|a s Hs IH Ha]; intros i j Hij Hj; simpl in Hj; [lia|].
  destruct i as [|i], j as [|j]; simpl; try lia.
  - apply Qle_refl.
  - rewrite Forall_forall in Ha. apply Ha, nth_In. lia.
  - apply IH; lia.
Qed.

Lemma length_pos_Q {X} (l : list X) :
  l <> [] -> (0 < inject_Z (Z.of_nat (List.length l)))%Q.
Proof.
  intros H. destruct l as [|x l]; [contradiction|].
  change 0%Q with (inject_Z 0). rewrite <- Zlt_Qlt. simpl. lia.
Qed.

Lemma length_succ_Q {X} (x : X) (l : list X) :
  (inject_Z (Z.of_nat (List.length (x :: l)))
   == inject_Z (Z.of_nat (List.length l)) + 1)%Q.
Proof.
  cbn [List.length]. rewrite Nat2Z.inj_succ, <- Z.add_1_r, inject_Z_plus.
  reflexivity.
Qed.

Lemma sum_lower lo l :
  Forall (fun x => (lo <= x)%Q) l ->
  forall a, (a + lo * inject_Z (Z.of_nat (List.length l)) <= fold_left Qplus l a)%Q.
Proof.
  induction 1 as [|x l Hx Hl IH]; intros a.
  - simpl. change (inject_Z 0) with 0%Q. lra.
  - rewrite length_succ_Q. cbn [fold_left].
    eapply Qle_trans; [|apply IH]. lra.
Qed.

Lemma sum_upper hi l :
  Forall (fun x => (x <= hi)%Q) l ->
  forall a, (fold_left Qplus l a <= a + hi * inject_Z (Z.of_nat (List.length l)))%Q.
Proof.
  induction 1 as [|x l Hx Hl IH]; intros a.
  - simpl. change (inject_Z 0) with 0%Q. lra.
  - rewrite length_succ_Q. cbn [fold_left].
    eapply Qle_trans; [apply IH|]. lra.
Qed.

Lemma mean_between lo hi l m :
  (forall x, In x l -> (lo <= x <= hi)%Q) ->
  Py.mean l = Py.Ok m -> (lo <= m <= hi)%Q.
Proof.
  intros Hb Hm. unfold Py.mean in Hm.
  destruct l as [|x l]; [discriminate|].
  apply Ok_inj in Hm. subst m.
  assert (Hn : (0 < inject_Z (Z.of_nat (List.length (x :: l))))%Q)
    by (apply length_pos_Q; discriminate).
  assert (Hlo : Forall (fun y => (lo <= y)%Q) (x :: l))
    by (apply Forall_forall; intros y Hy; apply (Hb y Hy)).
  assert (Hhi : Forall (fun y => (y <= hi)%Q) (x :: l))
    by (apply Forall_forall; intros y Hy; apply (Hb y Hy)).
  pose proof (sum_lower lo _ Hlo 0) as Hl.
  pose proof (sum_upper hi _ Hhi 0) as Hu.
  fold (Py.Qsum (x :: l)) in Hl, Hu.
  split.
  - apply Qle_shift_div_l; [exact Hn|lra].
  - apply Qle_shift_div_r; [exact Hn|lra].
Qed.

Lemma median_eq l :
  l <> [] ->
  Py.median l =
  if Nat.odd (List.length l)
  then Py.Ok (nth (List.length l / 2) (Py.sorted l) 0%Q)
  else Py.Ok ((nth (List.length l / 2 - 1) (Py.sorted l) 0
               + nth (List.length l / 2) (Py.sorted l) 0) / 2)%Q.
Proof. intros H. destruct l; [contradiction|reflexivity]. Qed.

Lemma avg_between (a x y b : Q) :
  (a <= x)%Q -> (x <= y)%Q -> (y <= b)%Q ->
  (a <= (x + y) / 2)%Q /\ ((x + y) / 2 <= b)%Q.
Proof.
  intros H1 H2 H3. unfold Qdiv. change (/ 2)%Q with (1 # 2)%Q.
  split; lra.
Qed.

Lemma quartile_indices n :
  0 < n -> n / 4 <= n / 2 /\ n / 2 <= 3 * n / 4 /\ 3 * n / 4 < n.
Proof.
  intros Hn.
  pose proof (Nat.div_mod_eq n 4). pose proof (Nat.mod_upper_bound n 4).
  pose proof (Nat.div_mod_eq n 2). pose proof (Nat.mod_upper_bound n 2).
  pose proof (Nat.div_mod_eq (3 * n) 4). pose proof (Nat.mod_upper_bound (3 * n) 4).
  lia.
Qed.

Lemma even_quartile_index n :
  0 < n -> Nat.odd n = false -> n / 4 <= n / 2 - 1.
Proof.
  intros Hn Ho.
  assert (He : Nat.even n = true) by (rewrite <- Nat.negb_odd; now rewrite Ho).
  apply Nat.even_spec in He. destruct He as [k ->].
  pose proof (Nat.div_mod_eq (2 * k) 4). pose proof (Nat.mod_upper_bound (2 * k) 4).
  pose proof (Nat.div_mod_eq (2 * k) 2). pose proof (Nat.mod_upper_bound (2 * k) 2).
  lia.
Qed.

(** X7: the value distribution is ordered.  For a non-empty list of values
    the minimum and the maximum are values of the list that bound all of
    them, and min <= q25 <= median <= q75 <= max, with the mean between the
    minimum and the maximum as well. *)
Theorem distribution_is_ordered (stdev : list Q -> Q) (values : list Q) :
  values <> [] ->
  exists d a b,
    Analyze.build_distribution stdev values = Py.Ok d
    /\ Analyze.q25 d = Some a /\ Analyze.q75 d = Some b
    /\ In (Analyze.d_min d) values /\ In (Analyze.d_max d) values
    /\ In a values /\ In b values
    /\ (forall v, In v values -> (Analyze.d_min d <= v <= Analyze.d_max d)%Q)
    /\ (Analyze.d_min d <= a)%Q
    /\ (a <= Analyze.d_median d)%Q
    /\ (Analyze.d_median d <= b)%Q
    /\ (b <= Analyze.d_max d)%Q
    /\ (Analyze.d_min d <= Analyze.d_mean d <= Analyze.d_max d)%Q.
Proof.
  intros Hne.
  destruct values as [|v0 values]; [contradiction|].
  set (vs := v0 :: values) in *.
  set (n := List.length vs).
  assert (Hn : 0 < n) by (unfold n, vs; simpl; lia).
  destruct (Qmin_list_spec values v0) as [Hmin_in Hmin].
  destruct (Qmax_list_spec values v0) as [Hmax_in Hmax].
  fold vs in Hmin_in, Hmin, Hmax_in, Hmax.
  assert (Hbounds : forall v, In v vs ->
            (Py.Qmin_list v0 values <= v <= Py.Qmax_list v0 values)%Q)
    by (intros v Hv; split; [now apply Hmin|now apply Hmax]).
  pose proof (sorted_perm vs) as Hperm.
  pose proof (sorted_ascending vs) as Hsorted.
  assert (Hlen : List.length (Py.sorted vs) = n)
    by (apply Permutation_length, Hperm).
  destruct (quartile_indices n Hn) as [H14 [H12 H34]].
  assert (Hnth : forall i, i < n -> In (nth i (Py.sorted vs) 0%Q) vs).
  { intros i Hi. apply (Permutation_in _ Hperm), nth_In. lia. }
  assert (Hmono : forall i j, i <= j -> j < n ->
            (nth i (Py.sorted vs) 0 <= nth j (Py.sorted vs) 0)%Q).
  { intros i j Hij Hj. apply sorted_nth_le; [exact Hsorted|exact Hij|lia]. }
  destruct (Py.mean vs) as [m|e] eqn:Hmean; [|discriminate].
  pose proof (mean_between _ _ vs m Hbounds Hmean) as Hm.
  assert (Hmed : exists med,
            Py.median vs = Py.Ok med
            /\ (nth (n / 4) (Py.sorted vs) 0 <= med)%Q
            /\ (med <= nth (3 * n / 4) (Py.sorted vs) 0)%Q).
  { rewrite (median_eq vs Hne). fold n.
    destruct (Nat.odd n) eqn:Ho.
    - eexists. split; [reflexivity|].
      split; apply Hmono; lia.
    - pose proof (even_quartile_index n Hn Ho) as Heven.
      eexists. split; [reflexivity|].
      assert (H1 : (nth (n / 4) (Py.sorted vs) 0
                    <= nth (n / 2 - 1) (Py.sorted vs) 0)%Q)
        by (apply Hmono; lia).
      assert (H2 : (nth (n / 2 - 1) (Py.sorted vs) 0
                    <= nth (n / 2) (Py.sorted vs) 0)%Q)
        by (apply Hmono; lia).
      assert (H3 : (nth (n / 2) (Py.sorted vs) 0
                    <= nth (3 * n / 4) (Py.sorted vs) 0)%Q)
        by (apply Hmono; lia).
      exact (avg_between _ _ _ _ H1 H2 H3). }
  destruct Hmed as [med [Hmedian [Hq1 Hq3]]].
  unfold Analyze.build_distribution. fold n.
  change (Py.py_min vs) with (Py.Ok (Py.Qmin_list v0 values)).
  change (Py.py_max vs) with (Py.Ok (Py.Qmax_list v0 values)).
  rewrite Hmean, Hmedian. cbn [Py.rbind].
  assert (Hpos : (0 <? n) = true) by (apply Nat.ltb_lt; exact Hn).
  rewrite Hpos.
  eexists. exists (nth (n / 4) (Py.sorted vs) 0%Q),
                  (nth (3 * n / 4) (Py.sorted vs) 0%Q).
  split; [reflexivity|].
  cbn [Analyze.q25 Analyze.q75 Analyze.d_min Analyze.d_max Analyze.d_mean
       Analyze.d_median].
  split; [reflexivity|]. split; [reflexivity|].
  split; [exact Hmin_in|]. split; [exact Hmax_in|].
  split; [apply Hnth; lia|]. split; [apply Hnth; lia|].
  split; [exact Hbounds|].
  split; [apply Hmin, Hnth; lia|].
  split; [exact Hq1|]. split; [exact Hq3|].
  split; [apply Hmax, Hnth; lia|exact Hm].
Qed.

Lemma distribution_is_ordered_witness :
  exists d,
    Analyze.build_distribution Props.no_stdev [5; 3; 8; 1; 7; 2; 6; 4]%Q = Py.Ok d
    /\ (Analyze.d_min d <= Analyze.d_median d <= Analyze.d_max d)%Q.
Proof.
  destruct (distribution_is_ordered Props.no_stdev [5; 3; 8; 1; 7; 2; 6; 4]%Q)
    as [d [a [b [Hd [_ [_ [_ [_ [_ [_ [_ [H1 [H2 [H3 [H4 _]]]]]]]]]]]]]]].
  - discriminate.
  - exists d. split; [exact Hd|].
    split; [now apply (Qle_trans _ a)|now apply (Qle_trans _ b)].
Defined.

End DistributionFacts.

(* ================================================================== *)
(** * The analysis of a study made by the driver *)
(* ================================================================== *)

Section AnalysisTotalFacts.

Import Sys.

Lemma rmap_ok {X Y} (f : X -> Py.result Y) l :
  (forall x, In x l -> exists y, f x = Py.Ok y) ->
  exists l', Py.rmap f l = Py.Ok l'.
Proof.
  induction l as [|x l IH]; intros H; simpl.
  - now exists [].
  - destruct (H x (or_introl eq_refl)) as [y Hy].
    destruct (IH (fun x' Hx' => H x' (or_intror Hx'))) as [l' Hl'].
    exists (y :: l'). now rewrite Hy, Hl'.
Qed.

Lemma column_ok param ps :
  (forall d, In d ps -> Py.dict_get d param <> None) ->
  exists vs, Analyze.column param ps = Py.Ok vs
             /\ List.length vs = List.length ps.
Proof.
  intros H. unfold Analyze.column.
  destruct (rmap_ok (fun d => Py.dict_item d param) ps) as [vs Hvs].
  - intros d Hd. unfold Py.dict_item.
    destruct (Py.dict_get d param) as [v|] eqn:E; [now exists v|].
    exfalso. now apply (H d Hd).
  - exists vs. split; [exact Hvs|]. now apply rmap_length in Hvs.
Qed.





Lemma in_first_n {X} n (l : list X) x : In x (Py.first_n n l) -> In x l.
Proof.
  unfold Py.first_n. intros H. rewrite <- (firstn_skipn n l).
  apply in_or_app. now left.
Qed.










End AnalysisTotalFacts.

(* ================================================================== *)
(** * Properties of check_study_status.py *)
(* ================================================================== *)

Section CheckStatusFacts.

Import Sys.

Lemma in_state_complete t : CheckStatus.in_state COMPLETE t = Optuna.is_complete t.
Proof. unfold CheckStatus.in_state, Optuna.is_complete. now destruct (state t). Qed.

Lemma filter_complete study :
  filter (CheckStatus.in_state COMPLETE) study = Optuna.completed study.
Proof.
  unfold Optuna.completed. apply filter_ext. intros t. apply in_state_complete.
Qed.

Lemma states_partition study :
  List.length (filter (CheckStatus.in_state COMPLETE) study)
  + List.length (filter (CheckStatus.in_state PRUNED) study)
  + List.length (filter (CheckStatus.in_state FAIL) study)
  + List.length (filter (CheckStatus.in_state RUNNING) study)
  = List.length study.
Proof.
  induction study as [|t study IH]; [reflexivity|].
  unfold CheckStatus.in_state in *. cbn [filter].
  destruct (state t); cbn [List.length]; lia.
Qed.

(** X9: the report of check_study_status.  The three counts it prints and
    the trials still RUNNING add up to the total.  On a study without a
    COMPLETE trial the script ends with [ValueError] at line 20, after the
    counts: the text N/A of that line is never printed.  Otherwise it goes
    on with the value and number of the best trial, and the remaining
    trials are 20 less the total, and none when the total exceeds 20. *)
Theorem study_status_report (study : list FrozenTrial) :
  let c := fst (CheckStatus.run study) in
  CheckStatus.completed c + CheckStatus.pruned c + CheckStatus.failed c
    + List.length (filter (CheckStatus.in_state RUNNING) study)
    = CheckStatus.total_trials c
  /\ (CheckStatus.completed c = 0 ->
      snd (CheckStatus.run study)
      = Py.Raise (Py.ValueError "No trials are completed yet."))
  /\ (0 < CheckStatus.completed c ->
      exists best,
        Optuna.best_trial_of study = Py.Ok best
        /\ snd (CheckStatus.run study)
           = Py.Ok (CheckStatus.mkOutlook (Optuna.value_of best) (number best)
                      (20 - CheckStatus.total_trials c))).
Proof.
  cbn [CheckStatus.run fst snd CheckStatus.counts CheckStatus.completed
       CheckStatus.pruned CheckStatus.failed CheckStatus.total_trials].
  split; [apply states_partition|].
  rewrite filter_complete. unfold CheckStatus.outlook, Optuna.best_trial_of.
  split; intros H.
  - destruct (Optuna.completed study); [reflexivity|discriminate].
  - destruct (Optuna.completed study) as [|t l]; [simpl in H; lia|].
    eexists. split; reflexivity.
Qed.

Lemma study_status_report_witness :
  snd (CheckStatus.run [ mkTrial 0 PRUNED None []; mkTrial 1 FAIL None [] ])
  = Py.Raise (Py.ValueError "No trials are completed yet.").
Proof.
  apply (proj1 (proj2 (study_status_report
                         [ mkTrial 0 PRUNED None []; mkTrial 1 FAIL None [] ]))).
  reflexivity.
Defined.

End CheckStatusFacts.

(* ================================================================== *)
(** * The evaluator of optimize_stage2_rescoring.py *)
(* ================================================================== *)

Section Stage2EvaluatorFacts.

Import Sys.

(** X10: optimize_stage2_rescoring looks for one script and starts another.
    [main] looks for evaluate-ranking-subset.js in the root directory, the
    trials start the one in the directory evaluation.  So with the three
    data files and the script of the trials in place, but no script of that
    name in the root directory, [main] ends by [sys.exit(1)] with the
    message that the script was not found, before any trial. *)
Theorem stage2_checks_another_script (metric : string) (n : nat) (w : World) :
  Py.dict_get (files w) Stage2.BASE_WEIGHTS <> None ->
  Py.dict_get (files w) Stage2.CACHE_V2 <> None ->
  Py.dict_get (files w) Stage2.SPLIT_FILE <> None ->
  Py.dict_get (files w) Stage2.EVALUATOR_RUN <> None ->
  Props.missing w Stage2.EVALUATOR_CHECKED ->
  Stage2.main metric n w
  = (Py.Raise (Py.SystemExit 1),
     Props.complained w "evaluate-ranking-subset.js not found")
  /\ forall path, nth_error (Stage2.command metric path) 1
                  = Some Stage2.EVALUATOR_RUN
  /\ Stage2.EVALUATOR_RUN <> Stage2.EVALUATOR_CHECKED.
Proof.
  intros Hbase Hcache Hsplit _ Hmiss. split.
  - unfold Stage2.main.
    rewrite (exists_true _ _ _ Hbase). simpl negb. cbv iota. rewrite bind_ret.
    rewrite (exists_true _ _ _ Hcache). simpl negb. cbv iota. rewrite bind_ret.
    rewrite (exists_true _ _ _ Hsplit). simpl negb. cbv iota. rewrite bind_ret.
    rewrite (exists_false _ _ _ Hmiss). reflexivity.
  - intros path. split; [reflexivity|discriminate].
Qed.

Lemma stage2_checks_another_script_witness :
  fst (Stage2.main "recall_precision" 40
         (mkWorld [ (Stage2.BASE_WEIGHTS, JsonFile Props.demo_base);
                    (Stage2.CACHE_V2, OtherFile);
                    (Stage2.SPLIT_FILE, OtherFile);
                    (Stage2.EVALUATOR_RUN, OtherFile) ]
                  [] 0 [] (fun _ _ low _ => low)
                  (fun _ _ _ => Some Props.plain_success) (fun _ => false)))
  = Py.Raise (Py.SystemExit 1).
Proof.
  set (w := mkWorld _ _ _ _ _ _ _).
  assert (H1 : Py.dict_get (files w) Stage2.BASE_WEIGHTS <> None) by discriminate.
  assert (H2 : Py.dict_get (files w) Stage2.CACHE_V2 <> None) by discriminate.
  assert (H3 : Py.dict_get (files w) Stage2.SPLIT_FILE <> None) by discriminate.
  assert (H4 : Py.dict_get (files w) Stage2.EVALUATOR_RUN <> None) by discriminate.
  rewrite (proj1 (stage2_checks_another_script "recall_precision" 40 w
                    H1 H2 H3 H4 eq_refl)).
  reflexivity.
Defined.

End Stage2EvaluatorFacts.

(* ================================================================== *)
(** * The holdout evaluation of the drivers that tune the default file *)
(* ================================================================== *)

Section HoldoutFacts.

Import Sys.








End HoldoutFacts.

(* ================================================================== *)
(** * The best file of optimize_description_weight.py *)
(* ================================================================== *)

Section LoopInvariantFacts.

Import Sys.

Variable objective : nat -> M Py.float.
Variable P : FrozenTrial -> Prop.
Variable I : World -> Prop.

Hypothesis step :
  forall w, Props.well_numbered (trials w) -> I w ->
    exists t,
      trials (snd (Optuna.run_trial objective w)) = trials w ++ [t]
      /\ number t = List.length (trials w)
      /\ P t
      /\ I (snd (Optuna.run_trial objective w)).

(** What every trial establishes holds of all the trials a loop adds. *)
Lemma loop_invariant timed :
  forall budget i w,
    Props.well_numbered (trials w) -> I w ->
    exists added,
      trials (snd (Optuna.optimize_from objective timed budget i w))
        = trials w ++ added
      /\ Forall P added
      /\ I (snd (Optuna.optimize_from objective timed budget i w)).
Proof.
  induction budget as [|budget IH]; intros i w Hwn HI.
  - exists []. simpl. rewrite app_nil_r. repeat split; [constructor|exact HI].
  - destruct (timed && deadline_passed w i) eqn:Hd.
    + exists []. simpl. rewrite Hd. simpl. rewrite app_nil_r.
      repeat split; [constructor|exact HI].
    + rewrite (optimize_from_step _ _ _ _ _ Hd).
      destruct (step w Hwn HI) as [t [Ht [Hn [Hp HI']]]].
      destruct (Optuna.run_trial objective w) as [[u|e] w'] eqn:Hrun;
        simpl in Ht, HI'.
      * assert (Hwn' : Props.well_numbered (trials w')).
        { rewrite Ht. now apply well_numbered_snoc. }
        destruct (IH (S i) w' Hwn' HI') as [added [Ha [Hb Hc]]].
        exists (t :: added). rewrite Ha, Ht, <- app_assoc. simpl.
        repeat split; [constructor; assumption|exact Hc].
      * exists [t]. simpl. repeat split; [exact Ht| |exact HI'].
        constructor; [exact Hp|constructor].
Qed.

End LoopInvariantFacts.

Section DescriptionFacts.

Import Sys.






End DescriptionFacts.

Section DescriptionEdgeFacts.

Import Sys.

(** X13: a base file whose [field_weights] is not an object.  The first
    trial of optimize_description_weight then fails at the assignment of
    line 66 with [TypeError]: the trial is recorded as FAIL with its sampled
    weight, the study is left at once, no evaluator is started and no file
    is written; [main] ends with that exception. *)
Theorem description_rejects_non_object_group
  (n : nat) (w : World) (base : Py.dict Py.json) (j : Py.json) :
  Props.file_at w Description.BASE_WEIGHTS = Some base ->
  Py.dict_get (files w) Description.CACHE_V2 <> None ->
  Py.dict_get (files w) Description.EVALUATOR_JS <> None ->
  Py.dict_get base "field_weights" = Some j ->
  (forall fw, j <> Py.JObj fw) ->
  exists msg v,
    Description.main (S n) w
    = (Py.Raise (Py.TypeError msg),
       with_trials w [ mkTrial 0 FAIL None [ ("desc_about"%string, v) ] ]).
Proof.
  intros Hbase Hcache Hjs Hj Hobj.
  set (w0 := with_trials w []).
  set (started := with_trials w0 (trials w0 ++ [Optuna.blank_trial 0])).
  assert (Hfresh : forall t', In t' (trials w0) -> number t' <> 0)
    by (intros t' []).
  pose proof (suggest_float_spec started (trials w0) (Optuna.blank_trial 0) 0
                "desc_about" 1.0 3.5 eq_refl eq_refl Hfresh) as Hs.
  cbv zeta in Hs.
  set (v := Props.suggested started (params (Optuna.blank_trial 0))
              "desc_about" 1.0 3.5) in Hs.
  clearbody v.
  set (t := Optuna.set_param "desc_about" v (Optuna.blank_trial 0)) in *.
  set (w1 := with_trials started (trials w0 ++ [t])) in *.
  assert (Hread : read_json Description.BASE_WEIGHTS w1 = (Py.Ok base, w1))
    by (apply read_json_file_at; exact Hbase).
  assert (Hset : exists msg,
             Description.set_desc_about base v = Py.Raise (Py.TypeError msg)).
  { unfold Description.set_desc_about. rewrite Hj, Hj.
    destruct j as [| | | | |fw]; try (eexists; reflexivity).
    exfalso. now apply (Hobj fw). }
  destruct Hset as [msg Hset].
  assert (Hobjective : Description.objective 0 started
                       = (Py.Raise (Py.TypeError msg), w1)).
  { unfold Description.objective.
    rewrite (bind_ok _ _ _ _ _ Hs), (bind_ok _ _ _ _ _ Hread), Hset.
    reflexivity. }
  assert (Hrun : Optuna.run_trial Description.objective w0
                 = (Py.Raise (Py.TypeError msg),
                    with_trials w1 (trials w0 ++ [Optuna.set_outcome FAIL None t])))
    by (apply (run_trial_spec Description.objective w0 _ w1 t eq_refl
                 Hobjective eq_refl eq_refl)).
  exists msg, v.
  unfold Description.main.
  rewrite (exists_true _ _ _ (file_at_present _ _ _ Hbase)).
  simpl negb. cbv iota. rewrite bind_ret.
  rewrite (exists_true _ _ _ Hcache). simpl negb. cbv iota. rewrite bind_ret.
  rewrite (exists_true _ _ _ Hjs). simpl negb. cbv iota. rewrite bind_ret.
  rewrite (bind_ok (Optuna.create_study false) _ _ tt _ eq_refl).
  fold w0.
  assert (Hopt : Optuna.optimize Description.objective (S n) false w0
                 = (Py.Raise (Py.TypeError msg),
                    with_trials w1 (trials w0 ++ [Optuna.set_outcome FAIL None t]))).
  { unfold Optuna.optimize.
    rewrite (optimize_from_step Description.objective false n 0 w0 eq_refl), Hrun.
    reflexivity. }
  rewrite (bind_raise _ _ _ _ _ Hopt).
  destruct w. reflexivity.
Qed.

Lemma description_rejects_non_object_group_witness :
  exists msg,
    fst (Description.main 3
           (mkWorld [ (Description.BASE_WEIGHTS,
                       JsonFile [ ("field_weights"%string, Py.JNum 2.0) ]);
                      (Description.CACHE_V2, OtherFile);
                      (Description.EVALUATOR_JS, OtherFile) ]
                    [] 0 [] (fun _ _ low _ => low)
                    (fun _ _ _ => Some Props.plain_success) (fun _ => false)))
    = Py.Raise (Py.TypeError msg).
Proof.
  set (w := mkWorld _ _ _ _ _ _ _).
  assert (H1 : Py.dict_get (files w) Description.CACHE_V2 <> None) by discriminate.
  assert (H2 : Py.dict_get (files w) Description.EVALUATOR_JS <> None)
    by discriminate.
  destruct (description_rejects_non_object_group 2 w
              [ ("field_weights"%string, Py.JNum 2.0) ] (Py.JNum 2.0)
              eq_refl H1 H2 eq_refl ltac:(discriminate)) as [msg [v Hmain]].
  exists msg. now rewrite Hmain.
Defined.

End DescriptionEdgeFacts.

(* ================================================================== *)
(** * The best file of optimize_stage_a_recall.py *)
(* ================================================================== *)

Section StageAFacts.

Import Sys.

Lemma stage_a_run_trials path w :
  trials (snd (StageA.run_stage_a_recall path w)) = trials w.
Proof.
  unfold StageA.run_stage_a_recall, StageA.read_result,
    Sys.bind, exists_, subprocess_run.
  destruct (Py.dict_get (files w) StageA.SPLIT_FILE);
    (match goal with
     | |- context [node ?w ?i ?c ?f] => destruct (node w i c f) as [r|]
     end;
     [destruct (negb (Z.eqb (returncode r) 0));
      [reflexivity|destruct (Py.last_item _); reflexivity]
     |reflexivity]).
Qed.

Lemma stage_a_fields_keys ranges :
  forall n l t acc w,
    trials w = l ++ [t] -> number t = n ->
    (forall t', In t' l -> number t' <> n) ->
    exists ps' acc',
      StageA.sample_fields n ranges acc w =
        (Py.Ok acc', with_trials w (l ++ [mkTrial n (state t) (value t) ps']))
      /\ Py.dict_keys ps' =
         fold_left Props.add_key
           (map (String.append "fw_") (Py.dict_keys ranges))
           (Py.dict_keys (params t)).
Proof.
  induction ranges as [|[key [low high]] ranges IH]; intros n l t acc w Hw Hn Hl.
  - exists (params t), acc. subst n.
    replace (mkTrial (number t) (state t) (value t) (params t)) with t
      by now destruct t.
    rewrite <- Hw, with_trials_same. simpl. split; reflexivity.
  - simpl StageA.sample_fields.
    pose proof (suggest_float_spec w l t n ("fw_" ++ key) low high Hw Hn Hl) as Hs.
    cbv zeta in Hs. rewrite (bind_ok _ _ _ _ _ Hs).
    set (v := Props.suggested w (params t) ("fw_" ++ key) low high) in *.
    destruct (IH n l (Optuna.set_param ("fw_" ++ key) v t)
                 (Py.dict_set acc key (Py.JNum v))
                 (with_trials w (l ++ [Optuna.set_param ("fw_" ++ key) v t]))
                 eq_refl Hn Hl)
      as [ps' [acc' [Hrun Hkeys]]].
    exists ps', acc'. split; [exact Hrun|].
    rewrite Hkeys. simpl. rewrite dict_keys_set. reflexivity.
Qed.

(** The parameter names of a trial of the driver. *)
Lemma stage_a_step tune w :
  Props.well_numbered (trials w) ->
  True ->
  exists t,
    trials (snd (Optuna.run_trial (StageA.objective tune) w)) = trials w ++ [t]
    /\ number t = List.length (trials w)
    /\ Py.dict_keys (params t)
       = ([ "k1"%string; "b"%string ]
          ++ if tune
             then map (String.append "fw_") (Py.dict_keys StageA.FIELD_RANGES)
             else [])%list
    /\ True.
Proof.
  intros Hwn _.
  pose proof (well_numbered_fresh _ Hwn) as Hfresh.
  set (n := List.length (trials w)) in *.
  set (started := with_trials w (trials w ++ [Optuna.blank_trial n])).
  pose proof (suggest_float_spec started (trials w) (Optuna.blank_trial n) n
                "k1" 1.0 2.2 eq_refl eq_refl Hfresh) as H1.
  cbv zeta in H1.
  set (k1 := Props.suggested started (params (Optuna.blank_trial n)) "k1" 1.0 2.2)
    in H1.
  clearbody k1.
  pose proof (suggest_float_spec
                (with_trials started
                   (trials w ++ [Optuna.set_param "k1" k1 (Optuna.blank_trial n)]))
                (trials w) (Optuna.set_param "k1" k1 (Optuna.blank_trial n)) n
                "b" 0.5 0.95 eq_refl eq_refl Hfresh) as H2.
  cbv zeta in H2.
  set (b := Props.suggested _ _ "b" 0.5 0.95) in H2.
  clearbody b.
  set (t2 := Optuna.set_param "b" b
               (Optuna.set_param "k1" k1 (Optuna.blank_trial n))) in *.
  assert (Hobj : exists r w2 ps,
             StageA.objective tune n started = (r, w2)
             /\ trials w2 = trials w ++ [mkTrial n RUNNING None ps]
             /\ Py.dict_keys ps
                = ([ "k1"%string; "b"%string ]
                   ++ if tune
                      then map (String.append "fw_")
                               (Py.dict_keys StageA.FIELD_RANGES)
                      else [])%list).
  { unfold StageA.objective.
    rewrite (bind_ok _ _ _ _ _ H1), (bind_ok _ _ _ _ _ H2).
    destruct tune.
    - destruct (stage_a_fields_keys StageA.FIELD_RANGES n (trials w) t2 []
                  (with_trials
                     (with_trials started
                        (trials w
                         ++ [Optuna.set_param "k1" k1 (Optuna.blank_trial n)]))
                     (trials w ++ [t2]))
                  eq_refl eq_refl Hfresh)
        as [ps' [acc' [Hrun Hkeys]]].
      rewrite bind_assoc, (bind_ok _ _ _ _ _ Hrun).
      rewrite bind_ret.
      rewrite (bind_ok (write_json _ _) _ _ tt _ eq_refl).
      match goal with
      | |- context [StageA.run_stage_a_recall ?p ?W] =>
          destruct (StageA.run_stage_a_recall p W) as [r w2] eqn:Hev;
          pose proof (stage_a_run_trials p W) as Ht
      end.
      rewrite Hev in Ht. cbn [snd] in Ht.
      exists r, w2, ps'. split; [reflexivity|]. split; [exact Ht|].
      rewrite Hkeys. reflexivity.
    - rewrite bind_ret.
      rewrite (bind_ok (write_json _ _) _ _ tt _ eq_refl).
      match goal with
      | |- context [StageA.run_stage_a_recall ?p ?W] =>
          destruct (StageA.run_stage_a_recall p W) as [r w2] eqn:Hev;
          pose proof (stage_a_run_trials p W) as Ht
      end.
      rewrite Hev in Ht. cbn [snd] in Ht.
      exists r, w2, (params t2). split; [reflexivity|]. split; [exact Ht|].
      reflexivity. }
  destruct Hobj as [r [w2 [ps [Hobj [Ht Hkeys]]]]].
  rewrite (run_trial_spec (StageA.objective tune) w r w2
             (mkTrial n RUNNING None ps) Hwn Hobj Ht eq_refl).
  destruct (Props.recorded r) as [[s val]|]; cbn [snd].
  - exists (Optuna.set_outcome s val (mkTrial n RUNNING None ps)).
    repeat split. exact Hkeys.
  - exists (mkTrial n RUNNING None ps). repeat split; assumption.
Qed.

(** The comprehension of lines 109-111 on the parameters of a trial that
    tuned the field weights. *)
Lemma strip_prefixes_spec ps :
  Py.dict_keys ps
  = ([ "k1"%string; "b"%string ]
     ++ map (String.append "fw_") (Py.dict_keys StageA.FIELD_RANGES))%list ->
  Py.dict_keys (StageA.strip_prefixes ps) = Py.dict_keys StageA.FIELD_RANGES
  /\ forall key, In key (Py.dict_keys StageA.FIELD_RANGES) ->
       Py.dict_get (StageA.strip_prefixes ps) key
       = option_map Py.JNum (Py.dict_get ps ("fw_" ++ key)).
Proof.
  intros H.
  do 14 (destruct ps as [|[? ?] ps]; [discriminate H|]).
  destruct ps; [|discriminate H].
  cbn in H. injection H as -> -> -> -> -> -> -> -> -> -> -> -> -> ->.
  split; [reflexivity|].
  intros key Hin. cbn in Hin.
  repeat (destruct Hin as [<-|Hin]; [reflexivity|]). contradiction.
Qed.

(** X14: the best file of optimize_stage_a_recall.  When the prerequisites
    are there, the loop has ended normally and the study has a best trial,
    [main] returns normally and its last act is to write the best file: the
    fixed [stage_a_top_n] with the [k1] and [b] of the best trial, and, when
    the field weights are tuned, the group [field_weights] with one entry
    per field, in the order of the ranges, that holds the value the best
    trial has under the name of the field with the prefix [fw_]. *)
Theorem stage_a_main_writes_best
  (tune : bool) (n : nat) (w w1 : World) (best : FrozenTrial) :
  Py.dict_get (files w) StageA.CACHE_V2 <> None ->
  Py.dict_get (files w) StageA.EVALUATOR_JS <> None ->
  Optuna.optimize (StageA.objective tune) n false (with_trials w [])
    = (Py.Ok tt, w1) ->
  Optuna.best_trial_of (trials w1) = Py.Ok best ->
  exists k1 b,
    Py.dict_get (params best) "k1" = Some k1
    /\ Py.dict_get (params best) "b" = Some b
    /\ StageA.main tune n w
       = (Py.Ok tt,
          with_files w1
            (Py.dict_set (files w1) StageA.BEST_WEIGHTS_PATH
               (JsonFile
                  ([ ("stage_a_top_n"%string, Py.JNum 150);
                     ("k1"%string, Py.JNum k1); ("b"%string, Py.JNum b) ]
                   ++ if tune
                      then [ ("field_weights"%string,
                              Py.JObj (StageA.strip_prefixes (params best))) ]
                      else []))))
    /\ (tune = true ->
        Py.dict_keys (StageA.strip_prefixes (params best))
        = Py.dict_keys StageA.FIELD_RANGES
        /\ forall key, In key (Py.dict_keys StageA.FIELD_RANGES) ->
             Py.dict_get (StageA.strip_prefixes (params best)) key
             = option_map Py.JNum (Py.dict_get (params best) ("fw_" ++ key))).
Proof.
  intros Hcache Hjs Hopt Hbest.
  destruct (loop_invariant (StageA.objective tune)
              (fun t => Py.dict_keys (params t)
                        = ([ "k1"%string; "b"%string ]
                           ++ if tune
                              then map (String.append "fw_")
                                       (Py.dict_keys StageA.FIELD_RANGES)
                              else [])%list)
              (fun _ => True)
              (stage_a_step tune)
              false n 0 (with_trials w []) eq_refl I)
    as [added [Ha [Hall _]]].
  unfold Optuna.optimize in Hopt. rewrite Hopt in Ha. cbn [snd] in Ha.
  simpl in Ha.
  destruct (best_trial_complete _ _ Hbest) as [Hin _].
  rewrite Ha in Hin. rewrite Forall_forall in Hall.
  pose proof (Hall best Hin) as Hkeys.
  assert (Hk1 : In "k1"%string (Py.dict_keys (params best)))
    by (rewrite Hkeys; now left).
  assert (Hb : In "b"%string (Py.dict_keys (params best)))
    by (rewrite Hkeys; right; now left).
  destruct (dict_get_in _ _ Hk1) as [k1 [Ek1 _]].
  destruct (dict_get_in _ _ Hb) as [b [Eb _]].
  exists k1, b. split; [exact Ek1|]. split; [exact Eb|]. split.
  - unfold StageA.main.
    rewrite (exists_true _ _ _ Hcache). simpl negb. cbv iota. rewrite bind_ret.
    rewrite (exists_true _ _ _ Hjs). simpl negb. cbv iota. rewrite bind_ret.
    rewrite (bind_ok (Optuna.create_study false) _ _ tt _ eq_refl).
    unfold Optuna.optimize. rewrite (bind_ok _ _ _ _ _ Hopt).
    rewrite (bind_ok _ _ _ _ _ (best_params_eq _ _ Hbest)).
    unfold Py.dict_item. rewrite Ek1, Eb.
    rewrite (bind_ok (lift _) _ _ k1 w1 eq_refl).
    rewrite (bind_ok (lift _) _ _ b w1 eq_refl).
    destruct tune; reflexivity.
  - intros ->. now apply strip_prefixes_spec.
Qed.

Lemma stage_a_main_writes_best_witness :
  exists out fw,
    Props.file_at
      (snd (StageA.main true 1
              (mkWorld [ (StageA.CACHE_V2, OtherFile);
                         (StageA.EVALUATOR_JS, OtherFile) ]
                       [] 0 [] (fun _ _ low _ => low)
                       (fun _ _ _ => Some Props.plain_success) (fun _ => false))))
      StageA.BEST_WEIGHTS_PATH = Some out
    /\ Py.dict_get out "field_weights" = Some (Py.JObj fw)
    /\ Py.dict_keys fw = Py.dict_keys StageA.FIELD_RANGES.
Proof.
  set (w := mkWorld _ _ _ _ _ _ _).
  assert (H : Optuna.optimize (StageA.objective true) 1 false (with_trials w [])
              = (Py.Ok tt,
                 snd (Optuna.optimize (StageA.objective true) 1 false
                        (with_trials w []))))
    by (vm_compute; reflexivity).
  assert (B : exists best,
             Optuna.best_trial_of
               (trials (snd (Optuna.optimize (StageA.objective true) 1 false
                               (with_trials w []))))
             = Py.Ok best)
    by (eexists; vm_compute; reflexivity).
  destruct B as [best B].
  assert (H1 : Py.dict_get (files w) StageA.CACHE_V2 <> None) by discriminate.
  assert (H2 : Py.dict_get (files w) StageA.EVALUATOR_JS <> None) by discriminate.
  destruct (stage_a_main_writes_best true 1 w _ best H1 H2 H B)
    as [k1 [b [_ [_ [Hmain Hfw]]]]].
  destruct (Hfw eq_refl) as [Hkeys _].
  eexists. exists (StageA.strip_prefixes (params best)).
  rewrite Hmain. split; [apply file_at_written|].
  split; [reflexivity|exact Hkeys].
Defined.

End StageAFacts.

(* ================================================================== *)
(** * The study of optimize_stage2_rescoring.py *)
(* ================================================================== *)

Section LoopOutcomeFacts.

Import Sys.

Variable objective : nat -> M Py.float.
Variable P Q' : FrozenTrial -> Prop.
Variable I : World -> Prop.

Hypothesis step :
  forall w, Props.well_numbered (trials w) -> I w ->
    exists t,
      trials (snd (Optuna.run_trial objective w)) = trials w ++ [t]
      /\ number t = List.length (trials w)
      /\ P t
      /\ (fst (Optuna.run_trial objective w) = Py.Ok tt -> Q' t)
      /\ I (snd (Optuna.run_trial objective w)).


End LoopOutcomeFacts.

Section Stage2Facts.

Import Sys.








End Stage2Facts.

(* ================================================================== *)
(** * The analysis of a study with mixed parameter sets *)
(* ================================================================== *)

Section MixedStudyFacts.

Import Sys.






End MixedStudyFacts.

(* ================================================================== *)
(** * The baseline of the analysis *)
(* ================================================================== *)

Section BaselineFacts.

Lemma read_digits_nonneg s : forall acc cnt,
  (0 <= acc)%Z -> (0 <= fst (fst (Py.read_digits s acc cnt)))%Z.
Proof.
  induction s as [|c s IH]; intros acc cnt H; cbn [Py.read_digits];
    [exact H|].
  destruct (Py.is_digit c); [|exact H].
  apply IH. unfold Py.digit_val. lia.
Qed.

Lemma match_here_nonneg s z : Analyze.match_here s = Some z -> (0 <= z)%Z.
Proof.
  unfold Analyze.match_here.
  destruct (Py.startswith _ s); [|discriminate].
  destruct (Py.lstrip _) as [|c rest]; [discriminate|].
  destruct (Ascii.ascii_dec c ":"%char) as [->|Hc].
  - pose proof (read_digits_nonneg (Py.lstrip rest) 0%Z 0 (Z.le_refl 0)) as H.
    destruct (Py.read_digits (Py.lstrip rest) 0 0) as [[v n] r].
    cbn [fst] in H. destruct n; [discriminate|].
    now intros [= <-].
  - destruct c as [[] [] [] [] [] [] [] []]; try discriminate.
    exfalso. now apply Hc.
Qed.

Lemma search_nonneg s : forall z, Analyze.search s = Some z -> (0 <= z)%Z.
Proof.
  induction s as [|c s IH]; intros z; cbn [Analyze.search].
  - destruct (Analyze.match_here EmptyString) as [v|] eqn:E; [|discriminate].
    intros [= <-]. now apply (match_here_nonneg _ _ E).
  - destruct (Analyze.match_here (String c s)) as [v|] eqn:E.
    + intros [= <-]. now apply (match_here_nonneg _ _ E).
    + apply IH.
Qed.

(** X17: the baseline without a readable baseline file.  When the file is
    absent, or is text that [json.load] rejects, the baseline of the analysis
    is a number that is not negative: 65.0 when the file is absent or the
    text holds no match of the pattern, and otherwise the whole number made
    of the digits of the first match, whatever follows them.  In both cases
    the baseline is one with which the summary and the report can be made. *)
Theorem baseline_without_json (f : Analyze.BaselineFile) :
  (forall d, f <> Analyze.BaselineJson d) ->
  (exists q, Analyze.baseline_value f = Py.JNum q /\ (0 <= q)%Q)
  /\ Py.json_number (Analyze.baseline_value f) <> None
  /\ (f = Analyze.NoBaselineFile -> Analyze.baseline_value f = Py.JNum 65.0)
  /\ (forall content,
        f = Analyze.BaselineText content ->
        Analyze.baseline_value f
        = match Analyze.search content with
          | Some z => Py.JNum (inject_Z z)
          | None => Py.JNum 65.0
          end).
Proof.
  intros Hf. destruct f as [|d|content].
  - split; [exists 65.0%Q; split; [reflexivity|discriminate]|].
    split; [discriminate|]. split; [reflexivity|discriminate].
  - exfalso. now apply (Hf d).
  - unfold Analyze.baseline_value.
    destruct (Analyze.search content) as [z|] eqn:E.
    + split.
      { exists (inject_Z z). split; [reflexivity|].
        change 0%Q with (inject_Z 0). rewrite <- Zle_Qle.
        now apply (search_nonneg content). }
      split; [discriminate|]. split; [discriminate|].
      intros c [= <-]. now rewrite E.
    + split; [exists 65.0%Q; split; [reflexivity|discriminate]|].
      split; [discriminate|]. split; [discriminate|].
      intros c [= <-]. now rewrite E.
Qed.

Lemma baseline_without_json_witness :
  Analyze.baseline_value
    (Analyze.BaselineText
       ("{" ++ String (ascii_of_nat 34) Analyze.BASELINE_KEY
        ++ String (ascii_of_nat 34) ": 72.5, broken")%string)
  = Py.JNum (inject_Z 72).
Proof.
  rewrite (proj2 (proj2 (proj2 (baseline_without_json
                                  (Analyze.BaselineText _)
                                  ltac:(discriminate)))) _ eq_refl).
  reflexivity.
Defined.

End BaselineFacts.

(* ================================================================== *)
(** * The averages over the ten best trials *)
(* ================================================================== *)

Section TopTenFacts.

Import Sys.

Lemma append_to_set d k v :
  Analyze.append_to d k v = Py.dict_set d k (Props.gathered d k ++ [v]).
Proof.
  unfold Props.gathered. induction d as [|[k' l] d IH]; simpl; [reflexivity|].
  destruct (String.eqb k' k); [reflexivity|]. now rewrite IH.
Qed.

Lemma gathered_append_to d k v k' :
  Props.gathered (Analyze.append_to d k v) k'
  = if String.eqb k k' then Props.gathered d k ++ [v] else Props.gathered d k'.
Proof.
  rewrite append_to_set. unfold Props.gathered at 1. rewrite dict_get_set.
  now destruct (String.eqb k k').
Qed.

Lemma dict_get_none_keys {V} (d : Py.dict V) k :
  ~ In k (Py.dict_keys d) -> Py.dict_get d k = None.
Proof.
  induction d as [|[k0 v0] d IH]; simpl; [reflexivity|].
  intros H. destruct (String.eqb k0 k) eqn:E.
  - apply String.eqb_eq in E. exfalso. apply H. now left.
  - apply IH. intros Hin. apply H. now right.
Qed.

Lemma inner_gathered ps : forall acc k,
  NoDup (Py.dict_keys ps) ->
  Props.gathered
    (fold_left (fun acc' kv => Analyze.append_to acc' (fst kv) (snd kv)) ps acc) k
  = Props.gathered acc k ++ Props.entry ps k.
Proof.
  unfold Props.entry.
  induction ps as [|[k0 v0] ps IH]; intros acc k Hnd; cbn [fold_left].
  - simpl. now rewrite app_nil_r.
  - cbn [Py.dict_keys map fst] in Hnd. inversion Hnd as [|? ? Hnotin Hnd']; subst.
    rewrite (IH _ k Hnd'). cbn [fst snd]. rewrite gathered_append_to.
    cbn [Py.dict_get]. destruct (String.eqb k0 k) eqn:E.
    + apply String.eqb_eq in E. subst k0.
      now rewrite (dict_get_none_keys ps k Hnotin), app_nil_r.
    + reflexivity.
Qed.

Lemma inner_keys ps : forall acc,
  Py.dict_keys
    (fold_left (fun acc' kv => Analyze.append_to acc' (fst kv) (snd kv)) ps acc)
  = fold_left Props.add_key (Py.dict_keys ps) (Py.dict_keys acc).
Proof.
  induction ps as [|[k0 v0] ps IH]; intros acc; cbn [fold_left]; [reflexivity|].
  rewrite IH. cbn [fst snd]. rewrite append_to_set, dict_keys_set. reflexivity.
Qed.

Lemma add_keys_fresh ks : forall pre,
  NoDup (pre ++ ks) -> fold_left Props.add_key ks pre = pre ++ ks.
Proof.
  induction ks as [|k ks IH]; intros pre Hnd; simpl; [now rewrite app_nil_r|].
  assert (Hk : existsb (String.eqb k) pre = false).
  { destruct (existsb (String.eqb k) pre) eqn:E; [|reflexivity].
    apply existsb_exists in E. destruct E as [x [Hx Ex]].
    apply String.eqb_eq in Ex. subst x.
    apply NoDup_remove_2 in Hnd. exfalso. apply Hnd, in_or_app. now left. }
  unfold Props.add_key at 2. rewrite Hk.
  rewrite IH; rewrite <- app_assoc; [reflexivity|exact Hnd].
Qed.

Lemma add_keys_present ks : forall have,
  (forall k, In k ks -> In k have) -> fold_left Props.add_key ks have = have.
Proof.
  induction ks as [|k ks IH]; intros have H; simpl; [reflexivity|].
  assert (Hk : existsb (String.eqb k) have = true).
  { apply existsb_exists. exists k. split; [apply H; now left|].
    apply String.eqb_refl. }
  unfold Props.add_key at 2. rewrite Hk.
  apply IH. intros k' Hk'. apply H. now right.
Qed.

Lemma outer_gathered tds : forall acc k,
  (forall t, In t tds -> NoDup (Py.dict_keys (Analyze.t_params t))) ->
  Props.gathered
    (fold_left
       (fun acc t =>
          fold_left (fun acc' kv => Analyze.append_to acc' (fst kv) (snd kv))
                    (Analyze.t_params t) acc) tds acc) k
  = Props.gathered acc k
    ++ flat_map (fun d => Props.entry d k) (map Analyze.t_params tds).
Proof.
  induction tds as [|t tds IH]; intros acc k Hnd; cbn [fold_left map flat_map].
  - now rewrite app_nil_r.
  - rewrite IH by (intros t' Ht'; apply Hnd; now right).
    rewrite inner_gathered by (apply Hnd; now left).
    now rewrite app_assoc.
Qed.

Lemma outer_keys keys tds : forall acc,
  NoDup keys ->
  (forall t, In t tds -> Py.dict_keys (Analyze.t_params t) = keys) ->
  tds <> [] ->
  Py.dict_keys acc = [] \/ Py.dict_keys acc = keys ->
  Py.dict_keys
    (fold_left
       (fun acc t =>
          fold_left (fun acc' kv => Analyze.append_to acc' (fst kv) (snd kv))
                    (Analyze.t_params t) acc) tds acc)
  = keys.
Proof.
  induction tds as [|t tds IH]; intros acc Hnd Hk Hne Hacc; [contradiction|].
  cbn [fold_left].
  assert (Hafter : Py.dict_keys
                     (fold_left
                        (fun acc' kv => Analyze.append_to acc' (fst kv) (snd kv))
                        (Analyze.t_params t) acc) = keys).
  { rewrite inner_keys, (Hk t (or_introl eq_refl)).
    destruct Hacc as [-> | ->].
    - now apply (add_keys_fresh keys []).
    - apply add_keys_present. auto. }
  destruct tds as [|t' tds']; [exact Hafter|].
  apply IH; [exact Hnd| |discriminate|now right].
  intros t0 Ht0. apply Hk. now right.
Qed.

Lemma column_entries k ps vs :
  Analyze.column k ps = Py.Ok vs -> flat_map (fun d => Props.entry d k) ps = vs.
Proof.
  unfold Analyze.column, Props.entry. revert vs.
  induction ps as [|d ps IH]; intros vs H; simpl in *.
  - now apply Ok_inj in H.
  - apply rbind_ok_inv in H. destruct H as [v [Hv H]].
    apply rbind_ok_inv in H. destruct H as [vs' [Hvs' H]].
    apply Ok_inj in H. subst vs.
    unfold Py.dict_item in Hv.
    destruct (Py.dict_get d k); [|discriminate].
    apply Ok_inj in Hv. subst. simpl. f_equal. now apply IH.
Qed.

Lemma rmap_fst {X Y} (G : string * X -> Py.result (string * Y)) l :
  (forall x y, G x = Py.Ok y -> fst y = fst x) ->
  forall l', Py.rmap G l = Py.Ok l' -> Py.dict_keys l' = Py.dict_keys l.
Proof.
  intros Hfst. induction l as [|x l IH]; simpl; intros l' H.
  - apply Ok_inj in H. now subst l'.
  - apply rbind_ok_inv in H. destruct H as [y0 [Hy0 H]].
    apply rbind_ok_inv in H. destruct H as [ys [Hys H]].
    apply Ok_inj in H. subst l'. simpl.
    rewrite (Hfst x y0 Hy0). f_equal. now apply IH.
Qed.

Lemma rmap_lookup {Y} (F : string -> Py.result (string * Y)) ks l' :
  (forall k y, F k = Py.Ok y -> fst y = k) ->
  Py.rmap F ks = Py.Ok l' ->
  forall k, In k ks ->
    exists y, F k = Py.Ok (k, y) /\ Py.dict_get l' k = Some y.
Proof.
  intros Hfst. revert l'.
  induction ks as [|k0 ks IH]; intros l' H k Hin; [contradiction|].
  simpl in H.
  apply rbind_ok_inv in H. destruct H as [[k0' y0] [Hy0 H]].
  apply rbind_ok_inv in H. destruct H as [ys [Hys H]].
  apply Ok_inj in H. subst l'.
  pose proof (Hfst _ _ Hy0) as E. cbn [fst] in E. subst k0'.
  cbn [Py.dict_get]. destruct (String.eqb k0 k) eqn:Ek.
  - apply String.eqb_eq in Ek. subst k0. now exists y0.
  - destruct Hin as [->|Hin]; [now rewrite String.eqb_refl in Ek|].
    now apply (IH ys Hys).
Qed.

Lemma rmap_entries {X Y} (G : string * X -> Py.result (string * Y)) l l' :
  (forall x y, G x = Py.Ok y -> fst y = fst x) ->
  Py.rmap G l = Py.Ok l' ->
  forall k x, Py.dict_get l k = Some x ->
    exists y, G (k, x) = Py.Ok (k, y) /\ Py.dict_get l' k = Some y.
Proof.
  intros Hfst. revert l'.
  induction l as [|[k0 x0] l IH]; intros l' H k x Hget; [discriminate|].
  simpl in H.
  apply rbind_ok_inv in H. destruct H as [[k0' y0] [Hy0 H]].
  apply rbind_ok_inv in H. destruct H as [ys [Hys H]].
  apply Ok_inj in H. subst l'.
  pose proof (Hfst _ _ Hy0) as E. cbn [fst] in E. subst k0'.
  cbn [Py.dict_get] in Hget |- *. destruct (String.eqb k0 k) eqn:Ek.
  - apply String.eqb_eq in Ek. subst k0. injection Hget as <-. now exists y0.
  - now apply (IH ys Hys).
Qed.

(** X18: the averages over the ten best trials.  In the analysis of a study
    whose COMPLETE trials all carry the same parameter names, the section of
    the top-10 averages has one entry per name, in order, and the entry of a
    name holds the mean and the median of that parameter over the trials of
    the top-10 list.  With ten COMPLETE trials or fewer these are the very
    mean and median of the parameter statistics. *)
Theorem top_ten_averages
  (stdev : list Q -> Q) (study : list FrozenTrial) (f : Analyze.BaselineFile)
  (a : Analyze.Analysis) (keys : list string) :
  Forall (fun t => Py.dict_keys (params t) = keys) (Optuna.completed study) ->
  NoDup keys ->
  Analyze.analyse stdev study f = Py.Ok a ->
  Py.dict_keys (Analyze.top_10_average_params a) = keys
  /\ forall k, In k keys ->
       exists vs m med,
         Analyze.column k (map Analyze.t_params (Analyze.top_10_trials a))
           = Py.Ok vs
         /\ Py.mean vs = Py.Ok m /\ Py.median vs = Py.Ok med
         /\ Py.dict_get (Analyze.top_10_average_params a) k
            = Some (Analyze.mkTopAverage m med)
         /\ (List.length (Optuna.completed study) <= 10 ->
             exists st,
               Py.dict_get (Analyze.parameter_statistics a) k = Some st
               /\ Analyze.ps_mean st = m /\ Analyze.ps_median st = med).
Proof.
  intros Hkeys Hnd Ha.
  unfold Analyze.analyse in Ha.
  set (td := Analyze.trials_data study) in *.
  apply rbind_ok_inv in Ha. destruct Ha as [sm [Hsm Ha]].
  apply rbind_ok_inv in Ha. destruct Ha as [ps [Hps Ha]].
  apply rbind_ok_inv in Ha. destruct Ha as [ta [Hta Ha]].
  apply rbind_ok_inv in Ha. destruct Ha as [ca [_ Ha]].
  apply rbind_ok_inv in Ha. destruct Ha as [vd [_ Ha]].
  apply Ok_inj in Ha. subst a.
  cbn [Analyze.top_10_average_params Analyze.top_10_trials
       Analyze.parameter_statistics].
  unfold Analyze.build_summary in Hsm.
  apply rbind_ok_inv in Hsm. destruct Hsm as [best [Hbest _]].
  destruct (trials_data_head study best Hbest) as [rest Hhead]. fold td in Hhead.
  assert (Hlen : List.length td = List.length (Optuna.completed study))
    by apply trials_data_length.
  assert (Htd : forall t, In t td -> Py.dict_keys (Analyze.t_params t) = keys).
  { intros t Ht. unfold td, Analyze.trials_data in Ht.
    apply (Permutation_in _ (sorted_desc_perm _ _)) in Ht.
    apply in_map_iff in Ht. destruct Ht as [t0 [<- Ht0]].
    rewrite Forall_forall in Hkeys. now apply Hkeys. }
  assert (Htop : forall t, In t (Py.first_n 10 td) ->
                           Py.dict_keys (Analyze.t_params t) = keys)
    by (intros t Ht; apply Htd; now apply in_first_n in Ht).
  assert (Hne : Py.first_n 10 td <> []) by (rewrite Hhead; discriminate).
  assert (Hnames : Analyze.param_names td = keys).
  { unfold Analyze.param_names. rewrite Hhead. apply Htd.
    rewrite Hhead. now left. }
  assert (Hgk : Py.dict_keys (Analyze.top_10_params td) = keys).
  { unfold Analyze.top_10_params.
    apply outer_keys; [exact Hnd|exact Htop|exact Hne|now left]. }
  assert (Hfstta : forall (x : string * list Q) (y : string * Analyze.TopAverage),
             Py.rbind (Py.mean (snd x)) (fun m =>
             Py.rbind (Py.median (snd x)) (fun med =>
             Py.Ok (fst x, Analyze.mkTopAverage m med))) = Py.Ok y ->
             fst y = fst x).
  { intros x y H.
    apply rbind_ok_inv in H. destruct H as [m [_ H]].
    apply rbind_ok_inv in H. destruct H as [med [_ H]].
    apply Ok_inj in H. now subst y. }
  unfold Analyze.build_top_10_average in Hta.
  split.
  { rewrite <- Hgk. exact (rmap_fst _ _ Hfstta ta Hta). }
  intros k Hk.
  destruct (column_ok k (map Analyze.t_params (Py.first_n 10 td)))
    as [vs [Hvs Hvl]].
  { intros d Hd. apply in_map_iff in Hd. destruct Hd as [t [<- Ht]].
    assert (Hin : In k (Py.dict_keys (Analyze.t_params t)))
      by (rewrite (Htop t Ht); exact Hk).
    destruct (dict_get_in _ _ Hin) as [j [Hj _]]. rewrite Hj. discriminate. }
  assert (Hg : Py.dict_get (Analyze.top_10_params td) k = Some vs).
  { assert (Hin : In k (Py.dict_keys (Analyze.top_10_params td)))
      by (rewrite Hgk; exact Hk).
    destruct (dict_get_in _ _ Hin) as [l [Hl _]]. rewrite Hl. f_equal.
    assert (E : Props.gathered (Analyze.top_10_params td) k = l)
      by (unfold Props.gathered; now rewrite Hl).
    rewrite <- E. unfold Analyze.top_10_params.
    rewrite outer_gathered.
    - cbn [Props.gathered Py.dict_get app]. now apply column_entries.
    - intros t Ht. now rewrite (Htop t Ht). }
  destruct (rmap_entries _ _ _ Hfstta Hta k vs Hg) as [y [Hy Hget]].
  cbn [fst snd] in Hy.
  apply rbind_ok_inv in Hy. destruct Hy as [m [Hm Hy]].
  apply rbind_ok_inv in Hy. destruct Hy as [med [Hmed Hy]].
  apply Ok_inj in Hy. injection Hy as <-.
  exists vs, m, med.
  split; [exact Hvs|]. split; [exact Hm|]. split; [exact Hmed|].
  split; [exact Hget|].
  intros Hsmall.
  assert (Hall : Py.first_n 10 td = td)
    by (unfold Py.first_n; apply firstn_all2; lia).
  rewrite Hall in Hvs.
  unfold Analyze.build_parameter_statistics in Hps. rewrite Hnames in Hps.
  match type of Hps with
  | Py.rmap ?F _ = _ =>
      destruct (rmap_lookup F keys ps) with (k := k) as [st [Hst Hpget]];
        [|exact Hps|exact Hk|]
  end.
  { intros k0 y0 H.
    apply rbind_ok_inv in H. destruct H as [? [_ H]].
    apply rbind_ok_inv in H. destruct H as [? [_ H]].
    apply rbind_ok_inv in H. destruct H as [? [_ H]].
    apply rbind_ok_inv in H. destruct H as [? [_ H]].
    apply rbind_ok_inv in H. destruct H as [? [_ H]].
    apply Ok_inj in H. now subst y0. }
  cbv beta in Hst. rewrite Hvs in Hst. cbn [Py.rbind] in Hst.
  rewrite Hm, Hmed in Hst. cbn [Py.rbind] in Hst.
  apply rbind_ok_inv in Hst. destruct Hst as [lo [_ Hst]].
  apply rbind_ok_inv in Hst. destruct Hst as [hi [_ Hst]].
  apply Ok_inj in Hst. injection Hst as <-.
  eexists. split; [exact Hpget|]. split; reflexivity.
Qed.

Lemma top_ten_averages_witness :
  exists a m med,
    Analyze.analyse Props.no_stdev Props.good_study Analyze.NoBaselineFile
      = Py.Ok a
    /\ Py.dict_get (Analyze.top_10_average_params a) "anchor_per_match"
       = Some (Analyze.mkTopAverage m med).
Proof.
  assert (H : exists a,
             Analyze.analyse Props.no_stdev Props.good_study Analyze.NoBaselineFile
             = Py.Ok a)
    by (eexists; vm_compute; reflexivity).
  destruct H as [a H].
  assert (Hnd : NoDup [ "procedure_per_match"; "subspecialty_factor";
                        "anchor_per_match" ]%string).
  { repeat constructor; simpl; intuition discriminate. }
  destruct (top_ten_averages Props.no_stdev Props.good_study
              Analyze.NoBaselineFile a
              [ "procedure_per_match"; "subspecialty_factor";
                "anchor_per_match" ]%string
              ltac:(repeat constructor) Hnd H) as [_ Hall].
  destruct (Hall "anchor_per_match"%string ltac:(right; right; now left))
    as [vs [m [med [_ [_ [_ [Hget _]]]]]]].
  exists a, m, med. split; [exact H|exact Hget].
Defined.

End TopTenFacts.
